(** * sendpulse: the claim-and-dispatch engine

    A shallow embedding of the message queue (package [db]), the webhook
    sender (package [webhook]) and the scheduler with its per-tick
    dispatcher (package [service]) of boratanrikulu/sendpulse, followed by
    the properties of the engine.

    Conventions of the embedding:
    - Go's [int] and [int64] are [Z]; where a loop counter can reach the end
      of the 64-bit range the wrap-around is written out ([int_wrap]).
    - a Go [string] is a byte string: [String.string] is a list of 8-bit
      [ascii], and [len] counts bytes.
    - a nullable pointer ([*time.Time], [*string], [*Response]) is an
      [option].
    - [time.Now()] is read from the environment: every function that reads
      the clock takes the instant it reads as an argument.
    - the database and the HTTP receiver are external: a statement either
      executes on the table or fails with the driver's error, which the
      environment supplies ([fault]); the receiver's replies are an oracle. *)

From Stdlib Require Import ZArith List String Ascii Bool Lia.
From Stdlib Require Import Sorted.
Import ListNotations.

Local Open Scope string_scope.
Local Open Scope list_scope.
Local Open Scope Z_scope.

(** ** Go runtime notions shared by the packages *)

Definition Time := Z.

Definition max_int : Z := 2 ^ 63 - 1.

(** Two's complement wrap-around of a 64-bit [int]. *)
Definition int_wrap (z : Z) : Z := (z + 2 ^ 63) mod 2 ^ 64 - 2 ^ 63.

(** [len(s)] of a Go string: its number of bytes. *)
Definition len (s : string) : Z := Z.of_nat (String.length s).

(** Error values that travel through the engine. *)
Inductive error : Type :=
| ErrMessageTooLong                     (* db.ErrMessageTooLong *)
| ErrNoRows                             (* sql.ErrNoRows *)
| ErrStore (reason : string)            (* any other error of the driver or the database *)
| ErrCanceled                           (* context.Canceled *)
| ErrDeadlineExceeded                   (* context.DeadlineExceeded *)
| ErrCreateRequest (url : string)       (* "failed to create request: %w" *)
| ErrRequestFailed (cause : string)     (* "webhook request failed: %w" *)
| ErrWebhookStatus (code : Z).          (* "webhook returned status: %d" *)

(** A call either returns or panics (a panic in any goroutine ends the
    process). *)
Inductive outcome (A : Type) : Type :=
| Returns (a : A)
| Panics (why : string).
Arguments Returns {A} a.
Arguments Panics {A} why.

Definition nil_dereference : string :=
  "invalid memory address or nil pointer dereference".
Definition close_of_closed_channel : string := "close of closed channel".
Definition makechan_size_out_of_range : string := "makechan: size out of range".

(** Number of UTF-8 encoded characters of a byte string: every byte that is
    not a continuation byte (10xxxxxx) starts a character.  This is what
    PostgreSQL's [length(text)] computes, and what "characters" means for a
    Go string holding UTF-8 text. *)
Fixpoint char_length (s : string) : Z :=
  match s with
  | EmptyString => 0
  | String c rest =>
      (if Z.land (Z.of_nat (nat_of_ascii c)) 192 =? 128 then 0 else 1)
      + char_length rest
  end.

(** [strings.Contains], used by the scheduler's tests on response messages. *)
Fixpoint has_prefix (p s : string) : bool :=
  match p, s with
  | EmptyString, _ => true
  | String a p', String b s' => Ascii.eqb a b && has_prefix p' s'
  | String _ _, EmptyString => false
  end.

Fixpoint contains (s sub : string) : bool :=
  has_prefix sub s ||
  match s with
  | EmptyString => false
  | String _ s' => contains s' sub
  end.

(** ** Package db: the persistent queue *)

Module db.

Definition MessageStatus := string.

Definition MessageStatusPending : MessageStatus := "pending".
Definition MessageStatusSending : MessageStatus := "sending".
Definition MessageStatusSent : MessageStatus := "sent".
Definition MessageStatusFailed : MessageStatus := "failed".
Definition MaxMessageLength : Z := 160.

Record Message : Type := mkMessage {
  ID : Z;
  To : string;
  Content : string;
  Status : MessageStatus;
  SentAt : option Time;
  MessageID : option string;
  WebhookResponse : option string;
  CreatedAt : Time;
  UpdatedAt : Time
}.

(** The zero value [Message{}] and the literal [&Message{To: .., Content: ..}]. *)
Definition zeroMessage : Message :=
  mkMessage 0 EmptyString EmptyString EmptyString None None None 0 0.

Definition newMessage (to content : string) : Message :=
  mkMessage 0 to content EmptyString None None None 0 0.

Definition set_ID (v : Z) (m : Message) : Message :=
  mkMessage v (To m) (Content m) (Status m) (SentAt m) (MessageID m)
            (WebhookResponse m) (CreatedAt m) (UpdatedAt m).
Definition set_Status (v : MessageStatus) (m : Message) : Message :=
  mkMessage (ID m) (To m) (Content m) v (SentAt m) (MessageID m)
            (WebhookResponse m) (CreatedAt m) (UpdatedAt m).
Definition set_SentAt (v : option Time) (m : Message) : Message :=
  mkMessage (ID m) (To m) (Content m) (Status m) v (MessageID m)
            (WebhookResponse m) (CreatedAt m) (UpdatedAt m).
Definition set_MessageID (v : option string) (m : Message) : Message :=
  mkMessage (ID m) (To m) (Content m) (Status m) (SentAt m) v
            (WebhookResponse m) (CreatedAt m) (UpdatedAt m).
Definition set_WebhookResponse (v : option string) (m : Message) : Message :=
  mkMessage (ID m) (To m) (Content m) (Status m) (SentAt m) (MessageID m)
            v (CreatedAt m) (UpdatedAt m).
Definition set_CreatedAt (v : Time) (m : Message) : Message :=
  mkMessage (ID m) (To m) (Content m) (Status m) (SentAt m) (MessageID m)
            (WebhookResponse m) v (UpdatedAt m).
Definition set_UpdatedAt (v : Time) (m : Message) : Message :=
  mkMessage (ID m) (To m) (Content m) (Status m) (SentAt m) (MessageID m)
            (WebhookResponse m) (CreatedAt m) v.

(** *** The table [messages]

    Rows in insertion order, and the sequence behind the
    [autoincrement] primary key. *)
Record Store : Type := mkStore {
  rows : list Message;
  next_id : Z
}.

Definition emptyStore : Store := mkStore [] 1.

(** The constraint [check_phone_format]: ["to" ~ '^\+[1-9]\d{1,14}$']. *)
Definition is_digit (c : ascii) : bool :=
  let n := nat_of_ascii c in (48 <=? n)%nat && (n <=? 57)%nat.

Fixpoint all_digits (s : string) : bool :=
  match s with
  | EmptyString => true
  | String c rest => is_digit c && all_digits rest
  end.

Definition check_phone_format (to : string) : bool :=
  match to with
  | String plus (String d rest) =>
      Ascii.eqb plus "+"%char
      && is_digit d && negb (Ascii.eqb d "0"%char)
      && all_digits rest
      && (1 <=? String.length rest)%nat && (String.length rest <=? 14)%nat
  | _ => false
  end.

(** The constraint [check_content_length]: [length(content) <= 1000]. *)
Definition check_content_length (content : string) : bool :=
  char_length content <=? 1000.

Definition has_id (id : Z) (l : list Message) : bool :=
  existsb (fun r => ID r =? id) l.

(** [db.NewInsert().Model(message).Exec(ctx)]: a zero [ID] takes the next
    value of the sequence (which advances whether or not the insert goes
    through), a non-zero one is inserted as given; the row is appended
    when the primary key and the two check constraints hold.  On success
    the generated key is written back into the struct.  The nullable
    columns are stored as the struct holds them. *)
Definition exec_insert (fault : option error) (st : Store) (m : Message)
  : Store * Message * option error :=
  match fault with
  | Some e => (st, m, Some e)
  | None =>
      let id := if ID m =? 0 then next_id st else ID m in
      let seq := if ID m =? 0 then next_id st + 1 else next_id st in
      if has_id id (rows st) then
        (mkStore (rows st) seq, m, Some (ErrStore "unique_violation"))
      else if negb (check_phone_format (To m) && check_content_length (Content m)) then
        (mkStore (rows st) seq, m, Some (ErrStore "check_violation"))
      else
        let row := set_ID id m in
        (mkStore (rows st ++ [row]) seq, row, None)
  end.

(** CreateMessage inserts a new message into the database.  The
    [*Message] argument is mutated in place, so it is returned as the
    caller finds it afterwards. *)
Definition CreateMessage (now1 now2 : Time) (fault : option error)
           (st : Store) (message : Message)
  : Store * Message * option error :=
  if len (Content message) >? MaxMessageLength then
    (st, message, Some ErrMessageTooLong)
  else
    let message := set_CreatedAt now1 message in
    let message := set_UpdatedAt now2 message in
    let message := set_Status MessageStatusPending message in
    exec_insert fault st message.

(** [SELECT id FROM messages WHERE status = ? ORDER BY created_at ASC
    FOR UPDATE SKIP LOCKED LIMIT 1], run by a session while no other
    session holds a row lock: the first row, in table order, among the
    rows of least [created_at] with the given status. *)
Fixpoint oldest (l : list Message) : option Message :=
  match l with
  | [] => None
  | r :: rest =>
      match oldest rest with
      | None => Some r
      | Some r' => if CreatedAt r <=? CreatedAt r' then Some r else Some r'
      end
  end.

Definition has_status (s : MessageStatus) (r : Message) : bool :=
  String.eqb (Status r) s.

Definition select_oldest_id (s : MessageStatus) (st : Store) : option Z :=
  option_map ID (oldest (filter (has_status s) (rows st))).

(** [UPDATE messages SET ... WHERE id = ?] as a map over the table, and
    its [RETURNING *] as the updated rows. *)
Definition update_where_id (id : Z) (f : Message -> Message)
           (l : list Message) : list Message :=
  map (fun r => if ID r =? id then f r else r) l.

Definition returning (id : Z) (f : Message -> Message)
           (l : list Message) : list Message :=
  map f (filter (fun r => ID r =? id) l).

(** The raw claim statement with its [Scan(ctx, message)] into one
    struct: no returned row is [sql.ErrNoRows]. *)
Definition exec_claim (now : Time) (fault : option error) (st : Store)
  : Store * Message * option error :=
  match fault with
  | Some e => (st, zeroMessage, Some e)
  | None =>
      match select_oldest_id MessageStatusPending st with
      | None => (st, zeroMessage, Some ErrNoRows)
      | Some id =>
          let f := fun r => set_UpdatedAt now (set_Status MessageStatusSending r) in
          let st' := mkStore (update_where_id id f (rows st)) (next_id st) in
          match returning id f (rows st) with
          | [] => (st', zeroMessage, Some ErrNoRows)
          | r :: _ => (st', r, None)
          end
      end
  end.

(** ClaimNextMessage atomically claims the next available message for
    processing. *)
Definition ClaimNextMessage (now : Time) (fault : option error) (st : Store)
  : Store * option Message * option error :=
  let '(st', message, err) := exec_claim now fault st in
  match err with
  | Some ErrNoRows => (st', None, None)
  | Some e => (st', None, Some e)
  | None =>
      if ID message =? 0 then (st', None, None)
      else (st', Some message, None)
  end.

(** UpdateMessageStatus updates the status of a message and optionally
    sets sent_at, message_id and webhook_response. *)
Definition status_update (now : Time) (status : MessageStatus)
           (sentAt : option Time) (webhookMessageID webhookResponse : option string)
           (r : Message) : Message :=
  let r := set_Status status r in
  let r := set_UpdatedAt now r in
  let r := match sentAt with
           | Some t => set_SentAt (Some t) r
           | None => r
           end in
  let r := match webhookMessageID with
           | Some i => set_MessageID (Some i) r
           | None => r
           end in
  let r := match webhookResponse with
           | Some w => set_WebhookResponse (Some w) r
           | None => r
           end in
  r.

Definition UpdateMessageStatus (now : Time) (fault : option error)
           (st : Store) (messageID : Z) (status : MessageStatus)
           (sentAt : option Time) (webhookMessageID webhookResponse : option string)
  : Store * option error :=
  match fault with
  | Some e => (st, Some e)
  | None =>
      (mkStore (update_where_id messageID
                  (status_update now status sentAt webhookMessageID webhookResponse)
                  (rows st))
               (next_id st),
       None)
  end.

(** Rows with a given status; [count_pending] is the number of
    claimable messages. *)
Definition count_status (s : MessageStatus) (st : Store) : Z :=
  Z.of_nat (List.length (filter (has_status s) (rows st))).

Definition count_pending (st : Store) : Z :=
  count_status MessageStatusPending st.

End db.

(** ** Package config: the configuration snapshot *)

Module config.

Definition Mode := string.
Definition ModeDev : Mode := "dev".
Definition ModeProd : Mode := "prod".

Record Messaging : Type := mkMessaging {
  Interval : Z;        (* time.Duration, in nanoseconds *)
  BatchSize : Z;
  MaxRetries : Z;
  RetryDelay : Z;      (* time.Duration, in nanoseconds *)
  Enabled : bool
}.

Record Cfg : Type := mkCfg {
  ServerMode : Mode;       (* cfg.Server.Mode *)
  DatabaseDSN : string;    (* cfg.Database.DSN *)
  messaging : Messaging;   (* cfg.Messaging *)
  WebhookURL : string      (* cfg.Webhook.URL *)
}.

(** [validate]: the only checks made on a loaded configuration; [None]
    is the nil error. *)
Definition validate (cfg : Cfg) : option string :=
  if negb (String.eqb (ServerMode cfg) ModeProd)
     && negb (String.eqb (ServerMode cfg) ModeDev) then
    Some "server mode is required"
  else if String.eqb (DatabaseDSN cfg) EmptyString then
    Some "database DSN is required"
  else None.

End config.

(** ** Package webhook: the outbound sender *)

Module webhook.

Record MessagePayload : Type := mkPayload {
  To : string;
  Content : string
}.

Record Response : Type := mkResponse {
  StatusCode : Z;
  Message : string;
  MessageID : string;
  Timestamp : Time
}.

(** What [json.NewDecoder(resp.Body).Decode(&responseBody)] leaves behind:
    the two fields as far as they were filled, and whether it returned
    an error. *)
Record Decoded : Type := mkDecoded {
  body_message : string;
  body_messageId : string;
  decode_failed : bool
}.

(** What [c.httpClient.Do(req)] returns. *)
Inductive RoundTrip : Type :=
| DoError (cause : string)
| DoResponse (code : Z) (body : Decoded).

(** The surroundings of one sender call chain: whether
    [http.NewRequestWithContext] accepts the URL, the receiver's answer
    to the n-th request issued, the clock read after it, and for the
    wait before attempt [a] whether [ctx.Done()] wins the [select]
    ([Some] of [ctx.Err()]) or the retry timer does ([None]). *)
Record Env : Type := mkEnv {
  url_parses : string -> bool;
  reply : nat -> string -> MessagePayload -> RoundTrip;
  clock : nat -> Time;
  ctx_done : Z -> option error
}.

(** SendMessage; [n] is the number of HTTP requests issued so far.
    [json.Marshal] of a struct of two strings cannot fail, so its error
    branch is unreachable and left out. *)
Definition SendMessage (env : Env) (cfg : config.Cfg) (payload : MessagePayload)
           (n : nat) : nat * option Response * option error :=
  if negb (url_parses env (config.WebhookURL cfg)) then
    (n, None, Some (ErrCreateRequest (config.WebhookURL cfg)))
  else
    match reply env n (config.WebhookURL cfg) payload with
    | DoError cause => (S n, None, Some (ErrRequestFailed cause))
    | DoResponse code body =>
        let message :=
          if decode_failed body then "failed to decode response"
          else body_message body in
        let webhookResponse :=
          mkResponse code message (body_messageId body) (clock env n) in
        if (code <? 200) || (code >=? 300) then
          (S n, Some webhookResponse, Some (ErrWebhookStatus code))
        else
          (S n, Some webhookResponse, None)
    end.

(** The loop of SendMessageWithRetry, one iteration per unit of fuel:
    [None] when the fuel runs out before the loop ends. *)
Fixpoint retryLoop (env : Env) (cfg : config.Cfg) (payload : MessagePayload)
         (fuel : nat) (attempt : Z)
         (lastResponse : option Response) (lastErr : option error) (n : nat)
  : option (nat * option Response * option error) :=
  match fuel with
  | O => None
  | S fuel' =>
      if attempt <=? config.MaxRetries (config.messaging cfg) then
        match (if attempt >? 0 then ctx_done env attempt else None) with
        | Some ctxErr => Some (n, lastResponse, Some ctxErr)
        | None =>
            let '(n', response, err) := SendMessage env cfg payload n in
            match err with
            | None => Some (n', response, None)
            | Some _ =>
                retryLoop env cfg payload fuel' (int_wrap (attempt + 1))
                          response err n'
            end
        end
      else Some (n, lastResponse, lastErr)
  end.

Definition SendMessageWithRetry (env : Env) (cfg : config.Cfg)
           (payload : MessagePayload) (fuel : nat) (n : nat)
  : option (nat * option Response * option error) :=
  retryLoop env cfg payload fuel 0 None None n.

(** An attempt that fails: a transport error or a status outside
    [200, 300). *)
Definition fails (rt : RoundTrip) : bool :=
  match rt with
  | DoError _ => true
  | DoResponse code _ => (code <? 200) || (code >=? 300)
  end.

End webhook.

(** ** Package dto *)

Module dto.

(** MessagingControlResponse with its embedded BaseResponse. *)
Record MessagingControlResponse : Type := mkControl {
  Status : string;
  Timestamp : Time;
  Message : string
}.

End dto.

(** ** Package service: the scheduler and its dispatcher *)

Module service.

(** *** Scheduler state

    [running] and [stopCh] are the mutable fields, changed under
    [s.mu.Lock()], so [Start] and [Stop] are atomic transitions.  A
    channel is the identity [make] gave it and whether it was closed;
    [chans_made] is the allocator behind [make(chan struct{})] and
    [loops_started] counts the [go s.processMessages(ctx)] statements
    executed. *)
Record chan : Type := mkChan {
  chan_id : nat;
  closed : bool
}.

Record Scheduler : Type := mkScheduler {
  running : bool;
  stopCh : chan;
  chans_made : nat;
  loops_started : nat
}.

Definition NewScheduler : Scheduler :=
  mkScheduler false (mkChan 0 false) 1 0.

(** Start begins the automatic message sending process. *)
Definition Start (now : Time) (s : Scheduler)
  : Scheduler * dto.MessagingControlResponse * option error :=
  if running s then
    (s, dto.mkControl "error" now "Messaging service is already running", None)
  else
    let s' := mkScheduler true (mkChan (chans_made s) false)
                          (S (chans_made s)) (S (loops_started s)) in
    (s', dto.mkControl "success" now "Messaging service started successfully", None).

(** Stop halts the automatic message sending process.  [close] of a
    closed channel panics. *)
Definition Stop (now : Time) (s : Scheduler)
  : outcome (Scheduler * dto.MessagingControlResponse * option error) :=
  if negb (running s) then
    Returns (s, dto.mkControl "error" now "Messaging service is not running", None)
  else if closed (stopCh s) then
    Panics close_of_closed_channel
  else
    let s' := mkScheduler false (mkChan (chan_id (stopCh s)) true)
                          (chans_made s) (loops_started s) in
    Returns (s', dto.mkControl "success" now "Messaging service stopped successfully", None).

Definition IsRunning (s : Scheduler) : bool := running s.

(** The calls an operator can make on a scheduler. *)
Inductive control : Type :=
| CallStart (now : Time)
| CallStop (now : Time).

Definition call (c : control) (s : Scheduler) : outcome Scheduler :=
  match c with
  | CallStart now => let '(s', _, _) := Start now s in Returns s'
  | CallStop now =>
      match Stop now s with
      | Returns (s', _, _) => Returns s'
      | Panics why => Panics why
      end
  end.

(** Scheduler states that a sequence of calls leads to from
    [NewScheduler]. *)
Inductive reachable : Scheduler -> Prop :=
| reach_new : reachable NewScheduler
| reach_call : forall s c s',
    reachable s -> call c s = Returns s' -> reachable s'.

(** *** The dispatcher *)

Section Dispatcher.

(** [json.Marshal] on a non-nil [*webhook.Response], as a string. *)
Variable json_Marshal : webhook.Response -> string.
Variable cfg : config.Cfg.

(** What one worker meets: the sender's surroundings, the fuel its
    retry loop is given, the two clock readings and the fate of its
    finalizing statement. *)
Record WorkerEnv : Type := mkWorkerEnv {
  http : webhook.Env;
  fuel : nat;
  now_sent : Time;
  now_update : Time;
  update_fault : option error
}.

(** processMessage: [None] while the retry loop has not returned. *)
Definition processMessage (we : WorkerEnv) (st : db.Store) (message : db.Message)
  : option (outcome db.Store) :=
  let payload := webhook.mkPayload (db.To message) (db.Content message) in
  match webhook.SendMessageWithRetry (http we) cfg payload (fuel we) 0 with
  | None => None
  | Some (_, response, err) =>
      match err with
      | Some _ =>
          let '(st', _) :=
            db.UpdateMessageStatus (now_update we) (update_fault we) st
              (db.ID message) db.MessageStatusFailed None None None in
          Some (Returns st')
      | None =>
          (* json.Marshal(response) of a nil pointer is "null", without
             a panic; response.MessageID is the first dereference *)
          match response with
          | None => Some (Panics nil_dereference)
          | Some r =>
              let responseStr := json_Marshal r in
              let messageID := webhook.MessageID r in
              let '(st', _) :=
                db.UpdateMessageStatus (now_update we) (update_fault we) st
                  (db.ID message) db.MessageStatusSent
                  (Some (now_sent we)) (Some messageID) (Some responseStr) in
              Some (Returns st')
          end
      end
  end.

(** One tick.  The main goroutine runs the claiming loop; every
    claimed message gets a worker goroutine whose only write to the
    table is the finalizing statement of [processMessage].  The
    schedule says in which order the iterations of the loop and the
    workers' writes reach the table.  (The semaphore has [BatchSize]
    slots and at most [BatchSize] workers exist, so it never holds a
    worker back.) *)
Record TickState : Type := mkTick {
  store : db.Store;
  i : Z;                          (* the loop variable *)
  claiming : bool;                (* false once the loop hit [break] *)
  inflight : list db.Message;     (* claimed, worker not finished *)
  sentCount : Z
}.

Inductive Event : Type :=
| EvClaim (now : Time) (fault : option error)
| EvWorker (k : nat) (we : WorkerEnv).

Definition BatchSize : Z := config.BatchSize (config.messaging cfg).

Definition loop_done (ts : TickState) : bool :=
  negb (claiming ts) || (BatchSize <=? i ts).

Fixpoint remove_nth {A : Type} (k : nat) (l : list A) : list A :=
  match k, l with
  | _, [] => []
  | O, _ :: t => t
  | S k', x :: t => x :: remove_nth k' t
  end.

(** One iteration of [for i := 0; i < BatchSize; i++]. *)
Definition claim_iteration (now : Time) (fault : option error) (ts : TickState)
  : TickState :=
  if loop_done ts then ts
  else
    let '(st', message, err) := db.ClaimNextMessage now fault (store ts) in
    match err with
    | Some _ =>                                             (* continue *)
        mkTick st' (i ts + 1) true (inflight ts) (sentCount ts)
    | None =>
        match message with
        | None =>                                           (* break *)
            mkTick st' (i ts) false (inflight ts) (sentCount ts)
        | Some msg =>
            mkTick st' (i ts + 1) true (inflight ts ++ [msg]) (sentCount ts + 1)
        end
    end.

(** The k-th unfinished worker runs [processMessage] to its end. *)
Definition worker_finish (k : nat) (we : WorkerEnv) (ts : TickState)
  : outcome TickState :=
  match nth_error (inflight ts) k with
  | None => Returns ts
  | Some msg =>
      match processMessage we (store ts) msg with
      | None => Returns ts
      | Some (Panics why) => Panics why
      | Some (Returns st') =>
          Returns (mkTick st' (i ts) (claiming ts)
                          (remove_nth k (inflight ts)) (sentCount ts))
      end
  end.

Definition tick_step (ev : Event) (ts : TickState) : outcome TickState :=
  match ev with
  | EvClaim now fault => Returns (claim_iteration now fault ts)
  | EvWorker k we => worker_finish k we ts
  end.

Fixpoint run (sch : list Event) (ts : TickState) : outcome TickState :=
  match sch with
  | [] => Returns ts
  | ev :: rest =>
      match tick_step ev ts with
      | Returns ts' => run rest ts'
      | Panics why => Panics why
      end
  end.

(** processBatch up to the point the schedule reaches;
    [make(chan struct{}, BatchSize)] panics on a negative size. *)
Definition processBatch (sch : list Event) (st : db.Store) : outcome TickState :=
  if BatchSize <? 0 then Panics makechan_size_out_of_range
  else run sch (mkTick st 0 true [] 0).

End Dispatcher.

End service.

(** ** The engine as a whole *)

Module engine.

Section Engine.

Variable json_Marshal : webhook.Response -> string.
Variable cfg : config.Cfg.

(** The operations that write the table: a message is enqueued, claimed,
    and finalized by the worker of its claim.  The state is the table and
    the claimed messages whose worker has not finished. *)
Inductive Op : Type :=
| OpEnqueue (to content : string) (now1 now2 : Time) (fault : option error)
| OpClaim (now : Time) (fault : option error)
| OpWorker (k : nat) (we : service.WorkerEnv).

(** The body of the loop of [seedMessages]: CreateMessage on
    [&db.Message{To: .., Content: ..}]. *)
Definition enqueue (to content : string) (now1 now2 : Time)
           (fault : option error) (st : db.Store) : db.Store * option error :=
  let '(st', _, err) :=
    db.CreateMessage now1 now2 fault st (db.newMessage to content) in
  (st', err).

(** One operation; [None] when a worker panics, which ends the process. *)
Definition step (op : Op) (s : db.Store * list db.Message)
  : option (db.Store * list db.Message) :=
  let '(st, fl) := s in
  match op with
  | OpEnqueue to content now1 now2 fault =>
      Some (fst (enqueue to content now1 now2 fault st), fl)
  | OpClaim now fault =>
      let '(st', message, _) := db.ClaimNextMessage now fault st in
      match message with
      | Some msg => Some (st', fl ++ [msg])
      | None => Some (st', fl)
      end
  | OpWorker k we =>
      match nth_error fl k with
      | None => Some (st, fl)
      | Some msg =>
          match service.processMessage json_Marshal cfg we st msg with
          | Some (Returns st') => Some (st', service.remove_nth k fl)
          | Some (Panics _) => None
          | None => Some (st, fl)
          end
      end
  end.

Fixpoint run (ops : list Op) (s : db.Store * list db.Message)
  : option (db.Store * list db.Message) :=
  match ops with
  | [] => Some s
  | op :: rest =>
      match step op s with
      | Some s' => run rest s'
      | None => None
      end
  end.

End Engine.

End engine.

(** ** strconv *)

Definition digit_value (c : ascii) : option Z :=
  let n := nat_of_ascii c in
  if (48 <=? n)%nat && (n <=? 57)%nat then Some (Z.of_nat n - 48) else None.

Fixpoint parse_digits (s : string) (acc : Z) : option Z :=
  match s with
  | EmptyString => Some acc
  | String c rest =>
      match digit_value c with
      | Some d => parse_digits rest (10 * acc + d)
      | None => None
      end
  end.

(** [strconv.ParseInt(s, 10, 64)]: an optional sign, then at least one
    decimal digit and nothing else, the value within 64 bits.  [None]
    stands for the [*NumError] of either kind (syntax or range), which its
    callers here tell apart from success only. *)
Definition ParseInt (s : string) : option Z :=
  match s with
  | EmptyString => None
  | String c rest =>
      let neg := Ascii.eqb c "-"%char in
      let body := if Ascii.eqb c "+"%char || Ascii.eqb c "-"%char then rest else s in
      match body with
      | EmptyString => None
      | _ =>
          match parse_digits body 0 with
          | None => None
          | Some u =>
              let v := if neg then - u else u in
              if (- 2 ^ 63 <=? v) && (v <=? max_int) then Some v else None
          end
      end
  end.

(** [strconv.Atoi], where [int] has 64 bits. *)
Definition Atoi (s : string) : option Z := ParseInt s.

(** The zero [time.Time], which a response holds until a handler stamps it. *)
Definition zero_time : Time := 0.

(** ** Package db: the history queries *)

Module queries.

(** [ORDER BY sent_at DESC]: later instants first, and NULL before every
    instant, as PostgreSQL orders a descending column.  Rows of equal
    [sent_at] come in an order the database is free to choose; here they
    keep their table order. *)
Definition sent_at_ge (a b : db.Message) : bool :=
  match db.SentAt a, db.SentAt b with
  | None, _ => true
  | Some _, None => false
  | Some x, Some y => y <=? x
  end.

Fixpoint insert_desc (r : db.Message) (l : list db.Message) : list db.Message :=
  match l with
  | [] => [r]
  | h :: t => if sent_at_ge r h then r :: l else h :: insert_desc r t
  end.

Definition order_by_sent_at_desc (l : list db.Message) : list db.Message :=
  fold_right insert_desc [] l.

Definition sent_rows (st : db.Store) : list db.Message :=
  order_by_sent_at_desc (filter (db.has_status db.MessageStatusSent) (db.rows st)).

(** GetSentMessages retrieves all sent messages with pagination.  The
    query builder leaves out a LIMIT or an OFFSET of zero.  This is the
    query for a limit of at least one and an offset from 0 to below
    2^31, which is what the properties below assume of the arguments. *)
Definition GetSentMessages (fault : option error) (st : db.Store) (limit offset : Z)
  : list db.Message * option error :=
  match fault with
  | Some e => ([], Some e)
  | None =>
      let from := skipn (Z.to_nat offset) (sent_rows st) in
      (if limit =? 0 then from else firstn (Z.to_nat limit) from, None)
  end.

(** GetMessageByID retrieves a single message by its ID; the struct it
    returns is the zero message when the scan fails. *)
Definition GetMessageByID (fault : option error) (st : db.Store) (id : Z)
  : db.Message * option error :=
  match fault with
  | Some e => (db.zeroMessage, Some e)
  | None =>
      match find (fun r => db.ID r =? id) (db.rows st) with
      | Some r => (r, None)
      | None => (db.zeroMessage, Some ErrNoRows)
      end
  end.

(** GetTotalSentMessagesCount returns the total count of sent messages. *)
Definition GetTotalSentMessagesCount (fault : option error) (st : db.Store)
  : Z * option error :=
  match fault with
  | Some e => (0, Some e)
  | None => (db.count_status db.MessageStatusSent st, None)
  end.

End queries.

(** ** Package service: the message service *)

Module messages.

Definition DefaultPageSize : Z := 20.
Definition MaxPageSize : Z := 100.
Definition MinPageSize : Z := 1.
Definition MinPage : Z := 1.

(** The errors of the service: the three of pagination, the two sentinels
    that wrap a cause ([fmt.Errorf("%w: %s", ..)]), and an error of the
    store passed on as it is. *)
Inductive svc_error : Type :=
| ErrInvalidPageSize
| ErrPageSizeTooLarge
| ErrPageSizeTooSmall
| ErrMessageNotFound (cause : error)
| ErrInvalidMessageID
| Passed (e : error).

Section Service.

(** [map[string]any] and [json.Unmarshal] into it ([None]: it failed). *)
Variable JsonObject : Type.
Variable json_Unmarshal : string -> option JsonObject.

(** dto.MessageResponse *)
Record MessageResponse : Type := mkMessageResponse {
  ID : Z;
  To : string;
  Content : string;
  Status : string;
  SentAt : option Time;
  MessageID : option string;
  WebhookResponse : option JsonObject;
  CreatedAt : Time
}.

(** dto.MessagesListResponse *)
Record MessagesListResponse : Type := mkList {
  ListStatus : string;
  ListTimestamp : Time;
  Messages : list MessageResponse;
  Total : Z;
  Page : Z;
  PageSize : Z
}.

(** dto.SingleMessageResponse *)
Record SingleMessageResponse : Type := mkSingle {
  SingleStatus : string;
  SingleTimestamp : Time;
  Message : MessageResponse
}.

(** convertToMessageResponse converts db.Message to dto.MessageResponse *)
Definition convertToMessageResponse (msg : db.Message) : MessageResponse :=
  mkMessageResponse
    (db.ID msg) (db.To msg) (db.Content msg) (db.Status msg)
    (db.SentAt msg) (db.MessageID msg)
    (match db.WebhookResponse msg with
     | Some w => json_Unmarshal w
     | None => None
     end)
    (db.CreatedAt msg).

(** GetSentMessages retrieves paginated sent messages.  Its two queries
    are two statements: [st] is the table the first one meets, [st'] the
    table the second one meets. *)
Definition GetSentMessages (fault fault' : option error) (st st' : db.Store)
           (page pageSize : Z)
  : option MessagesListResponse * option svc_error :=
  let page := if page <? MinPage then MinPage else page in
  if pageSize <? 0 then (None, Some ErrInvalidPageSize)
  else
    let pageSize := if pageSize =? 0 then DefaultPageSize else pageSize in
    if pageSize >? MaxPageSize then (None, Some ErrPageSizeTooLarge)
    else if pageSize <? MinPageSize then (None, Some ErrPageSizeTooSmall)
    else
      let offset := int_wrap ((page - 1) * pageSize) in
      let '(msgs, err) := queries.GetSentMessages fault st pageSize offset in
      match err with
      | Some e => (None, Some (Passed e))
      | None =>
          let '(total, err) := queries.GetTotalSentMessagesCount fault' st' in
          match err with
          | Some e => (None, Some (Passed e))
          | None =>
              (Some (mkList "ok" zero_time (map convertToMessageResponse msgs)
                            total page pageSize),
               None)
          end
      end.

(** GetMessageByID retrieves a single message by its ID *)
Definition GetMessageByID (fault : option error) (st : db.Store) (id : string)
  : option SingleMessageResponse * option svc_error :=
  match ParseInt id with
  | None => (None, Some ErrInvalidMessageID)
  | Some messageID =>
      let '(message, err) := queries.GetMessageByID fault st messageID in
      match err with
      | Some e => (None, Some (ErrMessageNotFound e))
      | None => (Some (mkSingle "ok" zero_time (convertToMessageResponse message)), None)
      end
  end.

End Service.

End messages.

(** ** Package rest: the handlers *)

Module rest.

(** The text an error response carries: a literal, or [err.Error()]. *)
Inductive text : Type :=
| Lit (s : string)
| ErrorOf (e : messages.svc_error)
| ErrorOfGo (e : error).

Section Handlers.

Variable JsonObject : Type.
Variable json_Unmarshal : string -> option JsonObject.

(** What [c.Status(code).JSON(body)] sends. *)
Inductive Body : Type :=
| ControlBody (r : dto.MessagingControlResponse)
| ListBody (r : messages.MessagesListResponse JsonObject)
| SingleBody (r : messages.SingleMessageResponse JsonObject)
| ErrorBody (timestamp : Time) (message : text) (error : option text).

Definition handleError (now : Time) (err : text) : Z * Body :=
  (500, ErrorBody now (Lit "Internal server error") (Some err)).




(** listMessagesHandler; the two arguments are [c.Query("page")] and
    [c.Query("page_size")], empty when the parameter is absent.  A nil
    response next to a nil error would be dereferenced. *)
Definition listMessagesHandler (now : Time) (fault fault' : option error)
           (st st' : db.Store) (pageParam pageSizeParam : string)
  : outcome (Z * Body) :=
  let page :=
    if String.eqb pageParam EmptyString then 1
    else match Atoi pageParam with Some p => p | None => 1 end in
  let pageSize :=
    if String.eqb pageSizeParam EmptyString then 20
    else match Atoi pageSizeParam with Some ps => ps | None => 20 end in
  match messages.GetSentMessages JsonObject json_Unmarshal fault fault' st st'
                                 page pageSize with
  | (_, Some err) =>
      match err with
      | messages.ErrInvalidPageSize
      | messages.ErrPageSizeTooLarge
      | messages.ErrPageSizeTooSmall => Returns (400, ErrorBody now (ErrorOf err) None)
      | _ => Returns (handleError now (ErrorOf err))
      end
  | (Some response, None) =>
      Returns
        (200,
         ListBody (messages.mkList JsonObject
                     (messages.ListStatus _ response) now
                     (messages.Messages _ response) (messages.Total _ response)
                     (messages.Page _ response) (messages.PageSize _ response)))
  | (None, None) => Panics nil_dereference
  end.

(** getMessageHandler; the argument is [c.Params("id")]. *)
Definition getMessageHandler (now : Time) (fault : option error)
           (st : db.Store) (messageID : string) : outcome (Z * Body) :=
  if String.eqb messageID EmptyString then
    Returns (400, ErrorBody now (Lit "Message ID is required") None)
  else
    match messages.GetMessageByID JsonObject json_Unmarshal fault st messageID with
    | (_, Some err) =>
        match err with
        | messages.ErrMessageNotFound _ =>
            Returns (404, ErrorBody now (Lit "Message not found") None)
        | messages.ErrInvalidMessageID =>
            Returns (400, ErrorBody now (Lit "Invalid message ID format") None)
        | _ => Returns (handleError now (ErrorOf err))
        end
    | (Some response, None) =>
        Returns
          (200,
           SingleBody (messages.mkSingle JsonObject
                         (messages.SingleStatus _ response) now
                         (messages.Message _ response)))
    | (None, None) => Panics nil_dereference
    end.

End Handlers.

End rest.

(** ** The seed command *)

Module seed.

Definition sampleMessages : list string :=
  ["Welcome to our service!";
   "Your order has been confirmed";
   "Don't miss our special offer";
   "Thank you for your purchase";
   "Your payment was successful";
   "Reminder: Your appointment is tomorrow";
   "New features are now available";
   "Your subscription expires soon";
   "Flash sale: 50% off everything";
   "Security alert: Login detected";
   "Your delivery is on the way";
   "Happy birthday! Here's a gift";
   "Limited time offer ends today";
   "Your account has been updated";
   "New message from support team"].

Definition turkishPhoneNumbers : list string :=
  ["+905551234567"; "+905552345678"; "+905553456789";
   "+905554567890"; "+905555678901"; "+905556789012";
   "+905557890123"; "+905558901234"; "+905559012345";
   "+905550123456"; "+905551111111"; "+905552222222";
   "+905553333333"; "+905554444444"; "+905555555555"].

(** What a run of the command meets: the numbers its generator yields,
    call after call, the clock readings of CreateMessage and the fate of
    each insert. *)
Record Env : Type := mkEnv {
  draw : nat -> nat;
  created : nat -> Time;
  updated : nat -> Time;
  insert_fault : nat -> option error
}.

(** [rng.Intn(n)] on the k-th call: some index below [n]. *)
Definition Intn (env : Env) (k : nat) (n : nat) : nat := draw env k mod n.

(** The loop of seedMessages from iteration [i] on, with [remaining]
    iterations to go; the error carries the [i+1] of its text. *)
Fixpoint loop (env : Env) (remaining i : nat) (st : db.Store)
  : db.Store * option (Z * error) :=
  match remaining with
  | O => (st, None)
  | S remaining' =>
      let message :=
        db.newMessage
          (nth (Intn env (2 * i) (List.length turkishPhoneNumbers))
               turkishPhoneNumbers EmptyString)
          (nth (Intn env (2 * i + 1) (List.length sampleMessages))
               sampleMessages EmptyString) in
      let '(st', _, err) :=
        db.CreateMessage (created env i) (updated env i) (insert_fault env i)
                         st message in
      match err with
      | Some e => (st', Some (Z.of_nat i + 1, e))
      | None => loop env remaining' (S i) st'
      end
  end.

Definition seedMessages (env : Env) (count : Z) (st : db.Store)
  : db.Store * option (Z * error) :=
  loop env (Z.to_nat count) 0 st.

End seed.

(** ** Package config: loading *)

Module configload.

(** [Cfg] with the two fields that [config.Cfg] above leaves out. *)
Record Loaded : Type := mkLoaded {
  AppName : string;
  ServerAddress : string;
  core : config.Cfg
}.

(** [&Cfg{}] *)
Definition zero : Loaded :=
  mkLoaded EmptyString EmptyString
           (config.mkCfg EmptyString EmptyString
                         (config.mkMessaging 0 0 0 0 false) EmptyString).

Definition minute : Z := 60 * 1000000000.
Definition second : Z := 1000000000.

Definition setDefaults (c : Loaded) : Loaded :=
  mkLoaded "sendpulse" ":8080"
           (config.mkCfg config.ModeDev (config.DatabaseDSN (core c))
                         (config.mkMessaging (2 * minute) 2 3 (2 * second) false)
                         (config.WebhookURL (core c))).

Inductive load_error : Type :=
| ErrUnmarshal                       (* "unmarshaling config: %w" *)
| ErrInvalid (reason : string).      (* "invalid config: %w" *)

(** What reading the file gives: it cannot be read (a warning, and the
    defaults stay), it cannot be unmarshalled, or it overwrites fields. *)
Inductive FileRead : Type :=
| ReadFailed
| UnmarshalFailed
| Unmarshalled (f : Loaded -> Loaded).

Section Env.

(** [os.Getenv] (empty when the variable is not set),
    [time.ParseDuration] and [fmt.Sscanf(s, "%d", &x)] ([None]: an error,
    the target keeps its value), and the file reader. *)
Variable getenv : string -> string.
Variable ParseDuration : string -> option Z.
Variable Sscanf_d : string -> option Z.
Variable read_file : string -> FileRead.

Definition or_keep {A : Type} (var : string) (old : A) (f : string -> option A) : A :=
  if String.eqb (getenv var) EmptyString then old
  else match f (getenv var) with Some v => v | None => old end.

(** loadFromEnv overrides config values with environment variables if
    they exist.  Every variable sets a field of its own, so the sequence
    of assignments is one record. *)
Definition loadFromEnv (c : Loaded) : Loaded :=
  let m := config.messaging (core c) in
  mkLoaded
    (or_keep "SENDPULSE_APP_NAME" (AppName c) Some)
    (or_keep "SENDPULSE_SERVER_ADDRESS" (ServerAddress c) Some)
    (config.mkCfg
       (or_keep "SENDPULSE_SERVER_MODE" (config.ServerMode (core c)) Some)
       (or_keep "SENDPULSE_DATABASE_DSN" (config.DatabaseDSN (core c)) Some)
       (config.mkMessaging
          (or_keep "SENDPULSE_MESSAGING_INTERVAL" (config.Interval m) ParseDuration)
          (or_keep "SENDPULSE_MESSAGING_BATCH_SIZE" (config.BatchSize m) Sscanf_d)
          (or_keep "SENDPULSE_MESSAGING_MAX_RETRIES" (config.MaxRetries m) Sscanf_d)
          (or_keep "SENDPULSE_MESSAGING_RETRY_DELAY" (config.RetryDelay m) ParseDuration)
          (or_keep "SENDPULSE_MESSAGING_ENABLED" (config.Enabled m)
                   (fun v => Some (String.eqb v "true"))))
       (or_keep "SENDPULSE_WEBHOOK_URL" (config.WebhookURL (core c)) Some)).

Definition NewConfig (filepath : string) : option Loaded * option load_error :=
  let cfg := setDefaults zero in
  let fromFile :=
    if String.eqb filepath EmptyString then Some cfg
    else match read_file filepath with
         | ReadFailed => Some cfg
         | UnmarshalFailed => None
         | Unmarshalled f => Some (f cfg)
         end in
  match fromFile with
  | None => (None, Some ErrUnmarshal)
  | Some cfg =>
      let cfg := loadFromEnv cfg in
      match config.validate (core cfg) with
      | Some reason => (None, Some (ErrInvalid reason))
      | None => (Some cfg, None)
      end
  end.

End Env.

End configload.

(** ** Predicates of the specification *)

(** A table as the schema keeps it: the primary key is unique, and no key
    is zero (the sequence starts at 1 and a zero [ID] is never inserted as
    given). *)
Definition wf_store (st : db.Store) : Prop :=
  NoDup (map db.ID (db.rows st)) /\ ~ In 0 (map db.ID (db.rows st)).

(** The status of the row with a given key. *)
Definition status_of (id : Z) (l : list db.Message) : option db.MessageStatus :=
  option_map db.Status (find (fun r => db.ID r =? id) l).

(** Workers in flight: each holds a message of its own, whose row is in
    status sending. *)
Definition tracked (l fl : list db.Message) : Prop :=
  NoDup (map db.ID fl) /\
  Forall (fun m => status_of (db.ID m) l = Some db.MessageStatusSending) fl.

(** The row invariant: a legal status, and the three delivery fields set
    exactly on [sent] rows. *)
Definition legal_status (s : db.MessageStatus) : Prop :=
  s = db.MessageStatusPending \/ s = db.MessageStatusSending \/
  s = db.MessageStatusSent \/ s = db.MessageStatusFailed.

Definition delivery_fields_set (r : db.Message) : Prop :=
  db.SentAt r <> None /\ db.MessageID r <> None /\ db.WebhookResponse r <> None.

Definition delivery_fields_null (r : db.Message) : Prop :=
  db.SentAt r = None /\ db.MessageID r = None /\ db.WebhookResponse r = None.

Definition row_ok (r : db.Message) : Prop :=
  legal_status (db.Status r) /\
  (db.Status r = db.MessageStatusSent -> delivery_fields_set r) /\
  (db.Status r <> db.MessageStatusSent -> delivery_fields_null r).

(** The row [UpdateMessageStatus] leaves in place of [r], field by field. *)
Definition finalized (now : Time) (status : db.MessageStatus)
           (sentAt : option Time) (webhookMessageID webhookResponse : option string)
           (r : db.Message) : db.Message :=
  db.mkMessage
    (db.ID r) (db.To r) (db.Content r)
    status
    (match sentAt with Some t => Some t | None => db.SentAt r end)
    (match webhookMessageID with Some x => Some x | None => db.MessageID r end)
    (match webhookResponse with Some x => Some x | None => db.WebhookResponse r end)
    (db.CreatedAt r)
    now.

(** The row [ClaimNextMessage] leaves in place of [r]. *)
Definition claimed (now : Time) (r : db.Message) : db.Message :=
  db.mkMessage (db.ID r) (db.To r) (db.Content r) db.MessageStatusSending
               (db.SentAt r) (db.MessageID r) (db.WebhookResponse r)
               (db.CreatedAt r) now.

(** Text of [n] copies of [s]. *)
Fixpoint repeat_string (n : nat) (s : string) : string :=
  match n with
  | O => EmptyString
  | S n' => String.append s (repeat_string n' s)
  end.

(** The letter s-cedilla, two bytes in UTF-8 (C5 9F). *)
Definition s_cedilla : string :=
  String (ascii_of_nat 197) (String (ascii_of_nat 159) EmptyString).

(** Text whose every byte is below 128, so that a character is a byte. *)
Fixpoint single_byte_text (s : string) : bool :=
  match s with
  | EmptyString => true
  | String c rest => (nat_of_ascii c <? 128)%nat && single_byte_text rest
  end.

(** The response and error in hand after [d] more failed attempts. *)
Definition last_of (env : webhook.Env) (cfg : config.Cfg)
           (payload : webhook.MessagePayload)
           (d : nat) (lastResponse : option webhook.Response)
           (lastErr : option error) (n : nat)
  : option webhook.Response * option error :=
  match d with
  | O => (lastResponse, lastErr)
  | S d' => let '(_, r, e) := webhook.SendMessage env cfg payload (n + d') in (r, e)
  end.

(** Counting the rows of a status in a list of rows. *)
Definition b2z (b : bool) : Z := if b then 1 else 0.

Definition count_in (s : db.MessageStatus) (l : list db.Message) : Z :=
  Z.of_nat (List.length (filter (db.has_status s) l)).

(** What holds of a tick that met no claim error, on a table that had
    [k] pending rows when the tick began. *)
Definition tick_inv (cfg : config.Cfg) (k : Z) (ts : service.TickState) : Prop :=
  wf_store (service.store ts) /\
  tracked (db.rows (service.store ts)) (service.inflight ts) /\
  0 <= service.i ts <= service.BatchSize cfg /\
  service.sentCount ts = service.i ts /\
  db.count_pending (service.store ts) + service.sentCount ts = k /\
  (service.claiming ts = false -> db.count_pending (service.store ts) = 0).

(** A schedule of a tick: events whose claim met no error, and the number
    of iterations of the loop the schedule holds. *)
Definition no_claim_fault (ev : service.Event) : bool :=
  match ev with
  | service.EvClaim _ (Some _) => false
  | _ => true
  end.

Definition is_claim (ev : service.Event) : bool :=
  match ev with
  | service.EvClaim _ _ => true
  | service.EvWorker _ _ => false
  end.

Definition claim_events (sch : list service.Event) : Z :=
  Z.of_nat (List.length (filter is_claim sch)).

(** What holds of the table and the workers in flight along every run of
    the engine. *)
Definition sys_inv (s : db.Store * list db.Message) : Prop :=
  wf_store (fst s) /\ 1 <= db.next_id (fst s) /\
  tracked (db.rows (fst s)) (snd s) /\ Forall row_ok (db.rows (fst s)).

(** ** Concrete inputs *)

(** A receiver that answers every request with the given status and an
    undecodable body. *)
Definition always_status (code : Z) : webhook.Env :=
  webhook.mkEnv (fun _ => true)
                (fun _ _ _ => webhook.DoResponse code (webhook.mkDecoded EmptyString EmptyString true))
                (fun k => Z.of_nat k)
                (fun _ => None).

Definition cfg_with (batchSize maxRetries : Z) : config.Cfg :=
  config.mkCfg config.ModeDev "postgres://localhost/sendpulse"
               (config.mkMessaging 120000000000 batchSize maxRetries 2000000000 true)
               "http://localhost:9000/hook".

Definition hello : webhook.MessagePayload :=
  webhook.mkPayload "+905551111111" "Test message".

Definition plain_json (r : webhook.Response) : string :=
  String.append "message_id=" (webhook.MessageID r).

Definition worker_env (env : webhook.Env) : service.WorkerEnv :=
  service.mkWorkerEnv env 10 50 51 None.

Definition a_sending_row : db.Message :=
  db.mkMessage 1 "+905551111111" "Test message" db.MessageStatusSending
               None None None 5 6.

Definition text160 : string := repeat_string 160 "a".
Definition text161 : string := repeat_string 161 "a".

Definition three_rows : db.Store :=
  db.mkStore
    [db.mkMessage 1 "+905551111111" "first" db.MessageStatusSent
                  (Some 40) (Some "m-1") (Some "message_id=m-1") 10 41;
     db.mkMessage 2 "+905552222222" "second" db.MessageStatusPending
                  None None None 30 30;
     db.mkMessage 3 "+905553333333" "third" db.MessageStatusPending
                  None None None 20 20]
    4.

Definition three_pending : db.Store :=
  db.mkStore
    [db.mkMessage 1 "+905551111111" "first" db.MessageStatusPending
                  None None None 10 10;
     db.mkMessage 2 "+905552222222" "second" db.MessageStatusPending
                  None None None 20 20;
     db.mkMessage 3 "+905553333333" "third" db.MessageStatusPending
                  None None None 30 30]
    4.

Definition one_tick : list service.Event :=
  [service.EvClaim 100 None;
   service.EvWorker 0 (worker_env (always_status 200));
   service.EvClaim 101 None;
   service.EvWorker 0 (worker_env (always_status 500))].

Definition some_ops : list engine.Op :=
  [engine.OpEnqueue "+905551111111" "first" 10 10 None;
   engine.OpEnqueue "+905552222222" "second" 20 20 None;
   engine.OpEnqueue "+905553333333" "third" 30 30 None;
   engine.OpClaim 100 None;
   engine.OpClaim 101 None;
   engine.OpWorker 1 (worker_env (always_status 500));
   engine.OpWorker 0 (worker_env (always_status 200))].

Definition delivered_row : db.Message :=
  db.mkMessage 1 "+905551111111" "first" db.MessageStatusSent
               (Some 50) (Some EmptyString) (Some "message_id=") 10 51.

Definition after_some_ops : db.Store :=
  db.mkStore
    [delivered_row;
     db.mkMessage 2 "+905552222222" "second" db.MessageStatusFailed
                  None None None 20 51;
     db.mkMessage 3 "+905553333333" "third" db.MessageStatusPending
                  None None None 30 30]
    4.

(** A receiver that fails the first [j] requests with 500 and accepts the
    later ones, and a context whose deadline passes during the wait before
    attempt [j]. *)
Definition fail_then_ok (j : nat) : webhook.Env :=
  webhook.mkEnv (fun _ => true)
                (fun k _ _ =>
                   if (k <? j)%nat
                   then webhook.DoResponse 500 (webhook.mkDecoded EmptyString EmptyString true)
                   else webhook.DoResponse 200 (webhook.mkDecoded "Accepted" "retry-123" false))
                (fun k => Z.of_nat k)
                (fun _ => None).

Definition deadline_at (j : Z) : webhook.Env :=
  webhook.mkEnv (fun _ => true)
                (fun _ _ _ => webhook.DoResponse 500 (webhook.mkDecoded EmptyString EmptyString true))
                (fun k => Z.of_nat k)
                (fun a => if a =? j then Some ErrDeadlineExceeded else None).

(** The order of the history: each row is followed by one sent no later. *)
Definition history_sorted (l : list db.Message) : Prop :=
  Sorted (fun a b => queries.sent_at_ge a b = true) l.

(** The page and the page size a list request asks for: the parameter
    when it is a number, the default otherwise. *)
Definition asked_page (pageParam : string) : Z :=
  match Atoi pageParam with Some p => p | None => 1 end.

Definition asked_page_size (pageSizeParam : string) : Z :=
  match Atoi pageSizeParam with Some ps => ps | None => 20 end.



(** A JSON object kept as its text. *)
Definition as_text (s : string) : option string := Some s.

(** Five sent rows, delivered in the order 3, 1, 5, 2, 4, and a pending one. *)
Definition history : db.Store :=
  db.mkStore
    [db.mkMessage 1 "+905551111111" "one" db.MessageStatusSent
                  (Some 200) (Some "m-1") (Some "message_id=m-1") 10 201;
     db.mkMessage 2 "+905552222222" "two" db.MessageStatusSent
                  (Some 400) (Some "m-2") (Some "message_id=m-2") 20 401;
     db.mkMessage 3 "+905553333333" "three" db.MessageStatusSent
                  (Some 100) (Some "m-3") (Some "message_id=m-3") 30 101;
     db.mkMessage 4 "+905554444444" "four" db.MessageStatusSent
                  (Some 500) (Some "m-4") (Some "message_id=m-4") 40 501;
     db.mkMessage 5 "+905555555555" "five" db.MessageStatusSent
                  (Some 300) (Some "m-5") (Some "message_id=m-5") 50 301;
     db.mkMessage 6 "+905556666666" "six" db.MessageStatusPending
                  None None None 60 60]
    7.

(** How far a row is in its life: pending, then sending, then one of the
    two final statuses. *)
Definition rank (s : db.MessageStatus) : Z :=
  if String.eqb s db.MessageStatusPending then 0
  else if String.eqb s db.MessageStatusSending then 1
  else 2.

(** [r'] is what became of the row [r]: the same message, no earlier in
    its life, and the very same row if [r] was final. *)
Definition became (r r' : db.Message) : Prop :=
  db.ID r' = db.ID r /\ db.To r' = db.To r /\ db.Content r' = db.Content r /\
  db.CreatedAt r' = db.CreatedAt r /\
  rank (db.Status r) <= rank (db.Status r') /\
  (rank (db.Status r) = 2 -> r' = r).

(** What holds of every tick, claim errors or not, on a table that had
    [k] pending rows when the tick began. *)
Definition tick_cap (cfg : config.Cfg) (k : Z) (ts : service.TickState) : Prop :=
  wf_store (service.store ts) /\
  tracked (db.rows (service.store ts)) (service.inflight ts) /\
  0 <= service.sentCount ts <= service.i ts /\
  service.i ts <= service.BatchSize cfg /\
  db.count_pending (service.store ts) + service.sentCount ts = k /\
  Z.of_nat (List.length (service.inflight ts)) <= service.sentCount ts.

(** The number of worker operations in a run of the engine. *)
Definition worker_ops (ops : list engine.Op) : Z :=
  Z.of_nat (List.length
              (filter (fun op => match op with engine.OpWorker _ _ => true | _ => false end)
                      ops)).

Definition sent_total (st : db.Store) : Z :=
  fst (queries.GetTotalSentMessagesCount None st).

(** A run of the engine in two parts, and the tables in between and after. *)
Definition ops_before : list engine.Op :=
  [engine.OpEnqueue "+905551111111" "first" 10 10 None;
   engine.OpEnqueue "+905552222222" "second" 20 20 None;
   engine.OpEnqueue "+905553333333" "third" 30 30 None;
   engine.OpClaim 100 None;
   engine.OpClaim 101 None;
   engine.OpWorker 1 (worker_env (always_status 500))].

Definition ops_after : list engine.Op :=
  [engine.OpWorker 0 (worker_env (always_status 200));
   engine.OpClaim 102 None].

Definition state_before : db.Store * list db.Message :=
  Eval vm_compute in
    match engine.run plain_json (cfg_with 2 3) ops_before (db.emptyStore, []) with
    | Some s => s
    | None => (db.emptyStore, [])
    end.

Definition state_after : db.Store * list db.Message :=
  Eval vm_compute in
    match engine.run plain_json (cfg_with 2 3) ops_after state_before with
    | Some s => s
    | None => (db.emptyStore, [])
    end.

Definition failed_row : db.Message :=
  db.mkMessage 2 "+905552222222" "second" db.MessageStatusFailed
               None None None 20 51.

(** A tick whose first claim meets an error of the store. *)
Definition faulty_tick : list service.Event :=
  [service.EvClaim 100 (Some (ErrStore "connection reset"));
   service.EvClaim 101 None;
   service.EvClaim 102 None].

Definition after_faulty_tick : service.TickState :=
  Eval vm_compute in
    match service.processBatch plain_json (cfg_with 2 3) faulty_tick three_pending with
    | Returns ts => ts
    | Panics _ => service.mkTick three_pending 0 true [] 0
    end.

(** A table fed through its sequence only: every key is below the next
    value of the sequence. *)
Definition seq_fresh (st : db.Store) : Prop :=
  1 <= db.next_id st /\ Forall (fun r => db.ID r < db.next_id st) (db.rows st).

(** A row as the seed command inserts it. *)
Definition seeded (r : db.Message) : Prop :=
  db.Status r = db.MessageStatusPending /\
  db.SentAt r = None /\ db.MessageID r = None /\ db.WebhookResponse r = None /\
  In (db.To r) seed.turkishPhoneNumbers /\ In (db.Content r) seed.sampleMessages.

(** A generator that counts, a clock that ticks, and a store that fails
    the insert of iteration [j]. *)
Definition seed_env (j : nat) : seed.Env :=
  seed.mkEnv (fun k => (7 * k + 3)%nat)
             (fun i => Z.of_nat (100 + i))
             (fun i => Z.of_nat (100 + i))
             (fun i => if (i =? j)%nat then Some (ErrStore "connection reset") else None).

(** An environment that sets the DSN and a retry count of -1. *)
Definition an_environment (var : string) : string :=
  if String.eqb var "SENDPULSE_DATABASE_DSN" then "postgres://localhost/sendpulse"
  else if String.eqb var "SENDPULSE_MESSAGING_MAX_RETRIES" then "-1"
  else EmptyString.

Definition no_duration (s : string) : option Z := None.
Definition no_file (path : string) : configload.FileRead := configload.ReadFailed.

(** * Properties *)

(** ** The scheduler's state machine *)

Lemma running_stopCh_open (s : service.Scheduler) :
  service.reachable s ->
  service.running s = true -> service.closed (service.stopCh s) = false.
Proof.
  induction 1 as [|s c s' Hr IH Hc]; [discriminate|].
  destruct c as [now|now]; cbn in Hc.
  - unfold service.Start in Hc.
    destruct (service.running s) eqn:Hrun.
    + injection Hc as <-. intros _. now apply IH.
    + injection Hc as <-. reflexivity.
  - unfold service.Stop in Hc.
    destruct (service.running s) eqn:Hrun; cbn in Hc.
    + destruct (service.closed (service.stopCh s)); [discriminate|].
      injection Hc as <-. discriminate.
    + injection Hc as <-. rewrite Hrun. discriminate.
Qed.

(** C5. From every scheduler state that calls of Start and Stop lead to:
    Start when stopped answers "success" and sets running; Start when
    running answers "error" with "already running" and changes nothing;
    Stop when running answers "success" and clears running; Stop when
    stopped answers "error" with "not running" and changes nothing; each
    of the four returns the nil error. *)
Theorem scheduler_two_state_machine (s : service.Scheduler) (now : Time) :
  service.reachable s ->
  (service.running s = false ->
     exists s' r,
       service.Start now s = (s', r, None) /\
       dto.Status r = "success" /\ service.running s' = true) /\
  (service.running s = true ->
     exists r,
       service.Start now s = (s, r, None) /\
       dto.Status r = "error" /\
       contains (dto.Message r) "already running" = true) /\
  (service.running s = true ->
     exists s' r,
       service.Stop now s = Returns (s', r, None) /\
       dto.Status r = "success" /\ service.running s' = false) /\
  (service.running s = false ->
     exists r,
       service.Stop now s = Returns (s, r, None) /\
       dto.Status r = "error" /\
       contains (dto.Message r) "not running" = true).
Proof.
  intros Hreach. repeat split; intros Hrun.
  - unfold service.Start. rewrite Hrun. eauto.
  - unfold service.Start. rewrite Hrun. eexists. repeat split.
  - unfold service.Stop. rewrite Hrun, (running_stopCh_open s Hreach Hrun).
    cbn. eauto.
  - unfold service.Stop. rewrite Hrun. cbn. eexists. repeat split.
Qed.

Lemma scheduler_two_state_machine_witness :
  (service.running service.NewScheduler = false ->
     exists s' r,
       service.Start 7 service.NewScheduler = (s', r, None) /\
       dto.Status r = "success" /\ service.running s' = true) /\
  (service.running service.NewScheduler = true ->
     exists r,
       service.Start 7 service.NewScheduler = (service.NewScheduler, r, None) /\
       dto.Status r = "error" /\
       contains (dto.Message r) "already running" = true) /\
  (service.running service.NewScheduler = true ->
     exists s' r,
       service.Stop 7 service.NewScheduler = Returns (s', r, None) /\
       dto.Status r = "success" /\ service.running s' = false) /\
  (service.running service.NewScheduler = false ->
     exists r,
       service.Stop 7 service.NewScheduler = Returns (service.NewScheduler, r, None) /\
       dto.Status r = "error" /\
       contains (dto.Message r) "not running" = true).
Proof.
  apply (scheduler_two_state_machine service.NewScheduler 7 service.reach_new).
Defined.

(** Start, Stop, Start, Stop ends stopped, like a single Start, Stop. *)
Example start_stop_twice :
  exists s1 s2 s3 s4,
    service.call (service.CallStart 1) service.NewScheduler = Returns s1 /\
    service.call (service.CallStop 2) s1 = Returns s2 /\
    service.call (service.CallStart 3) s2 = Returns s3 /\
    service.call (service.CallStop 4) s3 = Returns s4 /\
    service.running s2 = false /\ service.running s4 = false.
Proof. do 4 eexists. repeat split. Qed.

(** ** The webhook sender *)

Lemma int_wrap_id (z : Z) : - 2 ^ 63 <= z <= max_int -> int_wrap z = z.
Proof.
  unfold int_wrap, max_int. intros H.
  rewrite Z.mod_small; lia.
Qed.

(** C9. A single send whose HTTP status is outside [200, 300) returns the
    error naming that status together with the populated response: the
    status code, the decoded message (or the decode-failure text), the
    decoded message id and the timestamp. *)
Theorem SendMessage_status_error
        (env : webhook.Env) (cfg : config.Cfg) (payload : webhook.MessagePayload)
        (n : nat) (code : Z) (body : webhook.Decoded) :
  webhook.url_parses env (config.WebhookURL cfg) = true ->
  webhook.reply env n (config.WebhookURL cfg) payload = webhook.DoResponse code body ->
  code < 200 \/ 300 <= code ->
  webhook.SendMessage env cfg payload n =
    (S n,
     Some (webhook.mkResponse
             code
             (if webhook.decode_failed body then "failed to decode response"
              else webhook.body_message body)
             (webhook.body_messageId body)
             (webhook.clock env n)),
     Some (ErrWebhookStatus code)).
Proof.
  intros Hurl Hreply Hcode. unfold webhook.SendMessage.
  rewrite Hurl, Hreply. cbn.
  replace ((code <? 200) || (code >=? 300)) with true; [reflexivity|].
  symmetry. apply orb_true_iff. destruct Hcode; [left|right]; lia.
Qed.

Lemma SendMessage_status_error_witness :
  webhook.SendMessage (always_status 500) (cfg_with 2 3) hello 0 =
    (1%nat,
     Some (webhook.mkResponse 500 "failed to decode response" EmptyString 0),
     Some (ErrWebhookStatus 500)).
Proof.
  apply (SendMessage_status_error (always_status 500) (cfg_with 2 3) hello 0 500
                                  (webhook.mkDecoded EmptyString EmptyString true));
    [reflexivity | reflexivity | right; lia].
Defined.

Section Retry.

Variable env : webhook.Env.
Variable cfg : config.Cfg.
Variable payload : webhook.MessagePayload.

Let maxRetries := config.MaxRetries (config.messaging cfg).
Let url := config.WebhookURL cfg.

Lemma SendMessage_fails (n : nat) :
  webhook.url_parses env url = true ->
  webhook.fails (webhook.reply env n url payload) = true ->
  exists response e,
    webhook.SendMessage env cfg payload n = (S n, response, Some e).
Proof.
  intros Hurl Hf. unfold webhook.SendMessage. fold url. rewrite Hurl. cbn.
  destruct (webhook.reply env n url payload) as [cause|code body]; cbn in *.
  - eauto.
  - rewrite Hf. eauto.
Qed.

Lemma retryLoop_all_fail :
  webhook.url_parses env url = true ->
  (forall k, webhook.fails (webhook.reply env k url payload) = true) ->
  (forall a, webhook.ctx_done env a = None) ->
  maxRetries < max_int ->
  forall (d : nat) (attempt : Z) (fuel : nat) lastResponse lastErr (n : nat),
    0 <= attempt ->
    attempt + Z.of_nat d = maxRetries + 1 ->
    (d < fuel)%nat ->
    webhook.retryLoop env cfg payload fuel attempt lastResponse lastErr n =
      Some ((n + d)%nat,
            fst (last_of env cfg payload d lastResponse lastErr n),
            snd (last_of env cfg payload d lastResponse lastErr n)).
Proof.
  intros Hurl Hfail Hctx Hmax.
  induction d as [|d IH]; intros attempt fuel lr le n Ha Hd Hfuel;
    (destruct fuel as [|fuel]; [lia|]); cbn [webhook.retryLoop]; fold maxRetries.
  - replace (attempt <=? maxRetries) with false by lia.
    cbn. now rewrite Nat.add_0_r.
  - replace (attempt <=? maxRetries) with true by lia.
    replace (if attempt >? 0 then webhook.ctx_done env attempt else None)
      with (@None error) by (destruct (attempt >? 0); [now rewrite Hctx|reflexivity]).
    destruct (SendMessage_fails n Hurl (Hfail n)) as (response & e & Hsend).
    rewrite Hsend.
    rewrite int_wrap_id by (unfold max_int in *; lia).
    rewrite (IH (attempt + 1) fuel response (Some e) (S n)) by lia.
    replace (S n + d)%nat with (n + S d)%nat by lia.
    destruct d as [|d'].
    + cbn [last_of]. rewrite Nat.add_0_r, Hsend. reflexivity.
    + cbn [last_of]. replace (S n + d')%nat with (n + S d')%nat by lia.
      reflexivity.
Qed.

Lemma retryLoop_negative (fuel : nat) (n : nat) :
  maxRetries < 0 ->
  (0 < fuel)%nat ->
  webhook.SendMessageWithRetry env cfg payload fuel n = Some (n, None, None).
Proof.
  intros Hneg Hfuel. unfold webhook.SendMessageWithRetry.
  destruct fuel as [|fuel]; [lia|]. cbn [webhook.retryLoop]. fold maxRetries.
  replace (0 <=? maxRetries) with false by lia. reflexivity.
Qed.

(** With at least one iteration the loop never returns the nil response
    together with the nil error. *)
Lemma retryLoop_not_nil_nil :
  forall (fuel : nat) (attempt : Z) lastResponse lastErr (n n' : nat) response,
    (lastErr <> None \/ attempt <= maxRetries) ->
    webhook.retryLoop env cfg payload fuel attempt lastResponse lastErr n
      = Some (n', response, None) ->
    response <> None.
Proof.
  induction fuel as [|fuel IH]; intros attempt lr le n n' response Hpre;
    cbn [webhook.retryLoop]; fold maxRetries; [discriminate|].
  destruct (attempt <=? maxRetries) eqn:Hle.
  - destruct (if attempt >? 0 then webhook.ctx_done env attempt else None);
      [discriminate|].
    destruct (webhook.SendMessage env cfg payload n) as [[n1 r1] e1] eqn:Hsend.
    destruct e1 as [e1|].
    + apply IH. left. discriminate.
    + intros H. injection H as <- <-.
      unfold webhook.SendMessage in Hsend.
      destruct (negb (webhook.url_parses env (config.WebhookURL cfg)));
        [discriminate|].
      destruct (webhook.reply env n (config.WebhookURL cfg) payload);
        [discriminate|].
      destruct ((code <? 200) || (code >=? 300));
        injection Hsend as _ <-; discriminate.
  - intros H. injection H as _ _ ->.
    destruct Hpre as [Hpre|Hpre]; [now elim Hpre | lia].
Qed.

End Retry.

(** C4. With a context that is never done and a receiver that fails every
    attempt, SendMessageWithRetry issues exactly [MaxRetries + 1] HTTP
    requests and returns the response and the error of the last one. *)
Theorem SendMessageWithRetry_exhausts
        (env : webhook.Env) (cfg : config.Cfg) (payload : webhook.MessagePayload)
        (fuel n : nat) :
  0 <= config.MaxRetries (config.messaging cfg) < max_int ->
  webhook.url_parses env (config.WebhookURL cfg) = true ->
  (forall k, webhook.fails (webhook.reply env k (config.WebhookURL cfg) payload) = true) ->
  (forall a, webhook.ctx_done env a = None) ->
  (Z.to_nat (config.MaxRetries (config.messaging cfg)) + 1 < fuel)%nat ->
  exists lastResponse lastErr,
    webhook.SendMessageWithRetry env cfg payload fuel n =
      Some ((n + Z.to_nat (config.MaxRetries (config.messaging cfg) + 1))%nat,
            lastResponse, Some lastErr) /\
    webhook.SendMessage env cfg payload
                        (n + Z.to_nat (config.MaxRetries (config.messaging cfg)))%nat =
      (S (n + Z.to_nat (config.MaxRetries (config.messaging cfg))),
       lastResponse, Some lastErr).
Proof.
  set (maxRetries := config.MaxRetries (config.messaging cfg)).
  intros Hrange Hurl Hfail Hctx Hfuel.
  destruct (SendMessage_fails env cfg payload (n + Z.to_nat maxRetries) Hurl (Hfail _))
    as (response & e & Hsend).
  exists response, e. split; [|exact Hsend].
  unfold webhook.SendMessageWithRetry.
  rewrite (retryLoop_all_fail env cfg payload Hurl Hfail Hctx (proj2 Hrange)
             (Z.to_nat (maxRetries + 1)) 0 fuel None None n);
    [| lia | fold maxRetries; lia | lia].
  replace (Z.to_nat (maxRetries + 1)) with (S (Z.to_nat maxRetries)) by lia.
  cbn [last_of]. rewrite Hsend. reflexivity.
Qed.

Lemma SendMessageWithRetry_exhausts_witness :
  exists lastResponse lastErr,
    webhook.SendMessageWithRetry (always_status 500) (cfg_with 2 2) hello 4 0 =
      Some (3%nat, lastResponse, Some lastErr) /\
    webhook.SendMessage (always_status 500) (cfg_with 2 2) hello 2 =
      (3%nat, lastResponse, Some lastErr).
Proof.
  apply (SendMessageWithRetry_exhausts (always_status 500) (cfg_with 2 2) hello 4 0).
  - cbn. unfold max_int. lia.
  - reflexivity.
  - intros k. reflexivity.
  - intros a. reflexivity.
  - cbn. lia.
Defined.

(** The scenario of the sender's own test: two retries, three requests. *)
Example retry_three_attempts :
  webhook.SendMessageWithRetry (always_status 500) (cfg_with 2 2) hello 10 0 =
    Some (3%nat,
          Some (webhook.mkResponse 500 "failed to decode response" EmptyString 2),
          Some (ErrWebhookStatus 500)).
Proof. reflexivity. Qed.

(** C10. Under a negative [MaxRetries] the retry loop runs no iteration:
    SendMessageWithRetry issues no HTTP request and returns the nil
    response with the nil error; processMessage then takes its success
    path and dereferences the nil response, whatever the message. *)
Theorem negative_max_retries_nil_dereference
        (json_Marshal : webhook.Response -> string) (cfg : config.Cfg)
        (env : webhook.Env) (payload : webhook.MessagePayload) (fuel n : nat)
        (we : service.WorkerEnv) (st : db.Store) (message : db.Message) :
  config.MaxRetries (config.messaging cfg) < 0 ->
  (0 < fuel)%nat ->
  (0 < service.fuel we)%nat ->
  webhook.SendMessageWithRetry env cfg payload fuel n = Some (n, None, None) /\
  service.processMessage json_Marshal cfg we st message = Some (Panics nil_dereference).
Proof.
  intros Hneg Hfuel Hwfuel. split.
  - now apply retryLoop_negative.
  - unfold service.processMessage.
    rewrite retryLoop_negative by assumption. reflexivity.
Qed.

Lemma negative_max_retries_nil_dereference_witness :
  webhook.SendMessageWithRetry (always_status 200) (cfg_with 2 (-1)) hello 1 0
    = Some (0%nat, None, None) /\
  service.processMessage plain_json (cfg_with 2 (-1)) (worker_env (always_status 200))
                         (db.mkStore [a_sending_row] 2) a_sending_row
    = Some (Panics nil_dereference).
Proof.
  apply (negative_max_retries_nil_dereference
           plain_json (cfg_with 2 (-1)) (always_status 200) hello 1 0
           (worker_env (always_status 200)) (db.mkStore [a_sending_row] 2)
           a_sending_row).
  - cbn. lia.
  - lia.
  - cbn. lia.
Defined.

(** A configuration with a negative retry count passes [validate]. *)
Example validate_accepts_negative_retries :
  config.validate (cfg_with 2 (-1)) = None.
Proof. reflexivity. Qed.

(** ** The queue *)

Lemma status_update_finalized now status sentAt mid wr (r : db.Message) :
  db.status_update now status sentAt mid wr r = finalized now status sentAt mid wr r.
Proof. destruct sentAt, mid, wr; reflexivity. Qed.

(** C7. UpdateMessageStatus rewrites, in the rows carrying the given id,
    the status and updated_at, and those of sent_at, message_id and
    webhook_response that were passed non-nil; id, to, content and
    created_at of these rows, every other row and the sequence are left as
    they were.  A statement the driver fails writes nothing.  The failure
    path of processMessage is the call with three nils, which writes the
    status and updated_at only. *)
Theorem UpdateMessageStatus_frame
        (now : Time) (st : db.Store) (messageID : Z) (status : db.MessageStatus)
        (sentAt : option Time) (webhookMessageID webhookResponse : option string) :
  db.UpdateMessageStatus now None st messageID status
                         sentAt webhookMessageID webhookResponse =
    (db.mkStore
       (map (fun r =>
               if db.ID r =? messageID then
                 db.mkMessage
                   (db.ID r) (db.To r) (db.Content r)
                   status
                   (match sentAt with Some t => Some t | None => db.SentAt r end)
                   (match webhookMessageID with Some x => Some x | None => db.MessageID r end)
                   (match webhookResponse with Some x => Some x | None => db.WebhookResponse r end)
                   (db.CreatedAt r)
                   now
               else r)
            (db.rows st))
       (db.next_id st),
     None) /\
  (forall e,
      db.UpdateMessageStatus now (Some e) st messageID status
                             sentAt webhookMessageID webhookResponse = (st, Some e)) /\
  (forall json_Marshal cfg we message n' response e,
      webhook.SendMessageWithRetry
        (service.http we) cfg
        (webhook.mkPayload (db.To message) (db.Content message))
        (service.fuel we) 0 = Some (n', response, Some e) ->
      service.update_fault we = None ->
      service.processMessage json_Marshal cfg we st message =
        Some (Returns
                (db.mkStore
                   (map (fun r =>
                           if db.ID r =? db.ID message then
                             db.mkMessage
                               (db.ID r) (db.To r) (db.Content r)
                               db.MessageStatusFailed
                               (db.SentAt r) (db.MessageID r) (db.WebhookResponse r)
                               (db.CreatedAt r)
                               (service.now_update we)
                           else r)
                        (db.rows st))
                   (db.next_id st)))).
Proof.
  repeat split.
  - unfold db.UpdateMessageStatus, db.update_where_id. f_equal. f_equal.
    apply map_ext. intros r. destruct (db.ID r =? messageID); [|reflexivity].
    apply status_update_finalized.
  - intros json_Marshal cfg we message n' response e Hsend Hfault.
    unfold service.processMessage. rewrite Hsend.
    unfold db.UpdateMessageStatus. rewrite Hfault. reflexivity.
Qed.

Lemma UpdateMessageStatus_frame_witness :
  service.processMessage plain_json (cfg_with 2 2) (worker_env (always_status 500))
                         (db.mkStore [a_sending_row] 2) a_sending_row =
    Some (Returns
            (db.mkStore
               [db.mkMessage 1 "+905551111111" "Test message" db.MessageStatusFailed
                             None None None 5 51]
               2)).
Proof.
  apply (proj2 (proj2 (UpdateMessageStatus_frame
                         0 (db.mkStore [a_sending_row] 2) 1 db.MessageStatusFailed
                         None None None))
               plain_json (cfg_with 2 2) (worker_env (always_status 500))
               a_sending_row 3%nat
               (Some (webhook.mkResponse 500 "failed to decode response" EmptyString 2))
               (ErrWebhookStatus 500));
    reflexivity.
Defined.

(** The success path writes all three delivery fields. *)
Example finalize_sent_row :
  service.processMessage plain_json (cfg_with 2 2) (worker_env (always_status 200))
                         (db.mkStore [a_sending_row] 2) a_sending_row =
    Some (Returns
            (db.mkStore
               [db.mkMessage 1 "+905551111111" "Test message" db.MessageStatusSent
                             (Some 50) (Some EmptyString) (Some "message_id=") 5 51]
               2)).
Proof. reflexivity. Qed.

Lemma char_length_le_len (s : string) : char_length s <= len s.
Proof.
  unfold len. induction s as [|c s IH]; cbn [char_length String.length]; [lia|].
  destruct (Z.land (Z.of_nat (nat_of_ascii c)) 192 =? 128); lia.
Qed.

Lemma single_byte_char_length (s : string) :
  single_byte_text s = true -> char_length s = len s.
Proof.
  unfold len. induction s as [|c s IH]; cbn [single_byte_text char_length String.length];
    [reflexivity|].
  intros H. apply andb_true_iff in H as [Hc Hs]. rewrite (IH Hs).
  replace (Z.land (Z.of_nat (nat_of_ascii c)) 192 =? 128) with false; [lia|].
  destruct c as [b0 b1 b2 b3 b4 b5 b6 b7].
  destruct b7.
  - exfalso. revert Hc.
    destruct b0, b1, b2, b3, b4, b5, b6; vm_compute; discriminate.
  - destruct b0, b1, b2, b3, b4, b5, b6; reflexivity.
Qed.

(** C8, the claim as stated fails: a content of exactly 160 characters,
    each of them two bytes long, is rejected with ErrMessageTooLong. *)
Lemma CreateMessage_rejects_160_characters :
  char_length (repeat_string 160 s_cedilla) = 160 /\
  db.CreateMessage 10 10 None db.emptyStore
                   (db.newMessage "+905551234567" (repeat_string 160 s_cedilla)) =
    (db.emptyStore,
     db.newMessage "+905551234567" (repeat_string 160 s_cedilla),
     Some ErrMessageTooLong).
Proof. split; vm_compute; reflexivity. Qed.

(** C8, amended.  CreateMessage measures the content in bytes.  A content
    of more than 160 characters, and more generally of more than 160
    bytes, fails with ErrMessageTooLong and leaves the table as it was.
    A content of at most 160 bytes (160 single-byte characters, say) goes
    to the insert: when the driver executes it, the address has the phone
    format and the key is free, a row with status pending and the two
    timestamps is appended and the call returns the nil error. *)
Theorem CreateMessage_length_boundary
        (now1 now2 : Time) (fault : option error) (st : db.Store) (m : db.Message) :
  (char_length (db.Content m) > 160 ->
   db.CreateMessage now1 now2 fault st m = (st, m, Some ErrMessageTooLong)) /\
  (len (db.Content m) > db.MaxMessageLength ->
   db.CreateMessage now1 now2 fault st m = (st, m, Some ErrMessageTooLong)) /\
  (len (db.Content m) <= db.MaxMessageLength ->
   fault = None ->
   db.check_phone_format (db.To m) = true ->
   db.has_id (if db.ID m =? 0 then db.next_id st else db.ID m) (db.rows st) = false ->
   exists row,
     db.CreateMessage now1 now2 fault st m =
       (db.mkStore (db.rows st ++ [row])
                   (if db.ID m =? 0 then db.next_id st + 1 else db.next_id st),
        row, None) /\
     db.ID row = (if db.ID m =? 0 then db.next_id st else db.ID m) /\
     db.To row = db.To m /\ db.Content row = db.Content m /\
     db.Status row = db.MessageStatusPending /\
     db.CreatedAt row = now1 /\ db.UpdatedAt row = now2).
Proof.
  assert (Hbytes : len (db.Content m) > db.MaxMessageLength ->
                   db.CreateMessage now1 now2 fault st m = (st, m, Some ErrMessageTooLong)).
  { intros Hlen. unfold db.CreateMessage.
    replace (len (db.Content m) >? db.MaxMessageLength) with true by lia.
    reflexivity. }
  split; [|split].
  - intros Hchars. apply Hbytes.
    pose proof (char_length_le_len (db.Content m)). unfold db.MaxMessageLength. lia.
  - exact Hbytes.
  - intros Hlen -> Hphone Hkey. unfold db.CreateMessage.
    replace (len (db.Content m) >? db.MaxMessageLength) with false by lia.
    unfold db.exec_insert. cbn.
    rewrite Hkey, Hphone. unfold db.check_content_length.
    replace (char_length (db.Content m) <=? 1000) with true.
    + cbn. eexists. split; [reflexivity|]. cbn. repeat split.
    + pose proof (char_length_le_len (db.Content m)).
      unfold db.MaxMessageLength in Hlen. lia.
Qed.

Lemma CreateMessage_length_boundary_witness :
  db.CreateMessage 10 11 None db.emptyStore (db.newMessage "+905551234567" text161) =
    (db.emptyStore, db.newMessage "+905551234567" text161, Some ErrMessageTooLong) /\
  exists row,
    db.CreateMessage 10 11 None db.emptyStore (db.newMessage "+905551234567" text160) =
      (db.mkStore (db.rows db.emptyStore ++ [row])
                  (if db.ID (db.newMessage "+905551234567" text160) =? 0
                   then db.next_id db.emptyStore + 1 else db.next_id db.emptyStore),
       row, None) /\
    db.ID row = (if db.ID (db.newMessage "+905551234567" text160) =? 0
                 then db.next_id db.emptyStore
                 else db.ID (db.newMessage "+905551234567" text160)) /\
    db.To row = db.To (db.newMessage "+905551234567" text160) /\
    db.Content row = db.Content (db.newMessage "+905551234567" text160) /\
    db.Status row = db.MessageStatusPending /\
    db.CreatedAt row = 10 /\ db.UpdatedAt row = 11.
Proof.
  split.
  - apply (proj1 (CreateMessage_length_boundary
                    10 11 None db.emptyStore
                    (db.newMessage "+905551234567" text161))).
    vm_compute. reflexivity.
  - apply (proj2 (proj2 (CreateMessage_length_boundary
                           10 11 None db.emptyStore
                           (db.newMessage "+905551234567" text160)))).
    + vm_compute. discriminate.
    + reflexivity.
    + reflexivity.
    + reflexivity.
Defined.

(** For text of single-byte characters the two measures agree, so 160
    such characters pass and 161 do not. *)
Example ascii_boundary :
  char_length text160 = 160 /\ len text160 = 160 /\
  char_length text161 = 161 /\ len text161 = 161 /\
  snd (db.CreateMessage 10 11 None db.emptyStore
                        (db.newMessage "+905551234567" text160)) = None /\
  snd (db.CreateMessage 10 11 None db.emptyStore
                        (db.newMessage "+905551234567" text161)) = Some ErrMessageTooLong.
Proof. repeat split; vm_compute; reflexivity. Qed.

(** *** Facts on the table *)

Lemma has_status_iff (s : db.MessageStatus) (r : db.Message) :
  db.has_status s r = true <-> db.Status r = s.
Proof. unfold db.has_status. apply String.eqb_eq. Qed.

Lemma has_status_false (s : db.MessageStatus) (r : db.Message) :
  db.Status r <> s -> db.has_status s r = false.
Proof.
  intros H. destruct (db.has_status s r) eqn:E; [|reflexivity].
  apply has_status_iff in E. contradiction.
Qed.

Lemma oldest_none (l : list db.Message) : db.oldest l = None -> l = [].
Proof.
  destruct l as [|r rest]; [reflexivity|]. cbn.
  destruct (db.oldest rest) as [r'|]; [|discriminate].
  destruct (db.CreatedAt r <=? db.CreatedAt r'); discriminate.
Qed.

Lemma oldest_least (l : list db.Message) (r : db.Message) :
  db.oldest l = Some r ->
  In r l /\ forall x, In x l -> db.CreatedAt r <= db.CreatedAt x.
Proof.
  revert r. induction l as [|a rest IH]; intros r; cbn [db.oldest]; [discriminate|].
  destruct (db.oldest rest) as [r'|] eqn:E.
  - destruct (IH r' eq_refl) as [Hin Hmin].
    destruct (db.CreatedAt a <=? db.CreatedAt r') eqn:Hcmp;
      intros H; injection H as <-.
    + split; [now left|]. intros x [<-|Hx]; [lia|].
      specialize (Hmin x Hx). lia.
    + split; [now right|]. intros x [<-|Hx]; [lia|]. now apply Hmin.
  - apply oldest_none in E. subst rest.
    intros H; injection H as <-. split; [now left|].
    intros x [<-|[]]. lia.
Qed.

Section TableFacts.

Variable f : db.Message -> db.Message.
Hypothesis f_keeps_id : forall r, db.ID (f r) = db.ID r.

Lemma update_keeps_ids (id : Z) (l : list db.Message) :
  map db.ID (db.update_where_id id f l) = map db.ID l.
Proof.
  unfold db.update_where_id. rewrite map_map. apply map_ext.
  intros r. destruct (db.ID r =? id); [apply f_keeps_id | reflexivity].
Qed.

Lemma update_absent (id : Z) (l : list db.Message) :
  ~ In id (map db.ID l) -> db.update_where_id id f l = l.
Proof.
  unfold db.update_where_id.
  induction l as [|a rest IH]; cbn [map]; [reflexivity|].
  intros Hn. rewrite IH by (cbn in Hn; tauto).
  replace (db.ID a =? id) with false by (cbn in Hn; lia). reflexivity.
Qed.

Lemma find_update (id id' : Z) (l : list db.Message) :
  find (fun r => db.ID r =? id) (db.update_where_id id' f l) =
  if id =? id' then option_map f (find (fun r => db.ID r =? id) l)
  else find (fun r => db.ID r =? id) l.
Proof.
  unfold db.update_where_id.
  induction l as [|a rest IH]; cbn [map find].
  - destruct (id =? id'); reflexivity.
  - rewrite IH.
    destruct (db.ID a =? id') eqn:Ea.
    + rewrite f_keeps_id.
      destruct (db.ID a =? id) eqn:Eb.
      * replace (id =? id') with true by lia. reflexivity.
      * reflexivity.
    + destruct (db.ID a =? id) eqn:Eb.
      * replace (id =? id') with false by lia. reflexivity.
      * reflexivity.
Qed.

Lemma count_update (s : db.MessageStatus) (id : Z) (l : list db.Message) (r : db.Message) :
  NoDup (map db.ID l) ->
  find (fun x => db.ID x =? id) l = Some r ->
  count_in s (db.update_where_id id f l) =
  count_in s l - b2z (db.has_status s r) + b2z (db.has_status s (f r)).
Proof.
  unfold count_in.
  induction l as [|a rest IH]; cbn [find map]; [discriminate|].
  intros Hnd Hfind. inversion Hnd as [|? ? Hnotin Hnd']; subst.
  unfold db.update_where_id in *. cbn [map].
  destruct (db.ID a =? id) eqn:Ea.
  - injection Hfind as ->.
    pose proof (update_absent id rest) as Habs.
    unfold db.update_where_id in Habs.
    rewrite Habs by (replace id with (db.ID r) by lia; exact Hnotin).
    cbn [filter].
    destruct (db.has_status s r), (db.has_status s (f r));
      cbn [List.length b2z]; lia.
  - cbn [filter]. specialize (IH Hnd' Hfind).
    destruct (db.has_status s a); cbn [List.length]; lia.
Qed.

End TableFacts.

Lemma find_by_id (l : list db.Message) (r : db.Message) :
  NoDup (map db.ID l) -> In r l ->
  find (fun x => db.ID x =? db.ID r) l = Some r.
Proof.
  induction l as [|a rest IH]; cbn [find map]; [intros _ []|].
  intros Hnd Hin. inversion Hnd as [|? ? Hnotin Hnd']; subst.
  destruct Hin as [->|Hin].
  - now rewrite Z.eqb_refl.
  - destruct (db.ID a =? db.ID r) eqn:E; [|now apply IH].
    exfalso. apply Hnotin. replace (db.ID a) with (db.ID r) by lia.
    now apply in_map.
Qed.

Lemma find_some_in (id : Z) (l : list db.Message) (r : db.Message) :
  find (fun x => db.ID x =? id) l = Some r -> In r l /\ db.ID r = id.
Proof.
  intros H. apply find_some in H as [Hin Hid]. split; [assumption | lia].
Qed.

Lemma update_as_replace (f : db.Message -> db.Message) (l : list db.Message) (r : db.Message) :
  NoDup (map db.ID l) -> In r l ->
  db.update_where_id (db.ID r) f l =
  map (fun x => if db.ID x =? db.ID r then f r else x) l.
Proof.
  intros Hnd Hin. unfold db.update_where_id. apply map_ext_in.
  intros x Hx. destruct (db.ID x =? db.ID r) eqn:E; [|reflexivity].
  pose proof (find_by_id l x Hnd Hx) as Fx.
  pose proof (find_by_id l r Hnd Hin) as Fr.
  replace (db.ID x) with (db.ID r) in Fx by lia. congruence.
Qed.

Lemma returning_one (f : db.Message -> db.Message) (l : list db.Message) (r : db.Message) :
  NoDup (map db.ID l) -> In r l ->
  db.returning (db.ID r) f l = [f r].
Proof.
  unfold db.returning.
  induction l as [|a rest IH]; cbn [filter map]; [intros _ []|].
  intros Hnd Hin. inversion Hnd as [|? ? Hnotin Hnd']; subst.
  assert (Hrest : forall id, ~ In id (map db.ID rest) ->
                    filter (fun x => db.ID x =? id) rest = []).
  { clear. intros id. induction rest as [|b t IHt]; cbn; [reflexivity|].
    intros Hn. replace (db.ID b =? id) with false by lia. apply IHt. tauto. }
  destruct Hin as [->|Hin].
  - rewrite Z.eqb_refl. cbn. now rewrite Hrest.
  - destruct (db.ID a =? db.ID r) eqn:E; [|now apply IH].
    exfalso. apply Hnotin. replace (db.ID a) with (db.ID r) by lia.
    now apply in_map.
Qed.

Lemma claimed_is_update (now : Time) (r : db.Message) :
  db.set_UpdatedAt now (db.set_Status db.MessageStatusSending r) = claimed now r.
Proof. reflexivity. Qed.

(** The statement of the claim on a table with pending rows. *)
Lemma exec_claim_some (now : Time) (st : db.Store) (r : db.Message) :
  NoDup (map db.ID (db.rows st)) ->
  db.oldest (filter (db.has_status db.MessageStatusPending) (db.rows st)) = Some r ->
  db.exec_claim now None st =
    (db.mkStore (db.update_where_id (db.ID r) (claimed now) (db.rows st)) (db.next_id st),
     claimed now r, None).
Proof.
  intros Hnd Hold. unfold db.exec_claim, db.select_oldest_id. rewrite Hold. cbn.
  apply oldest_least in Hold as [Hin _]. apply filter_In in Hin as [Hin _].
  rewrite (returning_one _ _ _ Hnd Hin). reflexivity.
Qed.

Lemma count_pending_zero (st : db.Store) :
  db.count_pending st = 0 ->
  filter (db.has_status db.MessageStatusPending) (db.rows st) = [].
Proof.
  unfold db.count_pending, db.count_status.
  destruct (filter _ _); [reflexivity | cbn; lia].
Qed.

(** C2. On a table with unique non-zero keys, when the driver executes
    the statement: without a pending row ClaimNextMessage returns nil and
    changes nothing; otherwise it picks a pending row of least
    created_at, sets its status to sending and its updated_at to now in
    one transition that touches no other row, and returns the updated
    row. *)
Theorem ClaimNextMessage_oldest_pending (now : Time) (st : db.Store) :
  wf_store st ->
  (db.count_pending st = 0 ->
   db.ClaimNextMessage now None st = (st, None, None)) /\
  (0 < db.count_pending st ->
   exists r,
     In r (db.rows st) /\
     db.Status r = db.MessageStatusPending /\
     (forall x, In x (db.rows st) -> db.Status x = db.MessageStatusPending ->
                db.CreatedAt r <= db.CreatedAt x) /\
     db.ClaimNextMessage now None st =
       (db.mkStore
          (map (fun x =>
                  if db.ID x =? db.ID r then
                    db.mkMessage (db.ID r) (db.To r) (db.Content r)
                                 db.MessageStatusSending
                                 (db.SentAt r) (db.MessageID r) (db.WebhookResponse r)
                                 (db.CreatedAt r) now
                  else x)
               (db.rows st))
          (db.next_id st),
        Some (db.mkMessage (db.ID r) (db.To r) (db.Content r)
                           db.MessageStatusSending
                           (db.SentAt r) (db.MessageID r) (db.WebhookResponse r)
                           (db.CreatedAt r) now),
        None)).
Proof.
  intros [Hnd Hnz]. split.
  - intros Hzero. apply count_pending_zero in Hzero.
    unfold db.ClaimNextMessage, db.exec_claim, db.select_oldest_id.
    rewrite Hzero. reflexivity.
  - intros Hpos.
    destruct (db.oldest (filter (db.has_status db.MessageStatusPending) (db.rows st)))
      as [r|] eqn:Hold.
    + destruct (oldest_least _ _ Hold) as [Hin Hmin].
      apply filter_In in Hin as [Hin Hst]. apply has_status_iff in Hst.
      exists r. repeat split; try assumption.
      * intros x Hx Hxs. apply Hmin. apply filter_In.
        split; [assumption | now apply has_status_iff].
      * unfold db.ClaimNextMessage. rewrite (exec_claim_some now st r Hnd Hold).
        cbn [db.ID claimed].
        assert (db.ID r <> 0) by (intros E; apply Hnz; rewrite <- E; now apply in_map).
        replace (db.ID r =? 0) with false by lia.
        rewrite (update_as_replace (claimed now) _ r Hnd Hin). reflexivity.
    + apply oldest_none in Hold. unfold db.count_pending, db.count_status in Hpos.
      rewrite Hold in Hpos. cbn in Hpos. lia.
Qed.

Lemma ClaimNextMessage_oldest_pending_witness :
  (db.count_pending three_rows = 0 ->
   db.ClaimNextMessage 99 None three_rows = (three_rows, None, None)) /\
  (0 < db.count_pending three_rows ->
   exists r,
     In r (db.rows three_rows) /\
     db.Status r = db.MessageStatusPending /\
     (forall x, In x (db.rows three_rows) -> db.Status x = db.MessageStatusPending ->
                db.CreatedAt r <= db.CreatedAt x) /\
     db.ClaimNextMessage 99 None three_rows =
       (db.mkStore
          (map (fun x =>
                  if db.ID x =? db.ID r then
                    db.mkMessage (db.ID r) (db.To r) (db.Content r)
                                 db.MessageStatusSending
                                 (db.SentAt r) (db.MessageID r) (db.WebhookResponse r)
                                 (db.CreatedAt r) 99
                  else x)
               (db.rows three_rows))
          (db.next_id three_rows),
        Some (db.mkMessage (db.ID r) (db.To r) (db.Content r)
                           db.MessageStatusSending
                           (db.SentAt r) (db.MessageID r) (db.WebhookResponse r)
                           (db.CreatedAt r) 99),
        None)).
Proof.
  apply (ClaimNextMessage_oldest_pending 99 three_rows).
  split; cbn.
  - repeat constructor; cbn; intuition lia.
  - intuition lia.
Defined.

(** The younger key 3 is the older row: it is the one claimed. *)
Example claim_three_rows :
  db.ClaimNextMessage 99 None three_rows =
    (db.mkStore
       [db.mkMessage 1 "+905551111111" "first" db.MessageStatusSent
                     (Some 40) (Some "m-1") (Some "message_id=m-1") 10 41;
        db.mkMessage 2 "+905552222222" "second" db.MessageStatusPending
                     None None None 30 30;
        db.mkMessage 3 "+905553333333" "third" db.MessageStatusSending
                     None None None 20 99]
       4,
     Some (db.mkMessage 3 "+905553333333" "third" db.MessageStatusSending
                        None None None 20 99),
     None).
Proof. reflexivity. Qed.

(** *** Claims and finalizations keep the table and the workers in step *)

Lemma NoDup_snoc {A : Type} (l : list A) (x : A) :
  NoDup l -> ~ In x l -> NoDup (l ++ [x]).
Proof.
  induction l as [|a l IH]; cbn; intros Hnd Hn.
  - constructor; [intros []|constructor].
  - inversion Hnd as [|? ? Ha Hl]; subst. constructor.
    + rewrite in_app_iff. cbn. intuition congruence.
    + apply IH; tauto.
Qed.

Lemma tracked_status (l fl : list db.Message) (id : Z) :
  tracked l fl -> In id (map db.ID fl) ->
  status_of id l = Some db.MessageStatusSending.
Proof.
  intros [_ Hall] Hin. apply in_map_iff in Hin as (m & <- & Hm).
  rewrite Forall_forall in Hall. now apply Hall.
Qed.

Lemma status_of_row (l : list db.Message) (r : db.Message) :
  NoDup (map db.ID l) -> In r l -> status_of (db.ID r) l = Some (db.Status r).
Proof. intros Hnd Hin. unfold status_of. now rewrite find_by_id. Qed.

Lemma status_of_update (f : db.Message -> db.Message) (id id' : Z) (l : list db.Message) :
  (forall r, db.ID (f r) = db.ID r) ->
  id <> id' ->
  status_of id (db.update_where_id id' f l) = status_of id l.
Proof.
  intros Hf Hne. unfold status_of. rewrite find_update by assumption.
  replace (id =? id') with false by lia. reflexivity.
Qed.

Lemma pending_not_sending : db.MessageStatusPending <> db.MessageStatusSending.
Proof. discriminate. Qed.

Lemma claim_cases (now : Time) (fault : option error) (st : db.Store) :
  wf_store st ->
  (exists err,
      db.ClaimNextMessage now fault st = (st, None, err) /\
      (fault = None -> err = None /\ db.count_pending st = 0)) \/
  (exists r,
      fault = None /\ In r (db.rows st) /\ db.Status r = db.MessageStatusPending /\
      db.ClaimNextMessage now fault st =
        (db.mkStore (db.update_where_id (db.ID r) (claimed now) (db.rows st))
                    (db.next_id st),
         Some (claimed now r), None)).
Proof.
  intros [Hnd Hnz]. destruct fault as [e|].
  - left. unfold db.ClaimNextMessage, db.exec_claim.
    destruct e; eexists; (split; [reflexivity | discriminate]).
  - destruct (db.oldest (filter (db.has_status db.MessageStatusPending) (db.rows st)))
      as [r|] eqn:Hold.
    + right. exists r.
      destruct (oldest_least _ _ Hold) as [Hin _].
      apply filter_In in Hin as [Hin Hst]. apply has_status_iff in Hst.
      repeat split; try assumption.
      unfold db.ClaimNextMessage. rewrite (exec_claim_some now st r Hnd Hold).
      cbn [db.ID claimed].
      assert (db.ID r <> 0) by (intros E; apply Hnz; rewrite <- E; now apply in_map).
      replace (db.ID r =? 0) with false by lia. reflexivity.
    + left. exists None. apply oldest_none in Hold.
      unfold db.ClaimNextMessage, db.exec_claim, db.select_oldest_id.
      unfold db.count_pending, db.count_status.
      rewrite Hold. cbn. split; [reflexivity | intros _; split; reflexivity].
Qed.

Lemma claim_preserves (now : Time) (st : db.Store) (fl : list db.Message) (r : db.Message) :
  wf_store st -> tracked (db.rows st) fl ->
  In r (db.rows st) -> db.Status r = db.MessageStatusPending ->
  let st' := db.mkStore (db.update_where_id (db.ID r) (claimed now) (db.rows st))
                        (db.next_id st) in
  wf_store st' /\ tracked (db.rows st') (fl ++ [claimed now r]) /\
  db.count_pending st' = db.count_pending st - 1.
Proof.
  intros [Hnd Hnz] Htr Hin Hst st'.
  assert (Hkeep : forall x, db.ID (claimed now x) = db.ID x) by reflexivity.
  assert (Hfresh : ~ In (db.ID r) (map db.ID fl)).
  { intros Hc. pose proof (tracked_status _ _ _ Htr Hc) as Hs.
    rewrite (status_of_row _ _ Hnd Hin), Hst in Hs.
    injection Hs as Hs. now apply pending_not_sending. }
  repeat split.
  - cbn. now rewrite update_keeps_ids.
  - cbn. now rewrite update_keeps_ids.
  - rewrite map_app. cbn. apply NoDup_snoc; [apply Htr | exact Hfresh].
  - apply Forall_app. split.
    + destruct Htr as [_ Hall]. rewrite Forall_forall in *. intros m Hm. cbn.
      rewrite status_of_update; [now apply Hall | exact Hkeep |].
      intros E. apply Hfresh. rewrite <- E. now apply in_map.
    + constructor; [|constructor]. cbn. unfold status_of.
      rewrite find_update by exact Hkeep. rewrite Z.eqb_refl.
      now rewrite (find_by_id _ _ Hnd Hin).
  - unfold db.count_pending, db.count_status. cbn.
    pose proof (count_update (claimed now) db.MessageStatusPending
                             (db.ID r) (db.rows st) r Hnd (find_by_id _ _ Hnd Hin)) as Hc.
    unfold count_in in Hc. rewrite Hc.
    replace (db.has_status db.MessageStatusPending r) with true
      by (symmetry; now apply has_status_iff).
    rewrite has_status_false by (cbn; intros E; now apply pending_not_sending).
    cbn. lia.
Qed.

(** Two claims made one after the other never hand out the same row. *)
Lemma serial_claims_distinct (now1 now2 : Time) (fault1 fault2 : option error)
      (st st1 st2 : db.Store) (m1 m2 : db.Message) (err1 err2 : option error) :
  wf_store st ->
  db.ClaimNextMessage now1 fault1 st = (st1, Some m1, err1) ->
  db.ClaimNextMessage now2 fault2 st1 = (st2, Some m2, err2) ->
  db.ID m1 <> db.ID m2.
Proof.
  intros Hwf H1 H2.
  destruct (claim_cases now1 fault1 st Hwf)
    as [(e & Hc & _) | (r1 & _ & Hin1 & Hst1 & Hc)]; rewrite Hc in H1;
    [discriminate|].
  injection H1 as <- <- _.
  assert (Hempty : tracked (db.rows st) []) by (split; constructor).
  destruct (claim_preserves now1 st [] r1 Hwf Hempty Hin1 Hst1) as (Hwf1 & Htr1 & _).
  cbn [app] in Htr1.
  destruct (claim_cases now2 fault2 _ Hwf1)
    as [(e & Hc2 & _) | (r2 & _ & Hin2 & Hst2 & Hc2)]; rewrite Hc2 in H2;
    [discriminate|].
  injection H2 as _ <- _.
  destruct (claim_preserves now2 _ _ r2 Hwf1 Htr1 Hin2 Hst2) as (_ & [Hnd _] & _).
  cbn in Hnd. inversion Hnd as [|? ? Hnot _]; subst.
  intros E. apply Hnot. left. symmetry. exact E.
Qed.

Lemma remove_nth_tracked (l fl : list db.Message) (k : nat) (m : db.Message) :
  tracked l fl -> nth_error fl k = Some m ->
  tracked l (service.remove_nth k fl) /\
  ~ In (db.ID m) (map db.ID (service.remove_nth k fl)).
Proof.
  intros [Hnd Hall]. revert k.
  induction fl as [|a fl IH]; intros k Hk; [destruct k; discriminate|].
  inversion Hnd as [|? ? Ha Hnd']; subst. inversion Hall as [|? ? Hsa Hall']; subst.
  destruct k as [|k]; cbn in Hk |- *.
  - injection Hk as <-. split; [split; assumption | exact Ha].
  - destruct (IH Hnd' Hall' k Hk) as [[Hnd2 Hall2] Hnot].
    assert (Hsub : forall x, In x (service.remove_nth k fl) -> In x fl).
    { clear. revert k. induction fl as [|b fl IHf]; intros k x; destruct k; cbn;
        try tauto. intros [->|H]; [now left | right; eauto]. }
    split; [split|].
    + constructor; [|exact Hnd2]. intros Hc. apply Ha.
      apply in_map_iff in Hc as (x & Hx & Hin). apply in_map_iff. eauto.
    + constructor; assumption.
    + intros [E|Hc]; [|now apply Hnot].
      apply Ha. rewrite E. apply in_map. now apply nth_error_In with k.
Qed.

Lemma status_update_keeps_id now status sentAt mid wr (r : db.Message) :
  db.ID (db.status_update now status sentAt mid wr r) = db.ID r.
Proof. rewrite status_update_finalized. reflexivity. Qed.

Lemma finalize_preserves (now : Time) (fault : option error) (st : db.Store)
      (fl : list db.Message) (k : nat) (m : db.Message)
      (status : db.MessageStatus) sentAt mid wr :
  wf_store st -> tracked (db.rows st) fl ->
  nth_error fl k = Some m ->
  status <> db.MessageStatusPending ->
  let st' := fst (db.UpdateMessageStatus now fault st (db.ID m) status sentAt mid wr) in
  wf_store st' /\ tracked (db.rows st') (service.remove_nth k fl) /\
  db.count_pending st' = db.count_pending st.
Proof.
  intros Hwf Htr Hk Hstatus st'.
  destruct (remove_nth_tracked _ _ _ _ Htr Hk) as [Htr' Hnot].
  destruct fault as [e|]; [cbn in st'; subst st'; tauto|].
  destruct Hwf as [Hnd Hnz]. subst st'. cbn.
  pose proof (status_update_keeps_id now status sentAt mid wr) as Hkeep.
  repeat split.
  - cbn [db.rows]. now rewrite update_keeps_ids.
  - cbn [db.rows]. now rewrite update_keeps_ids.
  - apply Htr'.
  - cbn [db.rows].
    destruct Htr' as [_ Hall]. rewrite Forall_forall in *. intros x Hx.
    rewrite status_of_update; [now apply Hall | exact Hkeep |].
    intros E. apply Hnot. rewrite <- E. now apply in_map.
  - assert (Hs : status_of (db.ID m) (db.rows st) = Some db.MessageStatusSending).
    { apply (tracked_status _ fl); [exact Htr|].
      apply in_map. now apply nth_error_In with k. }
    unfold status_of in Hs.
    destruct (find (fun r => db.ID r =? db.ID m) (db.rows st)) as [r|] eqn:Hfind;
      [|discriminate].
    injection Hs as Hs.
    unfold db.count_pending, db.count_status.
    pose proof (count_update (db.status_update now status sentAt mid wr)
                             db.MessageStatusPending
                             (db.ID m) (db.rows st) r Hnd Hfind) as Hc.
    unfold count_in in Hc. cbn. rewrite Hc.
    rewrite has_status_false
      by (rewrite Hs; intros E; symmetry in E; now apply pending_not_sending).
    rewrite has_status_false
      by (rewrite status_update_finalized; exact Hstatus).
    cbn. lia.
Qed.

Lemma count_pending_nonneg (st : db.Store) : 0 <= db.count_pending st.
Proof. unfold db.count_pending, db.count_status. lia. Qed.

(** *** The worker *)

Section Worker.

Variable json_Marshal : webhook.Response -> string.
Variable cfg : config.Cfg.

(** What a finished worker did to the table: one of the two
    finalizing statements. *)
Lemma processMessage_returns (we : service.WorkerEnv) (st st' : db.Store)
      (message : db.Message) :
  service.processMessage json_Marshal cfg we st message = Some (Returns st') ->
  st' = fst (db.UpdateMessageStatus (service.now_update we) (service.update_fault we)
               st (db.ID message) db.MessageStatusFailed None None None) \/
  exists t mid wr,
    st' = fst (db.UpdateMessageStatus (service.now_update we) (service.update_fault we)
                 st (db.ID message) db.MessageStatusSent (Some t) (Some mid) (Some wr)).
Proof.
  unfold service.processMessage.
  destruct (webhook.SendMessageWithRetry _ _ _ _ _) as [[[n' response] err]|];
    [|discriminate].
  destruct err as [e|].
  - destruct (db.UpdateMessageStatus _ _ _ _ _ _ _ _) as [st1 e1].
    intros H. injection H as <-. now left.
  - destruct response as [r|]; [|discriminate].
    destruct (db.UpdateMessageStatus _ _ _ _ _ _ _ _) as [st1 e1] eqn:E.
    intros H. injection H as <-. right.
    exists (service.now_sent we), (webhook.MessageID r), (json_Marshal r).
    now rewrite E.
Qed.

Lemma processMessage_no_panic (we : service.WorkerEnv) (st : db.Store)
      (message : db.Message) (why : string) :
  0 <= config.MaxRetries (config.messaging cfg) ->
  service.processMessage json_Marshal cfg we st message <> Some (Panics why).
Proof.
  intros Hmax. unfold service.processMessage.
  destruct (webhook.SendMessageWithRetry _ _ _ _ _) as [[[n' response] err]|] eqn:Hsend;
    [|discriminate].
  destruct err as [e|].
  - destruct (db.UpdateMessageStatus _ _ _ _ _ _ _ _). discriminate.
  - destruct response as [r|].
    + destruct (db.UpdateMessageStatus _ _ _ _ _ _ _ _). discriminate.
    + exfalso. unfold webhook.SendMessageWithRetry in Hsend.
      apply retryLoop_not_nil_nil in Hsend; [now apply Hsend | right; exact Hmax].
Qed.

(** *** The tick *)

Let B := service.BatchSize cfg.

Lemma claim_iteration_inv (k : Z) (now : Time) (ts : service.TickState) :
  tick_inv cfg k ts ->
  let ts' := service.claim_iteration cfg now None ts in
  tick_inv cfg k ts' /\
  (service.loop_done cfg ts' = true \/ service.i ts' = service.i ts + 1).
Proof.
  intros (Hwf & Htr & Hi & Hsc & Hk & Hbr). cbn zeta.
  unfold service.claim_iteration.
  destruct (service.loop_done cfg ts) eqn:Hdone.
  - split; [unfold tick_inv; tauto | now left].
  - unfold service.loop_done in Hdone. fold B in Hdone.
    apply orb_false_iff in Hdone as [Hcl HiB].
    destruct (claim_cases now None (service.store ts) Hwf)
      as [(err & Hclaim & Hnone) | (r & _ & Hin & Hst & Hclaim)]; rewrite Hclaim.
    + destruct (Hnone eq_refl) as [-> Hzero].
      split; [|left; reflexivity].
      unfold tick_inv. cbn. tauto.
    + destruct (claim_preserves now _ _ r Hwf Htr Hin Hst) as (Hwf' & Htr' & Hcnt).
      split; [|right; reflexivity].
      unfold tick_inv. cbn.
      repeat (split; [first [assumption | lia]|]).
      discriminate.
Qed.

Lemma claim_iteration_done (now : Time) (fault : option error) (ts : service.TickState) :
  service.loop_done cfg ts = true ->
  service.claim_iteration cfg now fault ts = ts.
Proof. intros H. unfold service.claim_iteration. now rewrite H. Qed.

Lemma worker_finish_inv (k0 : Z) (k : nat) (we : service.WorkerEnv)
      (ts : service.TickState) :
  0 <= config.MaxRetries (config.messaging cfg) ->
  tick_inv cfg k0 ts ->
  exists ts',
    service.worker_finish json_Marshal cfg k we ts = Returns ts' /\
    tick_inv cfg k0 ts' /\
    service.i ts' = service.i ts /\
    service.loop_done cfg ts' = service.loop_done cfg ts.
Proof.
  intros Hmax Hinv. unfold service.worker_finish.
  destruct (nth_error (service.inflight ts) k) as [msg|] eqn:Hk; [|now exists ts].
  destruct (service.processMessage json_Marshal cfg we (service.store ts) msg)
    as [[st'|why]|] eqn:Hpm.
  - eexists. split; [reflexivity|]. split; [|split; reflexivity].
    destruct Hinv as (Hwf & Htr & Hi & Hsc & Hk0 & Hbr).
    assert (Hfin : wf_store st' /\
                   tracked (db.rows st') (service.remove_nth k (service.inflight ts)) /\
                   db.count_pending st' = db.count_pending (service.store ts)).
    { apply processMessage_returns in Hpm as [-> | (t & mid & wr & ->)];
        apply finalize_preserves; try assumption; discriminate. }
    destruct Hfin as (Hwf' & Htr' & Hcnt).
    unfold tick_inv. cbn. rewrite Hcnt. tauto.
  - exfalso. now apply (processMessage_no_panic we (service.store ts) msg why Hmax).
  - now exists ts.
Qed.

Lemma run_inv (k0 : Z) (sch : list service.Event) :
  0 <= config.MaxRetries (config.messaging cfg) ->
  forallb no_claim_fault sch = true ->
  forall ts,
    tick_inv cfg k0 ts ->
    exists ts',
      service.run json_Marshal cfg sch ts = Returns ts' /\
      tick_inv cfg k0 ts' /\
      (service.loop_done cfg ts' = true \/
       service.i ts' = service.i ts + claim_events sch) /\
      (service.loop_done cfg ts = true -> service.loop_done cfg ts' = true).
Proof.
  intros Hmax. unfold claim_events.
  induction sch as [|ev rest IH]; intros Hnf ts Hinv.
  - exists ts. cbn. repeat split; try apply Hinv; [right; lia | tauto].
  - cbn [forallb] in Hnf. apply andb_true_iff in Hnf as [Hev Hrest].
    destruct ev as [now fault | k we];
      cbn [service.run service.tick_step filter is_claim].
    + destruct fault as [e|]; [discriminate|].
      destruct (claim_iteration_inv k0 now ts Hinv) as [Hinv1 Hprog].
      cbn zeta in Hinv1, Hprog.
      destruct (IH Hrest _ Hinv1) as (ts' & Hrun & Hinv' & Hfin & Hmono).
      exists ts'. split; [exact Hrun|]. split; [exact Hinv'|]. split.
      * destruct Hprog as [Hd|Hi]; [left; now apply Hmono|].
        destruct Hfin as [Hd|Hi']; [now left|right].
        cbn [is_claim List.length]. lia.
      * intros Hd. apply Hmono. now rewrite claim_iteration_done.
    + destruct (worker_finish_inv k0 k we ts Hmax Hinv)
        as (ts1 & Hw & Hinv1 & Hi1 & Hd1).
      rewrite Hw.
      destruct (IH Hrest _ Hinv1) as (ts' & Hrun & Hinv' & Hfin & Hmono).
      exists ts'. split; [exact Hrun|]. split; [exact Hinv'|]. split.
      * destruct Hfin as [Hd|Hi']; [now left|right].
        cbn [is_claim]. lia.
      * intros Hd. apply Hmono. now rewrite Hd1.
Qed.

End Worker.

(** C3. A tick on a table with unique non-zero keys and [k] pending
    rows, with a batch size [B >= 0], a retry count that is not negative
    and no error on any claim, whatever the order in which the loop and
    the workers reach the table: the tick does not panic; [B] iterations
    end the loop; and once the loop has ended exactly [min k B] rows have
    left pending, as many as the loop counted.  Besides, an iteration
    whose claim fails advances the loop and nothing else, and an iteration
    that finds no pending row ends the loop. *)
Theorem processBatch_claims_min
        (json_Marshal : webhook.Response -> string) (cfg : config.Cfg)
        (sch : list service.Event) (st : db.Store) :
  0 <= service.BatchSize cfg ->
  0 <= config.MaxRetries (config.messaging cfg) ->
  wf_store st ->
  forallb no_claim_fault sch = true ->
  (exists ts,
      service.processBatch json_Marshal cfg sch st = Returns ts /\
      (service.BatchSize cfg <= claim_events sch -> service.loop_done cfg ts = true) /\
      (service.loop_done cfg ts = true ->
       db.count_pending st - db.count_pending (service.store ts)
         = Z.min (db.count_pending st) (service.BatchSize cfg) /\
       service.sentCount ts = Z.min (db.count_pending st) (service.BatchSize cfg))) /\
  (forall now e t,
      service.loop_done cfg t = false -> e <> ErrNoRows ->
      service.claim_iteration cfg now (Some e) t =
        service.mkTick (service.store t) (service.i t + 1) true
                       (service.inflight t) (service.sentCount t)) /\
  (forall now t,
      service.loop_done cfg t = false ->
      db.count_pending (service.store t) = 0 ->
      service.claim_iteration cfg now None t =
        service.mkTick (service.store t) (service.i t) false
                       (service.inflight t) (service.sentCount t)).
Proof.
  intros HB Hmax Hwf Hnf. split; [|split].
  - unfold service.processBatch.
    replace (service.BatchSize cfg <? 0) with false by lia.
    assert (Hinit : tick_inv cfg (db.count_pending st) (service.mkTick st 0 true [] 0)).
    { unfold tick_inv, tracked. cbn.
      split; [exact Hwf|]. split; [split; constructor|].
      split; [lia|]. split; [reflexivity|]. split; [lia|]. discriminate. }
    destruct (run_inv json_Marshal cfg _ sch Hmax Hnf _ Hinit)
      as (ts & Hrun & Hinv & Hfin & _).
    exists ts. split; [exact Hrun|]. cbn [service.i] in Hfin.
    destruct Hinv as (_ & _ & Hi & Hsc & Hk & Hbr).
    pose proof (count_pending_nonneg (service.store ts)) as Hnn.
    split.
    + intros Hen. destruct Hfin as [Hd|Hd]; [exact Hd|].
      unfold service.loop_done. apply orb_true_iff. right. lia.
    + intros Hd. unfold service.loop_done in Hd. apply orb_true_iff in Hd.
      destruct (service.claiming ts) eqn:Hcl.
      * destruct Hd as [Hd|Hd]; [discriminate|]. lia.
      * specialize (Hbr eq_refl). lia.
  - intros now e t Hd Hne. unfold service.claim_iteration. rewrite Hd.
    unfold db.ClaimNextMessage, db.exec_claim. destruct e; congruence.
  - intros now t Hd Hzero. unfold service.claim_iteration. rewrite Hd.
    apply count_pending_zero in Hzero.
    unfold db.ClaimNextMessage, db.exec_claim, db.select_oldest_id.
    rewrite Hzero. reflexivity.
Qed.

Lemma processBatch_claims_min_witness :
  (exists ts,
      service.processBatch plain_json (cfg_with 2 3) one_tick three_pending = Returns ts /\
      (service.BatchSize (cfg_with 2 3) <= claim_events one_tick ->
       service.loop_done (cfg_with 2 3) ts = true) /\
      (service.loop_done (cfg_with 2 3) ts = true ->
       db.count_pending three_pending - db.count_pending (service.store ts)
         = Z.min (db.count_pending three_pending) (service.BatchSize (cfg_with 2 3)) /\
       service.sentCount ts
         = Z.min (db.count_pending three_pending) (service.BatchSize (cfg_with 2 3)))) /\
  (forall now e t,
      service.loop_done (cfg_with 2 3) t = false -> e <> ErrNoRows ->
      service.claim_iteration (cfg_with 2 3) now (Some e) t =
        service.mkTick (service.store t) (service.i t + 1) true
                       (service.inflight t) (service.sentCount t)) /\
  (forall now t,
      service.loop_done (cfg_with 2 3) t = false ->
      db.count_pending (service.store t) = 0 ->
      service.claim_iteration (cfg_with 2 3) now None t =
        service.mkTick (service.store t) (service.i t) false
                       (service.inflight t) (service.sentCount t)).
Proof.
  apply (processBatch_claims_min plain_json (cfg_with 2 3) one_tick three_pending).
  - vm_compute. discriminate.
  - vm_compute. discriminate.
  - split; cbn.
    + repeat constructor; cbn; intuition lia.
    + intuition lia.
  - reflexivity.
Defined.

(** Three pending rows and a batch of two: the two oldest are claimed,
    one is delivered, the other fails, the third stays pending. *)
Example tick_three_pending :
  service.processBatch plain_json (cfg_with 2 3) one_tick three_pending =
    Returns
      (service.mkTick
         (db.mkStore
            [db.mkMessage 1 "+905551111111" "first" db.MessageStatusSent
                          (Some 50) (Some EmptyString) (Some "message_id=") 10 51;
             db.mkMessage 2 "+905552222222" "second" db.MessageStatusFailed
                          None None None 20 51;
             db.mkMessage 3 "+905553333333" "third" db.MessageStatusPending
                          None None None 30 30]
            4)
         2 true [] 2).
Proof. vm_compute. reflexivity. Qed.

(** *** The row invariant along the engine's operations *)

Lemma row_ok_claimed (now : Time) (r : db.Message) :
  row_ok r -> db.Status r = db.MessageStatusPending -> row_ok (claimed now r).
Proof.
  intros (_ & _ & Hnull) Hst. unfold row_ok. cbn. repeat split.
  - right. now left.
  - discriminate.
  - discriminate.
  - discriminate.
  - apply Hnull. rewrite Hst. discriminate.
  - apply Hnull. rewrite Hst. discriminate.
  - apply Hnull. rewrite Hst. discriminate.
Qed.

Lemma row_ok_failed (now : Time) (r : db.Message) :
  row_ok r -> db.Status r = db.MessageStatusSending ->
  row_ok (db.status_update now db.MessageStatusFailed None None None r).
Proof.
  intros (_ & _ & Hnull) Hst. unfold row_ok. cbn. repeat split.
  - right. right. now right.
  - discriminate.
  - discriminate.
  - discriminate.
  - apply Hnull. rewrite Hst. discriminate.
  - apply Hnull. rewrite Hst. discriminate.
  - apply Hnull. rewrite Hst. discriminate.
Qed.

Lemma row_ok_sent (now t : Time) (mid wr : string) (r : db.Message) :
  row_ok (db.status_update now db.MessageStatusSent (Some t) (Some mid) (Some wr) r).
Proof.
  unfold row_ok. cbn. split; [right; right; now left|].
  split; [intros _; repeat split; discriminate|].
  intros Hne. now elim Hne.
Qed.

Lemma Forall_update (P : db.Message -> Prop) (f : db.Message -> db.Message)
      (id : Z) (l : list db.Message) (r : db.Message) :
  NoDup (map db.ID l) ->
  find (fun x => db.ID x =? id) l = Some r ->
  Forall P l -> P (f r) ->
  Forall P (db.update_where_id id f l).
Proof.
  intros Hnd Hfind Hall Hfr.
  destruct (find_some_in _ _ _ Hfind) as [Hin <-].
  rewrite (update_as_replace f l r Hnd Hin).
  rewrite Forall_forall in *. intros y Hy.
  apply in_map_iff in Hy as (x & <- & Hx).
  destruct (db.ID x =? db.ID r); [exact Hfr | now apply Hall].
Qed.

Lemma has_id_false (id : Z) (l : list db.Message) :
  db.has_id id l = false -> ~ In id (map db.ID l).
Proof.
  unfold db.has_id. induction l as [|a l IH]; cbn; [tauto|].
  intros H. apply orb_false_iff in H as [Ha Hl].
  intros [E|Hin]; [lia | now apply IH].
Qed.

Lemma status_of_app (id : Z) (l l' : list db.Message) (s : db.MessageStatus) :
  status_of id l = Some s -> status_of id (l ++ l') = Some s.
Proof.
  unfold status_of. induction l as [|a l IH]; cbn; [discriminate|].
  destruct (db.ID a =? id); [tauto | exact IH].
Qed.

Lemma enqueue_inv (to content : string) (now1 now2 : Time) (fault : option error)
      (st : db.Store) (fl : list db.Message) :
  sys_inv (st, fl) ->
  sys_inv (fst (engine.enqueue to content now1 now2 fault st), fl).
Proof.
  intros ((Hnd & Hnz) & Hseq & Htr & Hok). cbn [fst snd] in *.
  unfold engine.enqueue, db.CreateMessage.
  destruct (len (db.Content (db.newMessage to content)) >? db.MaxMessageLength);
    [cbn; unfold sys_inv, wf_store; cbn; tauto|].
  unfold db.exec_insert. destruct fault as [e|];
    [cbn; unfold sys_inv, wf_store; cbn; tauto|].
  cbn [db.ID db.set_Status db.set_UpdatedAt db.set_CreatedAt db.newMessage
       db.To db.Content].
  rewrite Z.eqb_refl.
  destruct (db.has_id (db.next_id st) (db.rows st)) eqn:Hid;
    [cbn; unfold sys_inv, wf_store; cbn; repeat split; first [assumption | lia | apply Htr]|].
  destruct (negb (db.check_phone_format to && db.check_content_length content));
    [cbn; unfold sys_inv, wf_store; cbn; repeat split; first [assumption | lia | apply Htr]|].
  apply has_id_false in Hid.
  cbn. unfold sys_inv, wf_store. cbn. rewrite map_app. cbn. repeat split.
  - now apply NoDup_snoc.
  - rewrite in_app_iff. cbn. intros [H|[H|[]]]; [now apply Hnz | lia].
  - lia.
  - apply Htr.
  - destruct Htr as [_ Hall]. rewrite Forall_forall in *. intros m Hm.
    apply status_of_app. now apply Hall.
  - apply Forall_app. split; [exact Hok|]. constructor; [|constructor].
    unfold row_ok. cbn. repeat split; try discriminate. now left.
Qed.

Section Engine.

Variable json_Marshal : webhook.Response -> string.
Variable cfg : config.Cfg.

Lemma sys_step_inv (op : engine.Op) (s s' : db.Store * list db.Message) :
  sys_inv s -> engine.step json_Marshal cfg op s = Some s' -> sys_inv s'.
Proof.
  destruct s as [st fl]. intros Hinv.
  destruct op as [to content now1 now2 fault | now fault | k we];
    cbn [engine.step].
  - intros H. injection H as <-. now apply enqueue_inv.
  - destruct Hinv as (Hwf & Hseq & Htr & Hok). cbn [fst snd] in *.
    destruct (claim_cases now fault st Hwf)
      as [(err & Hclaim & _) | (r & _ & Hin & Hst & Hclaim)]; rewrite Hclaim.
    + intros H. injection H as <-. unfold sys_inv. cbn. tauto.
    + intros H. injection H as <-.
      destruct (claim_preserves now st fl r Hwf Htr Hin Hst) as (Hwf' & Htr' & _).
      unfold sys_inv. cbn [fst snd db.rows db.next_id].
      repeat split; try apply Hwf'; try apply Htr'; try assumption.
      destruct Hwf as [Hnd _].
      apply (Forall_update row_ok (claimed now) (db.ID r) _ r Hnd
                           (find_by_id _ _ Hnd Hin) Hok).
      apply row_ok_claimed; [|exact Hst].
      rewrite Forall_forall in Hok. now apply Hok.
  - destruct (nth_error fl k) as [msg|] eqn:Hk;
      [|intros H; injection H as <-; exact Hinv].
    destruct (service.processMessage json_Marshal cfg we st msg)
      as [[st'|why]|] eqn:Hpm;
      [| discriminate | intros H; injection H as <-; exact Hinv].
    intros H. injection H as <-.
    destruct Hinv as (Hwf & Hseq & Htr & Hok). cbn [fst snd] in *.
    assert (Hs : status_of (db.ID msg) (db.rows st) = Some db.MessageStatusSending).
    { apply (tracked_status _ fl); [exact Htr|].
      apply in_map. now apply nth_error_In with k. }
    unfold status_of in Hs.
    destruct (find (fun r => db.ID r =? db.ID msg) (db.rows st)) as [r|] eqn:Hfind;
      [|discriminate].
    injection Hs as Hs.
    assert (Hr : row_ok r).
    { rewrite Forall_forall in Hok. apply Hok. now apply (find_some_in _ _ _ Hfind). }
    apply processMessage_returns in Hpm as [-> | (t & mid & wr & ->)].
    + destruct (finalize_preserves (service.now_update we) (service.update_fault we)
                  st fl k msg db.MessageStatusFailed None None None Hwf Htr Hk)
        as (Hwf' & Htr' & _); [discriminate|].
      unfold sys_inv. cbn [fst snd]. repeat split; try apply Hwf'; try apply Htr'.
      * destruct (service.update_fault we); cbn; assumption.
      * destruct (service.update_fault we); cbn; [assumption|].
        destruct Hwf as [Hnd _].
        apply (Forall_update row_ok _ _ _ r Hnd Hfind Hok).
        now apply row_ok_failed.
    + destruct (finalize_preserves (service.now_update we) (service.update_fault we)
                  st fl k msg db.MessageStatusSent (Some t) (Some mid) (Some wr)
                  Hwf Htr Hk)
        as (Hwf' & Htr' & _); [discriminate|].
      unfold sys_inv. cbn [fst snd]. repeat split; try apply Hwf'; try apply Htr'.
      * destruct (service.update_fault we); cbn; assumption.
      * destruct (service.update_fault we); cbn; [assumption|].
        destruct Hwf as [Hnd _].
        apply (Forall_update row_ok _ _ _ r Hnd Hfind Hok).
        apply row_ok_sent.
Qed.

Lemma sys_run_inv (ops : list engine.Op) :
  forall s s', sys_inv s -> engine.run json_Marshal cfg ops s = Some s' -> sys_inv s'.
Proof.
  induction ops as [|op rest IH]; intros s s' Hinv; cbn [engine.run].
  - intros H. injection H as <-. exact Hinv.
  - destruct (engine.step json_Marshal cfg op s) as [s1|] eqn:Hstep;
      [|discriminate].
    apply IH. now apply (sys_step_inv op s).
Qed.

End Engine.

Lemma sys_inv_empty : sys_inv (db.emptyStore, []).
Proof.
  unfold sys_inv, wf_store, tracked. cbn.
  repeat split; try constructor; try lia; tauto.
Qed.

(** Every table the engine reaches has unique non-zero keys. *)
Lemma engine_keeps_wf
      (json_Marshal : webhook.Response -> string) (cfg : config.Cfg)
      (ops : list engine.Op) (st : db.Store) (fl : list db.Message) :
  engine.run json_Marshal cfg ops (db.emptyStore, []) = Some (st, fl) ->
  wf_store st.
Proof.
  intros Hrun.
  now pose proof (sys_run_inv json_Marshal cfg ops _ _ sys_inv_empty Hrun)
    as (Hwf & _).
Qed.

(** C6. Whatever sequence of enqueues, claims and worker finalizations
    the engine runs from the empty table, every row has one of the four
    statuses, a sent row has sent_at, message_id and webhook_response
    set, and a row of any other status has all three null. *)
Theorem rows_invariant
        (json_Marshal : webhook.Response -> string) (cfg : config.Cfg)
        (ops : list engine.Op) (st : db.Store) (fl : list db.Message) :
  engine.run json_Marshal cfg ops (db.emptyStore, []) = Some (st, fl) ->
  forall r, In r (db.rows st) ->
    legal_status (db.Status r) /\
    (db.Status r = db.MessageStatusSent ->
     db.SentAt r <> None /\ db.MessageID r <> None /\ db.WebhookResponse r <> None) /\
    (db.Status r <> db.MessageStatusSent ->
     db.SentAt r = None /\ db.MessageID r = None /\ db.WebhookResponse r = None).
Proof.
  intros Hrun r Hin.
  pose proof (sys_run_inv json_Marshal cfg ops _ _ sys_inv_empty Hrun)
    as (_ & _ & _ & Hok).
  cbn [fst] in Hok. rewrite Forall_forall in Hok. exact (Hok r Hin).
Qed.

Lemma rows_invariant_witness :
  legal_status (db.Status delivered_row) /\
  (db.Status delivered_row = db.MessageStatusSent ->
   db.SentAt delivered_row <> None /\ db.MessageID delivered_row <> None /\
   db.WebhookResponse delivered_row <> None) /\
  (db.Status delivered_row <> db.MessageStatusSent ->
   db.SentAt delivered_row = None /\ db.MessageID delivered_row = None /\
   db.WebhookResponse delivered_row = None).
Proof.
  apply (rows_invariant plain_json (cfg_with 2 3) some_ops after_some_ops []).
  - vm_compute. reflexivity.
  - left. reflexivity.
Defined.


(** * Further properties of the engine and its surroundings *)

(** ** The sender *)

(** X1. What a single send returns is decided by the URL and the reply:
    the error is nil exactly when a reply with a status in [200, 300)
    arrived; the response is nil exactly when no reply arrived; a request
    is issued exactly when the URL is accepted; and a reply whose body
    does not decode is no error by itself. *)
Theorem SendMessage_outcomes
        (env : webhook.Env) (cfg : config.Cfg) (payload : webhook.MessagePayload)
        (n n' : nat) (response : option webhook.Response) (err : option error) :
  webhook.SendMessage env cfg payload n = (n', response, err) ->
  (err = None <->
   webhook.url_parses env (config.WebhookURL cfg) = true /\
   exists code body,
     webhook.reply env n (config.WebhookURL cfg) payload = webhook.DoResponse code body /\
     200 <= code < 300) /\
  (response = None <->
   webhook.url_parses env (config.WebhookURL cfg) = false \/
   exists cause,
     webhook.reply env n (config.WebhookURL cfg) payload = webhook.DoError cause) /\
  (n' = if webhook.url_parses env (config.WebhookURL cfg) then S n else n) /\
  (forall code body,
      webhook.url_parses env (config.WebhookURL cfg) = true ->
      webhook.reply env n (config.WebhookURL cfg) payload = webhook.DoResponse code body ->
      200 <= code < 300 ->
      webhook.decode_failed body = true ->
      response = Some (webhook.mkResponse code "failed to decode response"
                                          (webhook.body_messageId body)
                                          (webhook.clock env n)) /\
      err = None).
Proof.
  unfold webhook.SendMessage.
  destruct (webhook.url_parses env (config.WebhookURL cfg)) eqn:Hurl; cbn;
    [destruct (webhook.reply env n (config.WebhookURL cfg) payload)
       as [cause|code body] eqn:Hreply;
     [|destruct ((code <? 200) || (code >=? 300)) eqn:Hcode;
       [apply orb_true_iff in Hcode | apply orb_false_iff in Hcode]]|];
    intros Hres; injection Hres as <- <- <-;
    repeat split; intros;
    repeat match goal with
           | H : _ /\ _ |- _ => destruct H
           | H : exists _, _ |- _ => destruct H
           | H : _ \/ _ |- _ => destruct H
           | H : webhook.DoResponse _ _ = webhook.DoResponse _ _ |- _ =>
               injection H as <- <-
           end;
    try discriminate; try lia; try congruence.
  - right. now exists cause.
  - exists code, body. split; [reflexivity | lia].
  - match goal with H : webhook.decode_failed _ = true |- _ => now rewrite H end.
Qed.

Lemma SendMessage_outcomes_witness :
  (Some (ErrWebhookStatus 500) = None <->
   webhook.url_parses (always_status 500) (config.WebhookURL (cfg_with 2 3)) = true /\
   exists code body,
     webhook.reply (always_status 500) 0 (config.WebhookURL (cfg_with 2 3)) hello
       = webhook.DoResponse code body /\
     200 <= code < 300) /\
  (Some (webhook.mkResponse 500 "failed to decode response" EmptyString 0) = None <->
   webhook.url_parses (always_status 500) (config.WebhookURL (cfg_with 2 3)) = false \/
   exists cause,
     webhook.reply (always_status 500) 0 (config.WebhookURL (cfg_with 2 3)) hello
       = webhook.DoError cause) /\
  (1%nat = if webhook.url_parses (always_status 500) (config.WebhookURL (cfg_with 2 3))
           then 1%nat else 0%nat) /\
  (forall code body,
      webhook.url_parses (always_status 500) (config.WebhookURL (cfg_with 2 3)) = true ->
      webhook.reply (always_status 500) 0 (config.WebhookURL (cfg_with 2 3)) hello
        = webhook.DoResponse code body ->
      200 <= code < 300 ->
      webhook.decode_failed body = true ->
      Some (webhook.mkResponse 500 "failed to decode response" EmptyString 0) =
        Some (webhook.mkResponse code "failed to decode response"
                                 (webhook.body_messageId body)
                                 (webhook.clock (always_status 500) 0)) /\
      Some (ErrWebhookStatus 500) = None).
Proof.
  apply (SendMessage_outcomes (always_status 500) (cfg_with 2 3) hello 0 1
           (Some (webhook.mkResponse 500 "failed to decode response" EmptyString 0))
           (Some (ErrWebhookStatus 500))).
  reflexivity.
Defined.

Section RetryMore.

Variable env : webhook.Env.
Variable cfg : config.Cfg.
Variable payload : webhook.MessagePayload.

Let maxRetries := config.MaxRetries (config.messaging cfg).
Let url := config.WebhookURL cfg.

Lemma SendMessage_counts (n n' : nat) response err :
  webhook.SendMessage env cfg payload n = (n', response, err) ->
  (n <= n' <= S n)%nat.
Proof.
  unfold webhook.SendMessage.
  destruct (negb (webhook.url_parses env (config.WebhookURL cfg)));
    [intros H; injection H as <- _ _; lia|].
  destruct (webhook.reply env n (config.WebhookURL cfg) payload) as [c|code body];
    [intros H; injection H as <- _ _; lia|].
  destruct ((code <? 200) || (code >=? 300)); intros H; injection H as <- _ _; lia.
Qed.

Lemma SendMessage_success (n n' : nat) response :
  webhook.SendMessage env cfg payload n = (n', response, None) ->
  n' = S n /\
  exists r, response = Some r /\ 200 <= webhook.StatusCode r < 300.
Proof.
  unfold webhook.SendMessage.
  destruct (negb (webhook.url_parses env (config.WebhookURL cfg))); [discriminate|].
  destruct (webhook.reply env n (config.WebhookURL cfg) payload) as [c|code body];
    [discriminate|].
  destruct ((code <? 200) || (code >=? 300)) eqn:Hcode; [discriminate|].
  apply orb_false_iff in Hcode as [H1 H2].
  intros H; injection H as <- <-. split; [reflexivity|].
  eexists. split; [reflexivity|]. cbn. lia.
Qed.

Lemma retryLoop_bounded :
  maxRetries < max_int ->
  forall (d : nat) (attempt : Z) (fuel : nat) lastResponse lastErr (n : nat),
    0 <= attempt ->
    maxRetries + 1 <= attempt + Z.of_nat d ->
    (d < fuel)%nat ->
    exists n' response err,
      webhook.retryLoop env cfg payload fuel attempt lastResponse lastErr n
        = Some (n', response, err) /\
      (n <= n' <= n + d)%nat.
Proof.
  intros Hmax.
  induction d as [|d IH]; intros attempt fuel lr le n Ha Hd Hfuel;
    (destruct fuel as [|fuel]; [lia|]); cbn [webhook.retryLoop]; fold maxRetries.
  - replace (attempt <=? maxRetries) with false by lia.
    do 3 eexists. split; [reflexivity | lia].
  - destruct (attempt <=? maxRetries) eqn:Hle;
      [|do 3 eexists; split; [reflexivity | lia]].
    destruct (if attempt >? 0 then webhook.ctx_done env attempt else None);
      [do 3 eexists; split; [reflexivity | lia]|].
    destruct (webhook.SendMessage env cfg payload n) as [[n1 r1] e1] eqn:Hsend.
    apply SendMessage_counts in Hsend.
    destruct e1 as [e1|]; [|do 3 eexists; split; [reflexivity | lia]].
    rewrite int_wrap_id by (unfold max_int in *; lia).
    destruct (IH (attempt + 1) fuel r1 (Some e1) n1) as (n' & r & e & Hrun & Hn');
      try lia.
    exists n', r, e. split; [exact Hrun | lia].
Qed.

Lemma retryLoop_success_2xx :
  forall (fuel : nat) (attempt : Z) lastResponse lastErr (n n' : nat) response,
    (lastErr <> None \/ attempt <= maxRetries) ->
    webhook.retryLoop env cfg payload fuel attempt lastResponse lastErr n
      = Some (n', response, None) ->
    (n < n')%nat /\
    exists r, response = Some r /\ 200 <= webhook.StatusCode r < 300.
Proof.
  induction fuel as [|fuel IH]; intros attempt lr le n n' response Hpre;
    cbn [webhook.retryLoop]; fold maxRetries; [discriminate|].
  destruct (attempt <=? maxRetries) eqn:Hle.
  - destruct (if attempt >? 0 then webhook.ctx_done env attempt else None);
      [discriminate|].
    destruct (webhook.SendMessage env cfg payload n) as [[n1 r1] e1] eqn:Hsend.
    destruct e1 as [e1|].
    + intros Hrun. apply SendMessage_counts in Hsend.
      apply IH in Hrun; [|left; discriminate].
      destruct Hrun as [Hlt Hr]. split; [lia | exact Hr].
    + intros H. injection H as <- <-.
      apply SendMessage_success in Hsend as [-> Hr]. split; [lia | exact Hr].
  - intros H. injection H as _ _ ->.
    destruct Hpre as [Hpre|Hpre]; [now elim Hpre | lia].
Qed.

(** After [d] failed attempts with no cancellation in between, the loop
    stands at attempt [a + d] with the last of them in hand. *)
Lemma retryLoop_failed_prefix :
  webhook.url_parses env url = true ->
  maxRetries < max_int ->
  forall (d a fuel : nat) lastResponse lastErr (n : nat),
    (forall k, (a <= k < a + d)%nat ->
               webhook.fails (webhook.reply env (n + k) url payload) = true /\
               Z.of_nat k <= maxRetries /\
               (0 < Z.of_nat k -> webhook.ctx_done env (Z.of_nat k) = None)) ->
    webhook.retryLoop env cfg payload (d + fuel) (Z.of_nat a) lastResponse lastErr (n + a) =
    webhook.retryLoop env cfg payload fuel (Z.of_nat (a + d))
                      (fst (last_of env cfg payload d lastResponse lastErr (n + a)))
                      (snd (last_of env cfg payload d lastResponse lastErr (n + a)))
                      (n + a + d).
Proof.
  intros Hurl Hmax.
  induction d as [|d IH]; intros a fuel lr le n Hpre.
  - cbn [last_of fst snd]. now rewrite !Nat.add_0_r.
  - destruct (Hpre a ltac:(lia)) as (Hfail & Hle & Hctx).
    cbn [Nat.add webhook.retryLoop]. fold maxRetries.
    replace (Z.of_nat a <=? maxRetries) with true by lia.
    replace (if Z.of_nat a >? 0 then webhook.ctx_done env (Z.of_nat a) else None)
      with (@None error)
      by (destruct (Z.of_nat a >? 0) eqn:E; [rewrite Hctx by lia|]; reflexivity).
    destruct (SendMessage_fails env cfg payload (n + a) Hurl Hfail)
      as (response & e & Hsend).
    rewrite Hsend.
    rewrite int_wrap_id by (unfold max_int in *; lia).
    replace (Z.of_nat a + 1) with (Z.of_nat (S a)) by lia.
    replace (S (n + a)) with (n + S a)%nat by lia.
    rewrite (IH (S a) fuel response (Some e) n)
      by (intros k Hk; apply Hpre; lia).
    replace (S a + d)%nat with (a + S d)%nat by lia.
    replace (n + S a + d)%nat with (n + a + S d)%nat by lia.
    destruct d as [|d'].
    + cbn [last_of fst snd]. rewrite Nat.add_0_r, Hsend. reflexivity.
    + cbn [last_of]. replace (n + S a + d')%nat with (n + a + S d')%nat by lia.
      reflexivity.
Qed.

End RetryMore.

(** X2. Whatever the receiver and the context do, SendMessageWithRetry
    returns once its loop has had [MaxRetries + 2] iterations, and it has
    issued at most [MaxRetries + 1] requests by then (none for a negative
    [MaxRetries]). *)
Theorem SendMessageWithRetry_terminates_bounded
        (env : webhook.Env) (cfg : config.Cfg) (payload : webhook.MessagePayload)
        (fuel n : nat) :
  config.MaxRetries (config.messaging cfg) < max_int ->
  (Z.to_nat (config.MaxRetries (config.messaging cfg) + 1) < fuel)%nat ->
  exists n' response err,
    webhook.SendMessageWithRetry env cfg payload fuel n = Some (n', response, err) /\
    (n <= n' <= n + Z.to_nat (config.MaxRetries (config.messaging cfg) + 1))%nat.
Proof.
  intros Hmax Hfuel. unfold webhook.SendMessageWithRetry.
  apply retryLoop_bounded; [assumption | lia | lia | assumption].
Qed.

Lemma SendMessageWithRetry_terminates_bounded_witness :
  exists n' response err,
    webhook.SendMessageWithRetry (always_status 200) (cfg_with 2 3) hello 5 0
      = Some (n', response, err) /\
    (0 <= n' <= 0 + Z.to_nat (config.MaxRetries (config.messaging (cfg_with 2 3)) + 1))%nat.
Proof.
  apply (SendMessageWithRetry_terminates_bounded (always_status 200) (cfg_with 2 3) hello 5 0).
  - vm_compute. reflexivity.
  - vm_compute. lia.
Defined.

(** X3. A nil error from SendMessageWithRetry under a retry count that is
    not negative always comes with a response, of a status in [200, 300),
    and with at least one request issued. *)
Theorem SendMessageWithRetry_success_is_2xx
        (env : webhook.Env) (cfg : config.Cfg) (payload : webhook.MessagePayload)
        (fuel n n' : nat) (response : option webhook.Response) :
  0 <= config.MaxRetries (config.messaging cfg) ->
  webhook.SendMessageWithRetry env cfg payload fuel n = Some (n', response, None) ->
  (n < n')%nat /\
  exists r, response = Some r /\ 200 <= webhook.StatusCode r < 300.
Proof.
  intros Hmax Hrun. unfold webhook.SendMessageWithRetry in Hrun.
  apply retryLoop_success_2xx in Hrun; [exact Hrun | right; exact Hmax].
Qed.

Lemma SendMessageWithRetry_success_is_2xx_witness :
  (0 < 1)%nat /\
  exists r,
    Some (webhook.mkResponse 200 "failed to decode response" EmptyString 0) = Some r /\
    200 <= webhook.StatusCode r < 300.
Proof.
  apply (SendMessageWithRetry_success_is_2xx (always_status 200) (cfg_with 2 3) hello 5 0 1
           (Some (webhook.mkResponse 200 "failed to decode response" EmptyString 0))).
  - vm_compute. discriminate.
  - reflexivity.
Defined.

Lemma retry_first_success
        (env : webhook.Env) (cfg : config.Cfg) (payload : webhook.MessagePayload)
        (fuel n j : nat) (code : Z) (body : webhook.Decoded) :
  webhook.url_parses env (config.WebhookURL cfg) = true ->
  config.MaxRetries (config.messaging cfg) < max_int ->
  Z.of_nat j <= config.MaxRetries (config.messaging cfg) ->
  (forall k, (k < j)%nat ->
             webhook.fails (webhook.reply env (n + k) (config.WebhookURL cfg) payload) = true) ->
  (forall a, 0 < a <= Z.of_nat j -> webhook.ctx_done env a = None) ->
  webhook.reply env (n + j) (config.WebhookURL cfg) payload = webhook.DoResponse code body ->
  200 <= code < 300 ->
  (j < fuel)%nat ->
  webhook.SendMessageWithRetry env cfg payload fuel n =
    Some (S (n + j),
          Some (webhook.mkResponse
                  code
                  (if webhook.decode_failed body then "failed to decode response"
                   else webhook.body_message body)
                  (webhook.body_messageId body)
                  (webhook.clock env (n + j))),
          None).
Proof.
  intros Hurl Hmax Hj Hfail Hctx Hreply Hcode Hfuel.
  unfold webhook.SendMessageWithRetry.
  replace fuel with (j + S (fuel - S j))%nat by lia.
  replace n with (n + 0)%nat at 1 by lia.
  change 0 with (Z.of_nat 0).
  rewrite (retryLoop_failed_prefix env cfg payload Hurl Hmax j 0
             (S (fuel - S j)) None None n)
    by (intros k Hk; repeat split; [apply Hfail | | intros Hpos; apply Hctx]; lia).
  cbn [Nat.add webhook.retryLoop].
  replace (Z.of_nat j <=? config.MaxRetries (config.messaging cfg)) with true by lia.
  replace (if Z.of_nat j >? 0 then webhook.ctx_done env (Z.of_nat j) else None)
    with (@None error)
    by (destruct (Z.of_nat j >? 0) eqn:E; [rewrite Hctx by lia|]; reflexivity).
  rewrite Nat.add_0_r.
  unfold webhook.SendMessage. rewrite Hurl, Hreply. cbn.
  replace ((code <? 200) || (code >=? 300)) with false
    by (symmetry; apply orb_false_iff; lia).
  reflexivity.
Qed.

(** X4. When the first [j] attempts fail, no wait is cut short and
    attempt [j] is answered with a status in [200, 300), the call issues
    exactly [j + 1] requests and returns that answer with the nil error:
    it stops at the first success. *)
Theorem SendMessageWithRetry_first_success
        (env : webhook.Env) (cfg : config.Cfg) (payload : webhook.MessagePayload)
        (fuel n j : nat) (code : Z) (body : webhook.Decoded) :
  webhook.url_parses env (config.WebhookURL cfg) = true ->
  config.MaxRetries (config.messaging cfg) < max_int ->
  Z.of_nat j <= config.MaxRetries (config.messaging cfg) ->
  (forall k, (k < j)%nat ->
             webhook.fails (webhook.reply env (n + k) (config.WebhookURL cfg) payload) = true) ->
  (forall a, 0 < a <= Z.of_nat j -> webhook.ctx_done env a = None) ->
  webhook.reply env (n + j) (config.WebhookURL cfg) payload = webhook.DoResponse code body ->
  200 <= code < 300 ->
  (j < fuel)%nat ->
  webhook.SendMessageWithRetry env cfg payload fuel n =
    Some (S (n + j),
          Some (webhook.mkResponse
                  code
                  (if webhook.decode_failed body then "failed to decode response"
                   else webhook.body_message body)
                  (webhook.body_messageId body)
                  (webhook.clock env (n + j))),
          None).
Proof.
  intros Hurl Hmax Hj Hfail Hctx Hreply Hcode Hfuel.
  now apply retry_first_success.
Qed.

Lemma SendMessageWithRetry_first_success_witness :
  webhook.SendMessageWithRetry (fail_then_ok 2) (cfg_with 2 3) hello 4 0 =
    Some (3%nat, Some (webhook.mkResponse 200 "Accepted" "retry-123" 2), None).
Proof.
  apply (SendMessageWithRetry_first_success
           (fail_then_ok 2) (cfg_with 2 3) hello 4 0 2 200
           (webhook.mkDecoded "Accepted" "retry-123" false)).
  - reflexivity.
  - vm_compute. reflexivity.
  - vm_compute. discriminate.
  - intros k Hk. cbn. destruct k as [|[|k]]; [reflexivity | reflexivity | lia].
  - intros a Ha. reflexivity.
  - reflexivity.
  - lia.
  - lia.
Defined.

(** X5. When the first [j >= 1] attempts fail and the context is done
    during the wait that follows them, the call returns the response of
    the last attempt made together with the context's error, after
    exactly [j] requests. *)
Theorem SendMessageWithRetry_cancelled_in_wait
        (env : webhook.Env) (cfg : config.Cfg) (payload : webhook.MessagePayload)
        (fuel n j : nat) (ctxErr : error) :
  webhook.url_parses env (config.WebhookURL cfg) = true ->
  config.MaxRetries (config.messaging cfg) < max_int ->
  (0 < j)%nat ->
  Z.of_nat j <= config.MaxRetries (config.messaging cfg) ->
  (forall k, (k < j)%nat ->
             webhook.fails (webhook.reply env (n + k) (config.WebhookURL cfg) payload) = true) ->
  (forall a, 0 < a < Z.of_nat j -> webhook.ctx_done env a = None) ->
  webhook.ctx_done env (Z.of_nat j) = Some ctxErr ->
  (j < fuel)%nat ->
  exists lastResponse lastErr,
    webhook.SendMessage env cfg payload (n + j - 1) = ((n + j)%nat, lastResponse, Some lastErr) /\
    webhook.SendMessageWithRetry env cfg payload fuel n =
      Some ((n + j)%nat, lastResponse, Some ctxErr).
Proof.
  intros Hurl Hmax Hpos Hj Hfail Hctx Hdone Hfuel.
  destruct (SendMessage_fails env cfg payload (n + j - 1) Hurl)
    as (response & e & Hsend).
  { replace (n + j - 1)%nat with (n + (j - 1))%nat by lia. apply Hfail. lia. }
  exists response, e. split.
  { rewrite Hsend. f_equal. f_equal. lia. }
  unfold webhook.SendMessageWithRetry.
  replace fuel with (j + S (fuel - S j))%nat by lia.
  replace n with (n + 0)%nat at 1 by lia.
  change 0 with (Z.of_nat 0).
  rewrite (retryLoop_failed_prefix env cfg payload Hurl Hmax j 0
             (S (fuel - S j)) None None n)
    by (intros k Hk; repeat split; [apply Hfail | | intros Hp; apply Hctx]; lia).
  cbn [Nat.add webhook.retryLoop].
  replace (Z.of_nat j <=? config.MaxRetries (config.messaging cfg)) with true by lia.
  replace (Z.of_nat j >? 0) with true by lia.
  rewrite Hdone. rewrite Nat.add_0_r.
  destruct j as [|j']; [lia|]. cbn [last_of].
  replace (n + S j' - 1)%nat with (n + j')%nat in Hsend by lia.
  rewrite Hsend. reflexivity.
Qed.

Lemma SendMessageWithRetry_cancelled_in_wait_witness :
  exists lastResponse lastErr,
    webhook.SendMessage (deadline_at 2) (cfg_with 2 5) hello (0 + 2 - 1)
      = ((0 + 2)%nat, lastResponse, Some lastErr) /\
    webhook.SendMessageWithRetry (deadline_at 2) (cfg_with 2 5) hello 4 0 =
      Some ((0 + 2)%nat, lastResponse, Some ErrDeadlineExceeded).
Proof.
  apply (SendMessageWithRetry_cancelled_in_wait
           (deadline_at 2) (cfg_with 2 5) hello 4 0 2 ErrDeadlineExceeded).
  - reflexivity.
  - vm_compute. reflexivity.
  - lia.
  - vm_compute. discriminate.
  - intros k Hk. reflexivity.
  - intros a Ha. cbn. replace (a =? 2) with false by lia. reflexivity.
  - reflexivity.
  - lia.
Defined.

(** ** The history queries *)

Lemma sent_at_ge_total (a b : db.Message) :
  queries.sent_at_ge a b = false -> queries.sent_at_ge b a = true.
Proof.
  unfold queries.sent_at_ge.
  destruct (db.SentAt a), (db.SentAt b); try discriminate; try reflexivity.
  intros H. apply Z.leb_le. apply Z.leb_gt in H. lia.
Qed.

Lemma insert_desc_in (r x : db.Message) (l : list db.Message) :
  In x (queries.insert_desc r l) <-> x = r \/ In x l.
Proof.
  induction l as [|h t IH]; cbn.
  - intuition congruence.
  - destruct (queries.sent_at_ge r h); cbn; [intuition congruence|].
    rewrite IH. intuition congruence.
Qed.

Lemma insert_desc_length (r : db.Message) (l : list db.Message) :
  List.length (queries.insert_desc r l) = S (List.length l).
Proof.
  induction l as [|h t IH]; cbn; [reflexivity|].
  destruct (queries.sent_at_ge r h); cbn; [reflexivity | now rewrite IH].
Qed.

Lemma insert_desc_sorted (r : db.Message) (l : list db.Message) :
  history_sorted l -> history_sorted (queries.insert_desc r l).
Proof.
  unfold history_sorted. induction l as [|h t IH]; cbn; intros Hs.
  - repeat constructor.
  - destruct (queries.sent_at_ge r h) eqn:E.
    + constructor; [exact Hs | now constructor].
    + apply Sorted_inv in Hs as [Ht Hh]. constructor; [now apply IH|].
      destruct t as [|h' t']; cbn.
      * constructor. now apply sent_at_ge_total.
      * destruct (queries.sent_at_ge r h') eqn:E'.
        -- constructor. now apply sent_at_ge_total.
        -- constructor. now inversion Hh.
Qed.

Lemma order_in (x : db.Message) (l : list db.Message) :
  In x (queries.order_by_sent_at_desc l) <-> In x l.
Proof.
  unfold queries.order_by_sent_at_desc.
  induction l as [|h t IH]; cbn; [tauto|].
  rewrite insert_desc_in, IH. intuition congruence.
Qed.

Lemma order_length (l : list db.Message) :
  List.length (queries.order_by_sent_at_desc l) = List.length l.
Proof.
  unfold queries.order_by_sent_at_desc.
  induction l as [|h t IH]; cbn; [reflexivity|].
  now rewrite insert_desc_length, IH.
Qed.

Lemma order_sorted (l : list db.Message) :
  history_sorted (queries.order_by_sent_at_desc l).
Proof.
  unfold queries.order_by_sent_at_desc.
  induction l as [|h t IH]; cbn; [constructor | now apply insert_desc_sorted].
Qed.

Lemma sorted_skipn (n : nat) (l : list db.Message) :
  history_sorted l -> history_sorted (skipn n l).
Proof.
  unfold history_sorted. revert l. induction n as [|n IH]; intros l Hs; [exact Hs|].
  destruct l as [|h t]; [exact Hs|]. cbn. apply IH.
  now apply Sorted_inv in Hs.
Qed.

Lemma sorted_firstn (n : nat) (l : list db.Message) :
  history_sorted l -> history_sorted (firstn n l).
Proof.
  unfold history_sorted. revert l. induction n as [|n IH]; intros l Hs; [constructor|].
  destruct l as [|h t]; [constructor|]. cbn.
  apply Sorted_inv in Hs as [Ht Hh]. constructor; [now apply IH|].
  destruct n as [|n']; [constructor|].
  destruct t as [|h' t']; [constructor|]. cbn. constructor. now inversion Hh.
Qed.

Lemma in_firstn {A : Type} (n : nat) (l : list A) (x : A) :
  In x (firstn n l) -> In x l.
Proof. intros H. rewrite <- (firstn_skipn n l). apply in_or_app. now left. Qed.

Lemma in_skipn {A : Type} (n : nat) (l : list A) (x : A) :
  In x (skipn n l) -> In x l.
Proof. intros H. rewrite <- (firstn_skipn n l). apply in_or_app. now right. Qed.

Lemma sent_rows_in (st : db.Store) (m : db.Message) :
  In m (queries.sent_rows st) <->
  In m (db.rows st) /\ db.Status m = db.MessageStatusSent.
Proof.
  unfold queries.sent_rows. rewrite order_in, filter_In, has_status_iff. tauto.
Qed.

Lemma sent_rows_length (st : db.Store) :
  Z.of_nat (List.length (queries.sent_rows st)) = db.count_status db.MessageStatusSent st.
Proof. unfold queries.sent_rows, db.count_status. now rewrite order_length. Qed.

Lemma history_page (st : db.Store) (limit offset : Z) :
  0 < limit -> 0 <= offset ->
  snd (queries.GetSentMessages None st limit offset) = None /\
  Z.of_nat (List.length (fst (queries.GetSentMessages None st limit offset))) <= limit /\
  history_sorted (fst (queries.GetSentMessages None st limit offset)) /\
  (forall m, In m (fst (queries.GetSentMessages None st limit offset)) ->
             In m (db.rows st) /\ db.Status m = db.MessageStatusSent).
Proof.
  intros Hlimit Hoffset. unfold queries.GetSentMessages.
  replace (limit =? 0) with false by lia. cbn [fst snd].
  repeat split.
  - pose proof (firstn_le_length (Z.to_nat limit)
                                 (skipn (Z.to_nat offset) (queries.sent_rows st))).
    lia.
  - apply sorted_firstn, sorted_skipn. apply order_sorted.
  - apply (sent_rows_in st). eapply in_skipn, in_firstn, H.
  - apply (sent_rows_in st m). eapply in_skipn, in_firstn, H.
Qed.

(** X6. A page of the history, asked with a positive limit and an offset
    that is not negative, holds at most [limit] rows, every one of them a
    sent row of the table, ordered from the latest sent_at to the
    earliest; the query itself reports no error when the driver does
    not. *)
Theorem GetSentMessages_page (st : db.Store) (limit offset : Z) :
  0 < limit -> 0 <= offset ->
  snd (queries.GetSentMessages None st limit offset) = None /\
  Z.of_nat (List.length (fst (queries.GetSentMessages None st limit offset))) <= limit /\
  history_sorted (fst (queries.GetSentMessages None st limit offset)) /\
  (forall m, In m (fst (queries.GetSentMessages None st limit offset)) ->
             In m (db.rows st) /\ db.Status m = db.MessageStatusSent).
Proof.
  intros Hlimit Hoffset. now apply history_page.
Qed.

Lemma GetSentMessages_page_witness :
  snd (queries.GetSentMessages None history 2 1) = None /\
  Z.of_nat (List.length (fst (queries.GetSentMessages None history 2 1))) <= 2 /\
  history_sorted (fst (queries.GetSentMessages None history 2 1)) /\
  (forall m, In m (fst (queries.GetSentMessages None history 2 1)) ->
             In m (db.rows history) /\ db.Status m = db.MessageStatusSent).
Proof.
  apply (GetSentMessages_page history 2 1); lia.
Defined.

Example history_second_page :
  map db.ID (fst (queries.GetSentMessages None history 2 2)) = [5; 1].
Proof. reflexivity. Qed.

(** ** The message service *)

Section ServiceFacts.

Variable JsonObject : Type.
Variable json_Unmarshal : string -> option JsonObject.

Let convert := messages.convertToMessageResponse JsonObject json_Unmarshal.

Lemma converted_status (msgs : list db.Message) :
  (forall m, In m msgs -> db.Status m = db.MessageStatusSent) ->
  Forall (fun m => messages.Status JsonObject m = "sent") (map convert msgs).
Proof.
  intros H. apply Forall_forall. intros x Hx.
  apply in_map_iff in Hx as (m & <- & Hm). cbn. now apply H.
Qed.

End ServiceFacts.

(** X7. The service's pagination checks.  A negative page size is
    ErrInvalidPageSize and one above 100 is ErrPageSizeTooLarge, whatever
    the page; ErrPageSizeTooSmall is never returned.  Any other request
    succeeds when the store does: a page below 1 is answered as page 1, a
    page size of 0 as 20, the total is the number of sent rows, and the
    messages are at most a page of rows with status sent. *)
Theorem GetSentMessages_validation
        (JsonObject : Type) (json_Unmarshal : string -> option JsonObject)
        (fault fault' : option error) (st st' : db.Store) (page pageSize : Z) :
  (pageSize < 0 ->
   messages.GetSentMessages JsonObject json_Unmarshal fault fault' st st' page pageSize
     = (None, Some messages.ErrInvalidPageSize)) /\
  (100 < pageSize ->
   messages.GetSentMessages JsonObject json_Unmarshal fault fault' st st' page pageSize
     = (None, Some messages.ErrPageSizeTooLarge)) /\
  snd (messages.GetSentMessages JsonObject json_Unmarshal fault fault' st st' page pageSize)
    <> Some messages.ErrPageSizeTooSmall /\
  (0 <= pageSize <= 100 ->
   (Z.max 1 page - 1) * (if pageSize =? 0 then 20 else pageSize) < 2 ^ 31 ->
   fault = None -> fault' = None ->
   exists response,
     messages.GetSentMessages JsonObject json_Unmarshal fault fault' st st' page pageSize
       = (Some response, None) /\
     messages.ListStatus _ response = "ok" /\
     messages.Page _ response = Z.max 1 page /\
     messages.PageSize _ response = (if pageSize =? 0 then 20 else pageSize) /\
     messages.Total _ response = db.count_status db.MessageStatusSent st' /\
     Z.of_nat (List.length (messages.Messages _ response)) <= messages.PageSize _ response /\
     Forall (fun m => messages.Status _ m = "sent") (messages.Messages _ response)).
Proof.
  unfold messages.GetSentMessages, messages.MinPage, messages.MaxPageSize,
    messages.MinPageSize, messages.DefaultPageSize.
  repeat split.
  - intros H. replace (pageSize <? 0) with true by lia. reflexivity.
  - intros H. replace (pageSize <? 0) with false by lia.
    replace (pageSize =? 0) with false by lia.
    replace (pageSize >? 100) with true by lia. reflexivity.
  - destruct (pageSize <? 0) eqn:E0; [discriminate|].
    destruct (pageSize =? 0) eqn:E1.
    + cbn.
      destruct (queries.GetSentMessages fault st 20 _) as [msgs [e|]]; [discriminate|].
      destruct (queries.GetTotalSentMessagesCount fault' st') as [total [e|]];
        discriminate.
    + destruct (pageSize >? 100) eqn:E2; [discriminate|].
      replace (pageSize <? 1) with false by lia.
      destruct (queries.GetSentMessages fault st pageSize _) as [msgs [e|]];
        [discriminate|].
      destruct (queries.GetTotalSentMessagesCount fault' st') as [total [e|]];
        discriminate.
  - intros Hps Hoff -> ->.
    replace (pageSize <? 0) with false by lia.
    set (ps := if pageSize =? 0 then 20 else pageSize) in *.
    assert (Hrange : 1 <= ps <= 100)
      by (subst ps; destruct (pageSize =? 0) eqn:E; lia).
    replace (ps >? 100) with false by lia.
    replace (ps <? 1) with false by lia.
    replace (if page <? 1 then 1 else page) with (Z.max 1 page)
      by (destruct (page <? 1) eqn:E; lia).
    set (offset := int_wrap ((Z.max 1 page - 1) * ps)).
    destruct (history_page st ps offset) as (Herr & Hlen & _ & Hin).
    + lia.
    + subst offset. rewrite int_wrap_id by (unfold max_int; nia). nia.
    + destruct (queries.GetSentMessages None st ps offset) as [msgs err] eqn:Hq.
      cbn [fst snd] in *. subst err. cbn.
      eexists. split; [reflexivity|]. cbn. repeat split.
      * rewrite length_map. exact Hlen.
      * apply converted_status. intros m Hm. now apply Hin.
Qed.

Lemma GetSentMessages_validation_witness :
  (0 < 0 ->
   messages.GetSentMessages string as_text None None history history 0 0
     = (None, Some messages.ErrInvalidPageSize)) /\
  (100 < 0 ->
   messages.GetSentMessages string as_text None None history history 0 0
     = (None, Some messages.ErrPageSizeTooLarge)) /\
  snd (messages.GetSentMessages string as_text None None history history 0 0)
    <> Some messages.ErrPageSizeTooSmall /\
  exists response,
    messages.GetSentMessages string as_text None None history history 0 0
      = (Some response, None) /\
    messages.ListStatus _ response = "ok" /\
    messages.Page _ response = Z.max 1 0 /\
    messages.PageSize _ response = (if 0 =? 0 then 20 else 0) /\
    messages.Total _ response = db.count_status db.MessageStatusSent history /\
    Z.of_nat (List.length (messages.Messages _ response)) <= messages.PageSize _ response /\
    Forall (fun m => messages.Status _ m = "sent") (messages.Messages _ response).
Proof.
  pose proof (GetSentMessages_validation string as_text None None history history 0 0)
    as (H1 & H2 & H3 & H4).
  repeat split; try assumption.
  apply H4; [lia | vm_compute; reflexivity | reflexivity | reflexivity].
Defined.



(** ** The handlers *)

(** X9. getMessageHandler always answers, with 200, 400 or 404 and never
    with 500: 400 exactly when the id is not a 64-bit decimal number (the
    empty id included), 200 exactly when the store answers and holds a row
    with that key, whose fields it then returns, and 404 otherwise, a
    failure of the store included. *)
Theorem getMessageHandler_answers
        (JsonObject : Type) (json_Unmarshal : string -> option JsonObject)
        (now : Time) (fault : option error) (st : db.Store) (id : string) :
  exists code body,
    rest.getMessageHandler JsonObject json_Unmarshal now fault st id
      = Returns (code, body) /\
    (code = 200 \/ code = 400 \/ code = 404) /\
    (code = 400 <-> ParseInt id = None) /\
    (code = 200 <->
     exists n r, ParseInt id = Some n /\ fault = None /\
                 find (fun x => db.ID x =? n) (db.rows st) = Some r) /\
    (forall n r,
        ParseInt id = Some n -> fault = None ->
        find (fun x => db.ID x =? n) (db.rows st) = Some r ->
        body = rest.SingleBody JsonObject
                 (messages.mkSingle JsonObject "ok" now
                    (messages.convertToMessageResponse JsonObject json_Unmarshal r))).
Proof.
  unfold rest.getMessageHandler.
  destruct (String.eqb id EmptyString) eqn:Hempty.
  - apply String.eqb_eq in Hempty. subst id.
    do 2 eexists. split; [reflexivity|]. cbn.
    repeat split; try tauto; try discriminate.
    + intros (n & r & H & _). discriminate.
  - unfold messages.GetMessageByID.
    destruct (ParseInt id) as [n|] eqn:Hparse.
    + unfold queries.GetMessageByID. destruct fault as [e|].
      * do 2 eexists. split; [reflexivity|].
        repeat split; try tauto; try discriminate.
        -- intros (n' & r & _ & H & _). discriminate.
      * destruct (find (fun x => db.ID x =? n) (db.rows st)) as [r|] eqn:Hfind.
        -- do 2 eexists. split; [reflexivity|].
           repeat split; try tauto; try discriminate.
           ++ intros _. exists n, r. tauto.
           ++ intros n' r' H _ H'. injection H as <-. rewrite Hfind in H'.
              injection H' as <-. reflexivity.
        -- do 2 eexists. split; [reflexivity|].
           repeat split; try tauto; try discriminate.
           ++ intros (n' & r & H & _ & H'). injection H as <-. congruence.
           ++ intros n' r' H _ H'. injection H as <-. congruence.
    + do 2 eexists. split; [reflexivity|].
      repeat split; try tauto; try discriminate.
      intros (n' & r & H & _). discriminate.
Qed.

Ltac settle_codes :=
  repeat split; intros;
  repeat match goal with
         | H : _ /\ _ |- _ => destruct H
         | H : _ \/ _ |- _ => destruct H
         end;
  try discriminate; try lia; try congruence; try tauto.

(** X10. listMessagesHandler, for a request whose offset stays below
    2^31: a parameter that is absent or not a number counts as its
    default (page 1, page size 20); the answer is 400 exactly when the
    page size asked is negative or above 100, 500 exactly when the page
    size is admissible and a query fails, and 200 otherwise, with the page
    raised to at least 1, a page size of 0 replaced by 20, and the
    handler's timestamp. *)
Theorem listMessagesHandler_answers
        (JsonObject : Type) (json_Unmarshal : string -> option JsonObject)
        (now : Time) (fault fault' : option error) (st st' : db.Store)
        (pageParam pageSizeParam : string) :
  (Z.max 1 (asked_page pageParam) - 1)
    * (if asked_page_size pageSizeParam =? 0 then 20 else asked_page_size pageSizeParam)
    < 2 ^ 31 ->
  exists code body,
    rest.listMessagesHandler JsonObject json_Unmarshal now fault fault' st st'
                             pageParam pageSizeParam = Returns (code, body) /\
    (code = 400 <->
     asked_page_size pageSizeParam < 0 \/ 100 < asked_page_size pageSizeParam) /\
    (code = 500 <->
     0 <= asked_page_size pageSizeParam <= 100 /\ (fault <> None \/ fault' <> None)) /\
    (code = 200 <->
     0 <= asked_page_size pageSizeParam <= 100 /\ fault = None /\ fault' = None) /\
    (code = 200 ->
     exists response,
       body = rest.ListBody JsonObject response /\
       messages.ListTimestamp _ response = now /\
       messages.Page _ response = Z.max 1 (asked_page pageParam) /\
       messages.PageSize _ response =
         (if asked_page_size pageSizeParam =? 0 then 20
          else asked_page_size pageSizeParam) /\
       messages.Total _ response = db.count_status db.MessageStatusSent st').
Proof.
  intros _. unfold rest.listMessagesHandler.
  assert (Hp : (if String.eqb pageParam EmptyString then 1
                else match Atoi pageParam with Some p => p | None => 1 end)
               = asked_page pageParam).
  { unfold asked_page. destruct (String.eqb pageParam EmptyString) eqn:E;
      [|reflexivity]. apply String.eqb_eq in E. now subst. }
  assert (Hs : (if String.eqb pageSizeParam EmptyString then 20
                else match Atoi pageSizeParam with Some p => p | None => 20 end)
               = asked_page_size pageSizeParam).
  { unfold asked_page_size. destruct (String.eqb pageSizeParam EmptyString) eqn:E;
      [|reflexivity]. apply String.eqb_eq in E. now subst. }
  rewrite Hp, Hs. clear Hp Hs.
  set (page := asked_page pageParam). set (ps := asked_page_size pageSizeParam).
  unfold messages.GetSentMessages, messages.MinPage, messages.MaxPageSize,
    messages.MinPageSize, messages.DefaultPageSize.
  destruct (ps <? 0) eqn:E0.
  { do 2 eexists. split; [reflexivity|].
    settle_codes. }
  set (ps' := if ps =? 0 then 20 else ps).
  destruct (ps' >? 100) eqn:E1.
  { assert (100 < ps) by (subst ps'; destruct (ps =? 0) eqn:E; lia).
    do 2 eexists. split; [reflexivity|].
    settle_codes. }
  assert (Hps : 0 <= ps <= 100) by (subst ps'; destruct (ps =? 0) eqn:E; lia).
  replace (ps' <? 1) with false by (subst ps'; destruct (ps =? 0) eqn:E; lia).
  unfold queries.GetSentMessages, queries.GetTotalSentMessagesCount.
  destruct fault as [e|].
  { do 2 eexists. split; [reflexivity|].
    settle_codes. left. discriminate. }
  destruct fault' as [e|].
  { do 2 eexists. split; [reflexivity|].
    settle_codes. right. discriminate. }
  do 2 eexists. split; [reflexivity|].
  settle_codes.
  eexists. split; [reflexivity|]. cbn.
  repeat split. destruct (page <? 1) eqn:E; lia.
Qed.

Lemma listMessagesHandler_answers_witness :
  exists code body,
    rest.listMessagesHandler string as_text 900 None None history history
                             "2" "abc" = Returns (code, body) /\
    (code = 400 <->
     asked_page_size "abc" < 0 \/ 100 < asked_page_size "abc") /\
    (code = 500 <->
     0 <= asked_page_size "abc" <= 100 /\
     (@None error <> None \/ @None error <> None)) /\
    (code = 200 <->
     0 <= asked_page_size "abc" <= 100 /\ @None error = None /\ @None error = None) /\
    (code = 200 ->
     exists response,
       body = rest.ListBody string response /\
       messages.ListTimestamp _ response = 900 /\
       messages.Page _ response = Z.max 1 (asked_page "2") /\
       messages.PageSize _ response =
         (if asked_page_size "abc" =? 0 then 20 else asked_page_size "abc") /\
       messages.Total _ response = db.count_status db.MessageStatusSent history).
Proof.
  apply (listMessagesHandler_answers string as_text 900 None None history history
           "2" "abc").
  vm_compute. reflexivity.
Defined.



(** ** Sequences of scheduler calls *)




(** ** The life of a row *)

Lemma became_refl (r : db.Message) : became r r.
Proof. unfold became. repeat split; try reflexivity; lia. Qed.

Lemma became_trans (a b c : db.Message) : became a b -> became b c -> became a c.
Proof.
  intros (H1 & H2 & H3 & H4 & H5 & H6) (K1 & K2 & K3 & K4 & K5 & K6).
  unfold became. repeat split; try congruence; try lia.
  intros Ha. specialize (H6 Ha). subst b. now apply K6.
Qed.

Lemma in_update (f : db.Message -> db.Message) (id : Z) (l : list db.Message)
      (r : db.Message) :
  In r l -> In (if db.ID r =? id then f r else r) (db.update_where_id id f l).
Proof.
  intros Hin. unfold db.update_where_id.
  apply in_map_iff. exists r. split; [reflexivity | exact Hin].
Qed.

Lemma rank_pending : rank db.MessageStatusPending = 0.
Proof. reflexivity. Qed.

Lemma rank_sending : rank db.MessageStatusSending = 1.
Proof. reflexivity. Qed.

Lemma rank_bounds (s : db.MessageStatus) : 0 <= rank s <= 2.
Proof.
  unfold rank. destruct (String.eqb s db.MessageStatusPending);
    [|destruct (String.eqb s db.MessageStatusSending)]; lia.
Qed.

(** An update of the row with key [id], which is in status [s] with rank
    below 2, by a function that keeps the message and does not move it
    back. *)
Lemma update_became (f : db.Message -> db.Message) (id : Z) (l : list db.Message)
      (s : db.MessageStatus) :
  NoDup (map db.ID l) ->
  status_of id l = Some s ->
  rank s < 2 ->
  (forall x, db.Status x = s -> became x (f x)) ->
  forall r, In r l -> exists r', In r' (db.update_where_id id f l) /\ became r r'.
Proof.
  intros Hnd Hs Hrank Hf r Hin.
  exists (if db.ID r =? id then f r else r). split; [now apply in_update|].
  destruct (db.ID r =? id) eqn:E; [|apply became_refl].
  apply Hf. apply Z.eqb_eq in E. subst id.
  rewrite (status_of_row _ _ Hnd Hin) in Hs. congruence.
Qed.

Lemma claimed_became (now : Time) (x : db.Message) :
  db.Status x = db.MessageStatusPending -> became x (claimed now x).
Proof.
  intros Hx. unfold became. cbn. repeat split.
  - rewrite Hx. cbn. lia.
  - rewrite Hx. cbn. lia.
Qed.

Lemma finalized_became now status sentAt mid wr (x : db.Message) :
  status <> db.MessageStatusPending ->
  db.Status x = db.MessageStatusSending ->
  became x (db.status_update now status sentAt mid wr x).
Proof.
  intros Hstatus Hx. rewrite status_update_finalized. unfold became. cbn.
  repeat split.
  - rewrite Hx, rank_sending. unfold rank.
    destruct (String.eqb status db.MessageStatusPending) eqn:E.
    + apply String.eqb_eq in E. contradiction.
    + destruct (String.eqb status db.MessageStatusSending); lia.
  - rewrite Hx, rank_sending. lia.
Qed.

Lemma enqueue_rows (to content : string) (now1 now2 : Time) (fault : option error)
      (st : db.Store) :
  exists news,
    db.rows (fst (engine.enqueue to content now1 now2 fault st)) = db.rows st ++ news /\
    Forall (fun r => db.Status r = db.MessageStatusPending) news /\
    (List.length news <= 1)%nat.
Proof.
  unfold engine.enqueue, db.CreateMessage.
  destruct (len (db.Content (db.newMessage to content)) >? db.MaxMessageLength);
    [exists []; cbn; rewrite app_nil_r; repeat split; [constructor | lia]|].
  unfold db.exec_insert. destruct fault as [e|];
    [exists []; cbn; rewrite app_nil_r; repeat split; [constructor | lia]|].
  cbn [db.ID db.set_Status db.set_UpdatedAt db.set_CreatedAt db.newMessage
       db.To db.Content].
  rewrite Z.eqb_refl.
  destruct (db.has_id (db.next_id st) (db.rows st));
    [exists []; cbn; rewrite app_nil_r; repeat split; [constructor | lia]|].
  destruct (negb (db.check_phone_format to && db.check_content_length content));
    [exists []; cbn; rewrite app_nil_r; repeat split; [constructor | lia]|].
  eexists [_]. cbn. repeat split; [|lia]. constructor; [reflexivity | constructor].
Qed.

Section EngineLife.

Variable json_Marshal : webhook.Response -> string.
Variable cfg : config.Cfg.

Lemma step_became (op : engine.Op) (s s' : db.Store * list db.Message) :
  sys_inv s -> engine.step json_Marshal cfg op s = Some s' ->
  forall r, In r (db.rows (fst s)) ->
            exists r', In r' (db.rows (fst s')) /\ became r r'.
Proof.
  destruct s as [st fl]. intros (Hwf & Hseq & Htr & Hok). cbn [fst snd] in *.
  destruct op as [to content now1 now2 fault | now fault | k we];
    cbn [engine.step].
  - intros H. injection H as <-. intros r Hin. cbn [fst].
    destruct (enqueue_rows to content now1 now2 fault st) as (news & -> & _).
    exists r. split; [apply in_or_app; now left | apply became_refl].
  - destruct (claim_cases now fault st Hwf)
      as [(err & Hclaim & _) | (r0 & _ & Hin0 & Hst0 & Hclaim)]; rewrite Hclaim.
    + intros H. injection H as <-. intros r Hin.
      exists r. split; [exact Hin | apply became_refl].
    + intros H. injection H as <-. cbn [fst db.rows].
      destruct Hwf as [Hnd _].
      apply (update_became (claimed now) (db.ID r0) (db.rows st)
                           db.MessageStatusPending Hnd).
      * rewrite (status_of_row _ _ Hnd Hin0). now rewrite Hst0.
      * cbn. lia.
      * intros x Hx. now apply claimed_became.
  - destruct (nth_error fl k) as [msg|] eqn:Hk;
      [|intros H; injection H as <-; intros r Hin; exists r;
        split; [exact Hin | apply became_refl]].
    destruct (service.processMessage json_Marshal cfg we st msg)
      as [[st'|why]|] eqn:Hpm;
      [| discriminate
       | intros H; injection H as <-; intros r Hin; exists r;
         split; [exact Hin | apply became_refl]].
    intros H. injection H as <-. cbn [fst].
    assert (Hs : status_of (db.ID msg) (db.rows st) = Some db.MessageStatusSending).
    { apply (tracked_status _ fl); [exact Htr|].
      apply in_map. now apply nth_error_In with k. }
    destruct Hwf as [Hnd _].
    apply processMessage_returns in Hpm as [-> | (t & mid & wr & ->)];
      unfold db.UpdateMessageStatus;
      (destruct (service.update_fault we);
       [intros r Hin; exists r; split; [exact Hin | apply became_refl]|]);
      cbn [fst db.rows];
      apply (update_became _ (db.ID msg) (db.rows st) db.MessageStatusSending Hnd Hs);
      try (cbn; lia);
      intros x Hx; apply finalized_became; try assumption; discriminate.
Qed.

Lemma run_became (ops : list engine.Op) :
  forall s s',
    sys_inv s -> engine.run json_Marshal cfg ops s = Some s' ->
    forall r, In r (db.rows (fst s)) ->
              exists r', In r' (db.rows (fst s')) /\ became r r'.
Proof.
  induction ops as [|op rest IH]; intros s s' Hinv; cbn [engine.run].
  - intros H. injection H as <-. intros r Hin.
    exists r. split; [exact Hin | apply became_refl].
  - destruct (engine.step json_Marshal cfg op s) as [s1|] eqn:Hstep; [|discriminate].
    intros Hrun r Hin.
    destruct (step_became op s s1 Hinv Hstep r Hin) as (r1 & Hin1 & Hb1).
    destruct (IH s1 s' (sys_step_inv json_Marshal cfg op s s1 Hinv Hstep) Hrun r1 Hin1)
      as (r' & Hin' & Hb').
    exists r'. split; [exact Hin' | now apply (became_trans r r1 r')].
Qed.

End EngineLife.

(** X13. Along every run of the engine no row is lost or rewritten
    backwards: a row of a table the engine has reached is found again
    after any further operations with the same id, address, content and
    created_at, in a status no earlier in the order pending, sending,
    sent or failed; and a row that was sent or failed is found unchanged
    in every field. *)
Theorem rows_only_move_forward
        (json_Marshal : webhook.Response -> string) (cfg : config.Cfg)
        (before after : list engine.Op)
        (s s' : db.Store * list db.Message) (r : db.Message) :
  engine.run json_Marshal cfg before (db.emptyStore, []) = Some s ->
  engine.run json_Marshal cfg after s = Some s' ->
  In r (db.rows (fst s)) ->
  exists r',
    In r' (db.rows (fst s')) /\
    db.ID r' = db.ID r /\ db.To r' = db.To r /\ db.Content r' = db.Content r /\
    db.CreatedAt r' = db.CreatedAt r /\
    rank (db.Status r) <= rank (db.Status r') /\
    (db.Status r = db.MessageStatusSent \/ db.Status r = db.MessageStatusFailed ->
     r' = r).
Proof.
  intros Hbefore Hafter Hin.
  pose proof (sys_run_inv json_Marshal cfg before _ _ sys_inv_empty Hbefore) as Hinv.
  destruct (run_became json_Marshal cfg after s s' Hinv Hafter r Hin)
    as (r' & Hin' & H1 & H2 & H3 & H4 & H5 & H6).
  exists r'. repeat split; try assumption.
  intros Hfinal. apply H6. destruct Hfinal as [-> | ->]; reflexivity.
Qed.

Lemma rows_only_move_forward_witness :
  exists r',
    In r' (db.rows (fst state_after)) /\
    db.ID r' = db.ID failed_row /\ db.To r' = db.To failed_row /\
    db.Content r' = db.Content failed_row /\
    db.CreatedAt r' = db.CreatedAt failed_row /\
    rank (db.Status failed_row) <= rank (db.Status r') /\
    (db.Status failed_row = db.MessageStatusSent \/
     db.Status failed_row = db.MessageStatusFailed ->
     r' = failed_row).
Proof.
  apply (rows_only_move_forward plain_json (cfg_with 2 3) ops_before ops_after
                                state_before state_after failed_row).
  - vm_compute. reflexivity.
  - vm_compute. reflexivity.
  - right. left. reflexivity.
Defined.

Example after_the_run :
  map (fun r => (db.ID r, db.Status r)) (db.rows (fst state_after)) =
    [(1, "sent"); (2, "failed"); (3, "sending")].
Proof. reflexivity. Qed.

(** ** The order of claims *)

Lemma claim_takes_oldest (now : Time) (fault : option error) (st st' : db.Store)
      (m : db.Message) (err : option error) :
  wf_store st ->
  db.ClaimNextMessage now fault st = (st', Some m, err) ->
  exists r,
    In r (db.rows st) /\ db.Status r = db.MessageStatusPending /\
    (forall x, In x (db.rows st) -> db.Status x = db.MessageStatusPending ->
               db.CreatedAt r <= db.CreatedAt x) /\
    st' = db.mkStore (db.update_where_id (db.ID r) (claimed now) (db.rows st))
                     (db.next_id st) /\
    m = claimed now r.
Proof.
  intros [Hnd Hnz]. destruct fault as [e|].
  - unfold db.ClaimNextMessage, db.exec_claim. destruct e; discriminate.
  - destruct (db.oldest (filter (db.has_status db.MessageStatusPending) (db.rows st)))
      as [r|] eqn:Hold.
    + unfold db.ClaimNextMessage. rewrite (exec_claim_some now st r Hnd Hold).
      destruct (oldest_least _ _ Hold) as [Hin Hmin].
      apply filter_In in Hin as [Hin Hst]. apply has_status_iff in Hst.
      cbn [db.ID claimed].
      destruct (db.ID r =? 0); [discriminate|].
      intros H. injection H as <- <- _.
      exists r. repeat split; try assumption.
      intros x Hx Hxs. apply Hmin. apply filter_In.
      split; [assumption | now apply has_status_iff].
    + apply oldest_none in Hold.
      unfold db.ClaimNextMessage, db.exec_claim, db.select_oldest_id.
      rewrite Hold. discriminate.
Qed.

(** X14. First in, first out: of two claims made one after the other on a
    table with unique non-zero keys, with nothing enqueued in between, the
    second returns another row than the first, and one created no
    earlier. *)
Theorem serial_claims_fifo
        (now1 now2 : Time) (fault1 fault2 : option error)
        (st st1 st2 : db.Store) (m1 m2 : db.Message) (err1 err2 : option error) :
  wf_store st ->
  db.ClaimNextMessage now1 fault1 st = (st1, Some m1, err1) ->
  db.ClaimNextMessage now2 fault2 st1 = (st2, Some m2, err2) ->
  db.ID m1 <> db.ID m2 /\ db.CreatedAt m1 <= db.CreatedAt m2.
Proof.
  intros Hwf H1 H2.
  destruct (claim_takes_oldest _ _ _ _ _ _ Hwf H1)
    as (r1 & Hin1 & Hst1 & Hmin1 & -> & ->).
  assert (Hwf1 : wf_store (db.mkStore
                             (db.update_where_id (db.ID r1) (claimed now1) (db.rows st))
                             (db.next_id st))).
  { destruct Hwf as [Hnd Hnz]. split; cbn; now rewrite update_keeps_ids. }
  destruct (claim_takes_oldest _ _ _ _ _ _ Hwf1 H2)
    as (r2 & Hin2 & Hst2 & _ & _ & ->).
  cbn [db.rows] in Hin2. unfold db.update_where_id in Hin2.
  apply in_map_iff in Hin2 as (x & Hx & Hinx).
  destruct (db.ID x =? db.ID r1) eqn:E.
  - subst r2. cbn in Hst2. discriminate.
  - subst r2. cbn [claimed db.ID db.CreatedAt]. split; [lia|].
    now apply Hmin1.
Qed.

Lemma serial_claims_fifo_witness :
  db.ID (db.mkMessage 3 "+905553333333" "third" db.MessageStatusSending
                      None None None 20 99)
    <> db.ID (db.mkMessage 2 "+905552222222" "second" db.MessageStatusSending
                           None None None 30 100) /\
  db.CreatedAt (db.mkMessage 3 "+905553333333" "third" db.MessageStatusSending
                             None None None 20 99)
    <= db.CreatedAt (db.mkMessage 2 "+905552222222" "second" db.MessageStatusSending
                                  None None None 30 100).
Proof.
  apply (serial_claims_fifo 99 100 None None three_rows
           (fst (fst (db.ClaimNextMessage 99 None three_rows)))
           (fst (fst (db.ClaimNextMessage 100 None
                        (fst (fst (db.ClaimNextMessage 99 None three_rows))))))
           _ _ None None).
  - split; cbn.
    + repeat constructor; cbn; intuition lia.
    + intuition lia.
  - reflexivity.
  - reflexivity.
Defined.

(** ** The cap of a tick *)

Lemma remove_nth_length {A : Type} (k : nat) (l : list A) :
  (List.length (service.remove_nth k l) <= List.length l)%nat.
Proof.
  revert k. induction l as [|a l IH]; intros k; destruct k; cbn; try lia.
  specialize (IH k). lia.
Qed.

Section TickCap.

Variable json_Marshal : webhook.Response -> string.
Variable cfg : config.Cfg.

Lemma claim_iteration_cap (k : Z) (now : Time) (fault : option error)
      (ts : service.TickState) :
  tick_cap cfg k ts -> tick_cap cfg k (service.claim_iteration cfg now fault ts).
Proof.
  intros (Hwf & Htr & Hsc & Hi & Hk & Hfl). unfold service.claim_iteration.
  destruct (service.loop_done cfg ts) eqn:Hdone; [unfold tick_cap; tauto|].
  unfold service.loop_done in Hdone. apply orb_false_iff in Hdone as [_ HiB].
  destruct (claim_cases now fault (service.store ts) Hwf)
    as [(err & Hclaim & _) | (r & _ & Hin & Hst & Hclaim)]; rewrite Hclaim.
  - destruct err as [e|]; unfold tick_cap; cbn;
      repeat (split; [first [assumption | lia]|]); first [assumption | lia].
  - destruct (claim_preserves now _ _ r Hwf Htr Hin Hst) as (Hwf' & Htr' & Hcnt).
    unfold tick_cap. cbn. rewrite length_app. cbn.
    repeat (split; [first [assumption | lia]|]). lia.
Qed.

Lemma worker_finish_cap (k0 : Z) (k : nat) (we : service.WorkerEnv)
      (ts ts' : service.TickState) :
  tick_cap cfg k0 ts ->
  service.worker_finish json_Marshal cfg k we ts = Returns ts' ->
  tick_cap cfg k0 ts'.
Proof.
  intros Hinv. unfold service.worker_finish.
  destruct (nth_error (service.inflight ts) k) as [msg|] eqn:Hk;
    [|intros H; injection H as <-; exact Hinv].
  destruct (service.processMessage json_Marshal cfg we (service.store ts) msg)
    as [[st'|why]|] eqn:Hpm;
    [| discriminate | intros H; injection H as <-; exact Hinv].
  intros H. injection H as <-.
  destruct Hinv as (Hwf & Htr & Hsc & Hi & Hk0 & Hfl).
  assert (Hfin : wf_store st' /\
                 tracked (db.rows st') (service.remove_nth k (service.inflight ts)) /\
                 db.count_pending st' = db.count_pending (service.store ts)).
  { apply processMessage_returns in Hpm as [-> | (t & mid & wr & ->)];
      apply finalize_preserves; try assumption; discriminate. }
  destruct Hfin as (Hwf' & Htr' & Hcnt).
  pose proof (remove_nth_length k (service.inflight ts)).
  unfold tick_cap. cbn. rewrite Hcnt.
  repeat (split; [first [assumption | lia]|]). lia.
Qed.

Lemma run_cap (k0 : Z) (sch : list service.Event) :
  forall ts ts',
    tick_cap cfg k0 ts ->
    service.run json_Marshal cfg sch ts = Returns ts' ->
    tick_cap cfg k0 ts'.
Proof.
  induction sch as [|ev rest IH]; intros ts ts' Hinv; cbn [service.run].
  - intros H. injection H as <-. exact Hinv.
  - destruct ev as [now fault | k we]; cbn [service.tick_step].
    + apply IH. now apply claim_iteration_cap.
    + destruct (service.worker_finish json_Marshal cfg k we ts) as [ts1|why] eqn:Hw;
        [|discriminate].
      apply IH. now apply (worker_finish_cap k0 k we ts).
Qed.

End TickCap.

(** X15. The cap of a tick.  Whenever processBatch has not panicked, on a
    table with unique non-zero keys, whatever errors the claims met and
    however loop and workers interleaved: the loop has counted at most
    [BatchSize] claims, exactly as many rows have left pending as it
    counted, and no more workers are in flight than that. *)
Theorem processBatch_cap
        (json_Marshal : webhook.Response -> string) (cfg : config.Cfg)
        (sch : list service.Event) (st : db.Store) (ts : service.TickState) :
  wf_store st ->
  service.processBatch json_Marshal cfg sch st = Returns ts ->
  0 <= service.sentCount ts <= service.BatchSize cfg /\
  db.count_pending st - db.count_pending (service.store ts) = service.sentCount ts /\
  Z.of_nat (List.length (service.inflight ts)) <= service.sentCount ts /\
  wf_store (service.store ts).
Proof.
  intros Hwf. unfold service.processBatch.
  destruct (service.BatchSize cfg <? 0) eqn:HB; [discriminate|].
  intros Hrun.
  assert (Hinit : tick_cap cfg (db.count_pending st) (service.mkTick st 0 true [] 0)).
  { unfold tick_cap, tracked. cbn.
    split; [exact Hwf|]. split; [split; constructor|].
    repeat (split; [lia|]). lia. }
  destruct (run_cap json_Marshal cfg _ sch _ _ Hinit Hrun)
    as (Hwf' & _ & Hsc & Hi & Hk & Hfl).
  repeat split; try apply Hwf'; lia.
Qed.

Lemma processBatch_cap_witness :
  0 <= service.sentCount after_faulty_tick <= service.BatchSize (cfg_with 2 3) /\
  db.count_pending three_pending - db.count_pending (service.store after_faulty_tick)
    = service.sentCount after_faulty_tick /\
  Z.of_nat (List.length (service.inflight after_faulty_tick))
    <= service.sentCount after_faulty_tick /\
  wf_store (service.store after_faulty_tick).
Proof.
  apply (processBatch_cap plain_json (cfg_with 2 3) faulty_tick three_pending
                          after_faulty_tick).
  - split; cbn.
    + repeat constructor; cbn; intuition lia.
    + intuition lia.
  - vm_compute. reflexivity.
Defined.

Example faulty_tick_claims_one :
  service.sentCount after_faulty_tick = 1 /\ service.i after_faulty_tick = 2.
Proof. split; reflexivity. Qed.

(** ** The total of the history *)

Lemma sent_total_count (st : db.Store) :
  sent_total st = count_in db.MessageStatusSent (db.rows st).
Proof. reflexivity. Qed.

Lemma count_in_app (s : db.MessageStatus) (l l' : list db.Message) :
  count_in s (l ++ l') = count_in s l + count_in s l'.
Proof. unfold count_in. rewrite filter_app, length_app. lia. Qed.

Lemma count_in_other (s s' : db.MessageStatus) (l : list db.Message) :
  s <> s' -> Forall (fun r => db.Status r = s') l -> count_in s l = 0.
Proof.
  intros Hne Hall. unfold count_in.
  induction Hall as [|r l Hr _ IH]; cbn; [reflexivity|].
  rewrite has_status_false by congruence. exact IH.
Qed.

Section EngineTotal.

Variable json_Marshal : webhook.Response -> string.
Variable cfg : config.Cfg.

Lemma step_sent_total (op : engine.Op) (s s' : db.Store * list db.Message) :
  sys_inv s -> engine.step json_Marshal cfg op s = Some s' ->
  sent_total (fst s) <= sent_total (fst s') <= sent_total (fst s) + worker_ops [op].
Proof.
  destruct s as [st fl]. intros (Hwf & Hseq & Htr & Hok). cbn [fst snd] in *.
  rewrite !sent_total_count.
  destruct op as [to content now1 now2 fault | now fault | k we];
    cbn [engine.step]; unfold worker_ops; cbn [filter List.length].
  - intros H. injection H as <-. cbn [fst].
    destruct (enqueue_rows to content now1 now2 fault st) as (news & -> & Hp & _).
    rewrite count_in_app, (count_in_other _ db.MessageStatusPending news);
      [lia | discriminate | exact Hp].
  - destruct (claim_cases now fault st Hwf)
      as [(err & Hclaim & _) | (r0 & _ & Hin0 & Hst0 & Hclaim)]; rewrite Hclaim.
    + intros H. injection H as <-. cbn. lia.
    + intros H. injection H as <-. cbn [fst db.rows].
      destruct Hwf as [Hnd _].
      rewrite (count_update (claimed now) db.MessageStatusSent (db.ID r0)
                            (db.rows st) r0 Hnd (find_by_id _ _ Hnd Hin0)).
      rewrite !has_status_false by (try rewrite Hst0; cbn; discriminate).
      cbn. lia.
  - destruct (nth_error fl k) as [msg|] eqn:Hk;
      [|intros H; injection H as <-; cbn; lia].
    destruct (service.processMessage json_Marshal cfg we st msg)
      as [[st'|why]|] eqn:Hpm;
      [| discriminate | intros H; injection H as <-; cbn; lia].
    intros H. injection H as <-. cbn [fst].
    assert (Hs : status_of (db.ID msg) (db.rows st) = Some db.MessageStatusSending).
    { apply (tracked_status _ fl); [exact Htr|].
      apply in_map. now apply nth_error_In with k. }
    unfold status_of in Hs.
    destruct (find (fun r => db.ID r =? db.ID msg) (db.rows st)) as [r|] eqn:Hfind;
      [|discriminate].
    injection Hs as Hs. destruct Hwf as [Hnd _].
    apply processMessage_returns in Hpm as [-> | (t & mid & wr & ->)];
      unfold db.UpdateMessageStatus;
      (destruct (service.update_fault we); [cbn; lia|]);
      cbn [fst db.rows];
      rewrite (count_update _ db.MessageStatusSent (db.ID msg) (db.rows st) r Hnd Hfind);
      rewrite (has_status_false db.MessageStatusSent r) by (rewrite Hs; discriminate);
      rewrite status_update_finalized.
    + rewrite has_status_false by (cbn; discriminate). cbn. lia.
    + replace (db.has_status db.MessageStatusSent _) with true by reflexivity.
      cbn. lia.
Qed.

Lemma worker_ops_cons (op : engine.Op) (rest : list engine.Op) :
  worker_ops (op :: rest) = worker_ops [op] + worker_ops rest.
Proof. unfold worker_ops. destruct op; cbn [filter List.length]; lia. Qed.

Lemma run_sent_total (ops : list engine.Op) :
  forall s s',
    sys_inv s -> engine.run json_Marshal cfg ops s = Some s' ->
    sent_total (fst s) <= sent_total (fst s') <= sent_total (fst s) + worker_ops ops.
Proof.
  induction ops as [|op rest IH]; intros s s' Hinv; cbn [engine.run].
  - intros H. injection H as <-. unfold worker_ops. cbn. lia.
  - destruct (engine.step json_Marshal cfg op s) as [s1|] eqn:Hstep; [|discriminate].
    intros Hrun.
    pose proof (step_sent_total op s s1 Hinv Hstep).
    pose proof (IH s1 s' (sys_step_inv json_Marshal cfg op s s1 Hinv Hstep) Hrun).
    rewrite worker_ops_cons. lia.
Qed.

End EngineTotal.

(** X16. The total that GetTotalSentMessagesCount reports never goes down
    along a run of the engine, and goes up by at most one for each worker
    that finishes; enqueues and claims leave it as it is. *)
Theorem sent_total_grows
        (json_Marshal : webhook.Response -> string) (cfg : config.Cfg)
        (before after : list engine.Op) (s s' : db.Store * list db.Message) :
  engine.run json_Marshal cfg before (db.emptyStore, []) = Some s ->
  engine.run json_Marshal cfg after s = Some s' ->
  fst (queries.GetTotalSentMessagesCount None (fst s))
    <= fst (queries.GetTotalSentMessagesCount None (fst s'))
    <= fst (queries.GetTotalSentMessagesCount None (fst s)) + worker_ops after.
Proof.
  intros Hbefore Hafter.
  pose proof (sys_run_inv json_Marshal cfg before _ _ sys_inv_empty Hbefore) as Hinv.
  exact (run_sent_total json_Marshal cfg after s s' Hinv Hafter).
Qed.

Lemma sent_total_grows_witness :
  fst (queries.GetTotalSentMessagesCount None (fst state_before))
    <= fst (queries.GetTotalSentMessagesCount None (fst state_after))
    <= fst (queries.GetTotalSentMessagesCount None (fst state_before))
       + worker_ops ops_after.
Proof.
  apply (sent_total_grows plain_json (cfg_with 2 3) ops_before ops_after
                          state_before state_after).
  - vm_compute. reflexivity.
  - vm_compute. reflexivity.
Defined.

(** ** The seed command *)

Lemma samples_fit :
  forallb (fun s => len s <=? db.MaxMessageLength) seed.sampleMessages = true /\
  forallb db.check_content_length seed.sampleMessages = true /\
  forallb db.check_phone_format seed.turkishPhoneNumbers = true.
Proof. repeat split; vm_compute; reflexivity. Qed.

Lemma has_id_fresh (st : db.Store) :
  seq_fresh st -> db.has_id (db.next_id st) (db.rows st) = false.
Proof.
  intros [_ Hall]. unfold db.has_id.
  destruct (existsb _ _) eqn:E; [|reflexivity].
  apply existsb_exists in E as (r & Hin & Hr).
  rewrite Forall_forall in Hall. specialize (Hall r Hin). lia.
Qed.

(** One iteration whose insert the driver executes. *)
Lemma seed_insert (env : seed.Env) (i : nat) (st : db.Store) :
  seq_fresh st ->
  seed.insert_fault env i = None ->
  exists row,
    db.CreateMessage
      (seed.created env i) (seed.updated env i) (seed.insert_fault env i) st
      (db.newMessage
         (nth (seed.Intn env (2 * i) (List.length seed.turkishPhoneNumbers))
              seed.turkishPhoneNumbers EmptyString)
         (nth (seed.Intn env (2 * i + 1) (List.length seed.sampleMessages))
              seed.sampleMessages EmptyString))
    = (db.mkStore (db.rows st ++ [row]) (db.next_id st + 1), row, None) /\
    seeded row /\ db.ID row = db.next_id st.
Proof.
  intros Hfresh Hfault.
  set (to := nth _ seed.turkishPhoneNumbers EmptyString).
  set (content := nth _ seed.sampleMessages EmptyString).
  assert (Hto : In to seed.turkishPhoneNumbers).
  { apply nth_In. unfold seed.Intn. apply Nat.mod_upper_bound. cbn. lia. }
  assert (Hcontent : In content seed.sampleMessages).
  { apply nth_In. unfold seed.Intn. apply Nat.mod_upper_bound. cbn. lia. }
  destruct samples_fit as (Hlen & Hchars & Hphone).
  rewrite forallb_forall in Hlen, Hchars, Hphone.
  unfold db.CreateMessage. cbn [db.Content db.newMessage].
  replace (len content >? db.MaxMessageLength) with false
    by (specialize (Hlen content Hcontent); lia).
  rewrite Hfault. unfold db.exec_insert.
  cbn [db.ID db.To db.Content db.set_Status db.set_UpdatedAt db.set_CreatedAt
       db.newMessage].
  rewrite Z.eqb_refl, (has_id_fresh st Hfresh), (Hphone to Hto), (Hchars content Hcontent).
  cbn. eexists. split; [reflexivity|].
  unfold seeded. cbn. tauto.
Qed.

Lemma seq_fresh_snoc (st : db.Store) (row : db.Message) :
  seq_fresh st -> db.ID row = db.next_id st ->
  seq_fresh (db.mkStore (db.rows st ++ [row]) (db.next_id st + 1)).
Proof.
  intros [Hone Hall] Hid. split; cbn; [lia|].
  apply Forall_app. split.
  - eapply Forall_impl; [|exact Hall]. cbn. intros r Hr. lia.
  - constructor; [lia | constructor].
Qed.

Lemma seed_loop_fills (env : seed.Env) :
  forall (remaining i : nat) (st : db.Store),
    seq_fresh st ->
    (forall k, (i <= k < i + remaining)%nat -> seed.insert_fault env k = None) ->
    exists news,
      seed.loop env remaining i st =
        (db.mkStore (db.rows st ++ news) (db.next_id st + Z.of_nat remaining), None) /\
      List.length news = remaining /\
      Forall seeded news /\
      seq_fresh (db.mkStore (db.rows st ++ news) (db.next_id st + Z.of_nat remaining)).
Proof.
  induction remaining as [|remaining IH]; intros i st Hfresh Hok.
  - exists []. cbn. rewrite app_nil_r, Z.add_0_r.
    destruct st. cbn. repeat split; try constructor; apply Hfresh.
  - cbn [seed.loop].
    destruct (seed_insert env i st Hfresh (Hok i ltac:(lia)))
      as (row & Hinsert & Hseeded & Hid).
    rewrite Hinsert.
    destruct (IH (S i) _ (seq_fresh_snoc st row Hfresh Hid)) as (news & Hloop & Hlen & Hall & Hf).
    { intros k Hk. apply Hok. lia. }
    cbn [db.rows db.next_id] in Hloop, Hf.
    exists (row :: news). rewrite Hloop.
    replace (db.rows st ++ row :: news) with ((db.rows st ++ [row]) ++ news)
      by (rewrite <- app_assoc; reflexivity).
    replace (db.next_id st + Z.of_nat (S remaining))
      with (db.next_id st + 1 + Z.of_nat remaining) by lia.
    repeat split; try assumption.
    + cbn. now rewrite Hlen.
    + now constructor.
    + apply Hf.
    + apply Hf.
Qed.

Lemma seed_loop_stops (env : seed.Env) (e : error) :
  forall (done i : nat) (rest : nat) (st : db.Store),
    seq_fresh st ->
    (forall k, (i <= k < i + done)%nat -> seed.insert_fault env k = None) ->
    seed.insert_fault env (i + done) = Some e ->
    exists news,
      seed.loop env (done + S rest) i st =
        (db.mkStore (db.rows st ++ news) (db.next_id st + Z.of_nat done),
         Some (Z.of_nat (i + done) + 1, e)) /\
      List.length news = done /\ Forall seeded news.
Proof.
  induction done as [|done IH]; intros i rest st Hfresh Hok Hfail.
  - exists []. rewrite Nat.add_0_r in Hfail. cbn [Nat.add seed.loop].
    assert (Hcontent : In (nth (seed.Intn env (2 * i + 1) (List.length seed.sampleMessages))
                               seed.sampleMessages EmptyString) seed.sampleMessages).
    { apply nth_In. unfold seed.Intn. apply Nat.mod_upper_bound. cbn. lia. }
    destruct samples_fit as (Hlen & _ & _). rewrite forallb_forall in Hlen.
    specialize (Hlen _ Hcontent).
    unfold db.CreateMessage. cbn [db.Content db.newMessage].
    match goal with |- context [len ?c >? _] =>
      replace (len c >? db.MaxMessageLength) with false by lia end.
    rewrite Hfail. cbn. rewrite app_nil_r, Z.add_0_r, Nat.add_0_r.
    destruct st. cbn. repeat split. constructor.
  - cbn [Nat.add seed.loop].
    destruct (seed_insert env i st Hfresh (Hok i ltac:(lia)))
      as (row & Hinsert & Hseeded & Hid).
    rewrite Hinsert.
    destruct (IH (S i) rest _ (seq_fresh_snoc st row Hfresh Hid)) as (news & Hloop & Hlen & Hall).
    { intros k Hk. apply Hok. lia. }
    { replace (S i + done)%nat with (i + S done)%nat by lia. exact Hfail. }
    cbn [db.rows db.next_id] in Hloop.
    exists (row :: news). rewrite Hloop.
    replace (db.rows st ++ row :: news) with ((db.rows st ++ [row]) ++ news)
      by (rewrite <- app_assoc; reflexivity).
    replace (db.next_id st + Z.of_nat (S done))
      with (db.next_id st + 1 + Z.of_nat done) by lia.
    replace (S i + done)%nat with (i + S done)%nat by lia.
    repeat split.
    + cbn. now rewrite Hlen.
    + now constructor.
Qed.

(** X17. Seeding a table fed through its sequence only.  While the driver
    executes the inserts, none of them is refused: every sample content
    is within the length limit and every sample number has the phone
    format, so a run for [count] messages appends exactly [count] rows,
    all pending with null delivery fields and an address and a content
    from the samples, and returns the nil error.  When the insert of
    iteration [j] fails, the run stops there, reports message [j + 1] and
    leaves the [j] rows inserted before in the table. *)
Theorem seedMessages_fills (env : seed.Env) (count : Z) (st : db.Store) :
  seq_fresh st ->
  0 <= count ->
  ((forall k, Z.of_nat k < count -> seed.insert_fault env k = None) ->
   exists news,
     seed.seedMessages env count st =
       (db.mkStore (db.rows st ++ news) (db.next_id st + count), None) /\
     Z.of_nat (List.length news) = count /\
     Forall seeded news) /\
  (forall j e,
      Z.of_nat j < count ->
      (forall k, (k < j)%nat -> seed.insert_fault env k = None) ->
      seed.insert_fault env j = Some e ->
      exists news,
        seed.seedMessages env count st =
          (db.mkStore (db.rows st ++ news) (db.next_id st + Z.of_nat j),
           Some (Z.of_nat j + 1, e)) /\
        List.length news = j /\
        Forall seeded news).
Proof.
  intros Hfresh Hcount. unfold seed.seedMessages. split.
  - intros Hok.
    destruct (seed_loop_fills env (Z.to_nat count) 0 st Hfresh)
      as (news & Hloop & Hlen & Hall & _).
    { intros k Hk. apply Hok. lia. }
    exists news. rewrite Hloop. replace (Z.of_nat (Z.to_nat count)) with count by lia.
    repeat split; [lia | exact Hall].
  - intros j e Hj Hok Hfail.
    replace (Z.to_nat count) with (j + S (Z.to_nat count - S j))%nat by lia.
    destruct (seed_loop_stops env e j 0 (Z.to_nat count - S j) st Hfresh)
      as (news & Hloop & Hlen & Hall).
    { intros k Hk. apply Hok. lia. }
    { exact Hfail. }
    exists news. rewrite Hloop. cbn [Nat.add]. repeat split; assumption.
Qed.

Lemma seedMessages_fills_witness :
  ((forall k, Z.of_nat k < 3 -> seed.insert_fault (seed_env 5) k = None) ->
   exists news,
     seed.seedMessages (seed_env 5) 3 db.emptyStore =
       (db.mkStore (db.rows db.emptyStore ++ news) (db.next_id db.emptyStore + 3), None) /\
     Z.of_nat (List.length news) = 3 /\
     Forall seeded news) /\
  (forall j e,
      Z.of_nat j < 3 ->
      (forall k, (k < j)%nat -> seed.insert_fault (seed_env 5) k = None) ->
      seed.insert_fault (seed_env 5) j = Some e ->
      exists news,
        seed.seedMessages (seed_env 5) 3 db.emptyStore =
          (db.mkStore (db.rows db.emptyStore ++ news)
                      (db.next_id db.emptyStore + Z.of_nat j),
           Some (Z.of_nat j + 1, e)) /\
        List.length news = j /\
        Forall seeded news).
Proof.
  apply (seedMessages_fills (seed_env 5) 3 db.emptyStore).
  - split; cbn; [lia | constructor].
  - lia.
Defined.

Example seed_two_then_fail :
  let '(st, err) := seed.seedMessages (seed_env 2) 5 db.emptyStore in
  map db.ID (db.rows st) = [1; 2] /\
  err = Some (3, ErrStore "connection reset").
Proof. vm_compute. split; reflexivity. Qed.

(** ** Loading the configuration *)

Section Loading.

Variable getenv : string -> string.
Variable ParseDuration : string -> option Z.
Variable Sscanf_d : string -> option Z.
Variable read_file : string -> configload.FileRead.

Let load := configload.NewConfig getenv ParseDuration Sscanf_d read_file EmptyString.

Lemma or_keep_text (var old : string) :
  configload.or_keep getenv var old Some =
  if String.eqb (getenv var) EmptyString then old else getenv var.
Proof. unfold configload.or_keep. destruct (String.eqb _ _); reflexivity. Qed.

Lemma NewConfig_no_file :
  load =
  match config.validate
          (configload.core
             (configload.loadFromEnv getenv ParseDuration Sscanf_d
                (configload.setDefaults configload.zero))) with
  | Some reason => (None, Some (configload.ErrInvalid reason))
  | None =>
      (Some (configload.loadFromEnv getenv ParseDuration Sscanf_d
               (configload.setDefaults configload.zero)), None)
  end.
Proof. reflexivity. Qed.

Lemma NewConfig_accepted_iff :
  (exists c, load = (Some c, None)) <->
  getenv "SENDPULSE_DATABASE_DSN" <> EmptyString /\
  (getenv "SENDPULSE_SERVER_MODE" = EmptyString \/
   getenv "SENDPULSE_SERVER_MODE" = "dev" \/
   getenv "SENDPULSE_SERVER_MODE" = "prod").
Proof.
  rewrite NewConfig_no_file. unfold config.validate.
  cbn [configload.loadFromEnv configload.core config.ServerMode config.DatabaseDSN
       configload.setDefaults configload.zero].
  rewrite !or_keep_text.
  set (m := getenv "SENDPULSE_SERVER_MODE").
  set (d := getenv "SENDPULSE_DATABASE_DSN").
  destruct (String.eqb d EmptyString) eqn:Hd;
    destruct (String.eqb m EmptyString) eqn:Hm;
    destruct (String.eqb m config.ModeProd) eqn:Hp;
    destruct (String.eqb m config.ModeDev) eqn:Hv.
  all: cbn [negb andb]; rewrite ?Hd, ?Hm, ?Hp, ?Hv; cbn.
  all: repeat match goal with
              | H : String.eqb _ _ = true |- _ => apply String.eqb_eq in H
              | H : String.eqb _ _ = false |- _ => apply String.eqb_neq in H
              end.
  all: try (rewrite Hm in *; discriminate).
  all: try (rewrite Hp in *; discriminate).
  all: split.
  all: try (intros [c H]; discriminate).
  all: try (intros [c H]; split; [assumption | tauto]).
  all: try (intros [H1 H2]; contradiction).
  all: try (intros _; eexists; reflexivity).
  all: try (intros [H1 [H2|[H2|H2]]]; contradiction).
Qed.

End Loading.

(** X18. Loading without a configuration file succeeds exactly when the
    environment gives a DSN and leaves the server mode unset or sets it to
    dev or prod.  The messaging settings are not checked: whatever
    integer the retry count or the batch size scans to, negative or not,
    is the value of the loaded configuration, the defaults 3 and 2 stand
    when the variable is unset, and messaging is enabled exactly when its
    variable is the text true. *)
Theorem NewConfig_accepts
        (getenv : string -> string)
        (ParseDuration Sscanf_d : string -> option Z)
        (read_file : string -> configload.FileRead) :
  ((exists c,
       configload.NewConfig getenv ParseDuration Sscanf_d read_file EmptyString
         = (Some c, None)) <->
   getenv "SENDPULSE_DATABASE_DSN" <> EmptyString /\
   (getenv "SENDPULSE_SERVER_MODE" = EmptyString \/
    getenv "SENDPULSE_SERVER_MODE" = "dev" \/
    getenv "SENDPULSE_SERVER_MODE" = "prod")) /\
  (forall c,
      configload.NewConfig getenv ParseDuration Sscanf_d read_file EmptyString
        = (Some c, None) ->
      let m := config.messaging (configload.core c) in
      (forall n,
          getenv "SENDPULSE_MESSAGING_MAX_RETRIES" <> EmptyString ->
          Sscanf_d (getenv "SENDPULSE_MESSAGING_MAX_RETRIES") = Some n ->
          config.MaxRetries m = n) /\
      (forall n,
          getenv "SENDPULSE_MESSAGING_BATCH_SIZE" <> EmptyString ->
          Sscanf_d (getenv "SENDPULSE_MESSAGING_BATCH_SIZE") = Some n ->
          config.BatchSize m = n) /\
      (getenv "SENDPULSE_MESSAGING_MAX_RETRIES" = EmptyString -> config.MaxRetries m = 3) /\
      (getenv "SENDPULSE_MESSAGING_BATCH_SIZE" = EmptyString -> config.BatchSize m = 2) /\
      (config.Enabled m = true <-> getenv "SENDPULSE_MESSAGING_ENABLED" = "true")).
Proof.
  split; [apply NewConfig_accepted_iff|].
  intros c Hload. rewrite NewConfig_no_file in Hload.
  destruct (config.validate _); [discriminate|]. injection Hload as <-.
  cbn. unfold configload.or_keep. repeat split.
  - intros n Hset Hscan. apply String.eqb_neq in Hset. now rewrite Hset, Hscan.
  - intros n Hset Hscan. apply String.eqb_neq in Hset. now rewrite Hset, Hscan.
  - intros Hunset. now rewrite Hunset.
  - intros Hunset. now rewrite Hunset.
  - destruct (String.eqb (getenv "SENDPULSE_MESSAGING_ENABLED") EmptyString) eqn:E;
      [discriminate|].
    apply String.eqb_eq.
  - intros Htrue. rewrite Htrue. reflexivity.
Qed.

Lemma NewConfig_accepts_witness :
  exists c,
    configload.NewConfig an_environment no_duration ParseInt no_file EmptyString
      = (Some c, None) /\
    config.MaxRetries (config.messaging (configload.core c)) = -1.
Proof.
  pose proof (NewConfig_accepts an_environment no_duration ParseInt no_file)
    as [Hiff Hvalues].
  destruct (proj2 Hiff) as [c Hc].
  - split; [discriminate | left; reflexivity].
  - exists c. split; [exact Hc|].
    apply (proj1 (Hvalues c Hc)); [discriminate | reflexivity].
Defined.

(** ** From the receiver's answer to the row *)

(** X19. Delivery.  When the receiver fails the first [j] attempts for a
    message and answers attempt [j] with a status in [200, 300), no wait
    being cut short, the worker writes, in the rows with the message's
    id: status sent, sent_at, the receiver's message id as message_id and
    the marshalled response; every other field and row stays. *)
Theorem processMessage_delivers
        (json_Marshal : webhook.Response -> string) (cfg : config.Cfg)
        (we : service.WorkerEnv) (st : db.Store) (message : db.Message)
        (j : nat) (code : Z) (body : webhook.Decoded) :
  webhook.url_parses (service.http we) (config.WebhookURL cfg) = true ->
  config.MaxRetries (config.messaging cfg) < max_int ->
  Z.of_nat j <= config.MaxRetries (config.messaging cfg) ->
  (forall k, (k < j)%nat ->
             webhook.fails
               (webhook.reply (service.http we) k (config.WebhookURL cfg)
                              (webhook.mkPayload (db.To message) (db.Content message)))
             = true) ->
  (forall a, 0 < a <= Z.of_nat j -> webhook.ctx_done (service.http we) a = None) ->
  webhook.reply (service.http we) j (config.WebhookURL cfg)
                (webhook.mkPayload (db.To message) (db.Content message))
    = webhook.DoResponse code body ->
  200 <= code < 300 ->
  (j < service.fuel we)%nat ->
  service.update_fault we = None ->
  service.processMessage json_Marshal cfg we st message =
    Some (Returns
            (db.mkStore
               (map (fun r =>
                       if db.ID r =? db.ID message then
                         db.mkMessage
                           (db.ID r) (db.To r) (db.Content r)
                           db.MessageStatusSent
                           (Some (service.now_sent we))
                           (Some (webhook.body_messageId body))
                           (Some (json_Marshal
                                    (webhook.mkResponse
                                       code
                                       (if webhook.decode_failed body
                                        then "failed to decode response"
                                        else webhook.body_message body)
                                       (webhook.body_messageId body)
                                       (webhook.clock (service.http we) j))))
                           (db.CreatedAt r)
                           (service.now_update we)
                       else r)
                    (db.rows st))
               (db.next_id st))).
Proof.
  intros Hurl Hmax Hj Hfail Hctx Hreply Hcode Hfuel Hfault.
  unfold service.processMessage.
  rewrite (retry_first_success (service.http we) cfg _ (service.fuel we) 0 j code body);
    try assumption.
  unfold db.UpdateMessageStatus. rewrite Hfault. reflexivity.
Qed.

Lemma processMessage_delivers_witness :
  service.processMessage plain_json (cfg_with 2 3) (worker_env (fail_then_ok 2))
                         (db.mkStore [a_sending_row] 2) a_sending_row =
    Some (Returns
            (db.mkStore
               (map (fun r =>
                       if db.ID r =? db.ID a_sending_row then
                         db.mkMessage
                           (db.ID r) (db.To r) (db.Content r)
                           db.MessageStatusSent
                           (Some (service.now_sent (worker_env (fail_then_ok 2))))
                           (Some "retry-123")
                           (Some (plain_json
                                    (webhook.mkResponse 200 "Accepted" "retry-123" 2)))
                           (db.CreatedAt r)
                           (service.now_update (worker_env (fail_then_ok 2)))
                       else r)
                    (db.rows (db.mkStore [a_sending_row] 2)))
               (db.next_id (db.mkStore [a_sending_row] 2)))).
Proof.
  apply (processMessage_delivers plain_json (cfg_with 2 3) (worker_env (fail_then_ok 2))
           (db.mkStore [a_sending_row] 2) a_sending_row 2 200
           (webhook.mkDecoded "Accepted" "retry-123" false)).
  - reflexivity.
  - vm_compute. reflexivity.
  - vm_compute. discriminate.
  - intros k Hk. cbn. destruct k as [|[|k]]; [reflexivity | reflexivity | lia].
  - intros a Ha. reflexivity.
  - reflexivity.
  - lia.
  - cbn. lia.
  - reflexivity.
Defined.

(** X20. Giving up.  When every attempt for a message fails and the
    context is never done, the worker, after its [MaxRetries + 1]
    attempts, writes status failed in the rows with the message's id and
    leaves sent_at, message_id and webhook_response as they were. *)
Theorem processMessage_gives_up
        (json_Marshal : webhook.Response -> string) (cfg : config.Cfg)
        (we : service.WorkerEnv) (st : db.Store) (message : db.Message) :
  webhook.url_parses (service.http we) (config.WebhookURL cfg) = true ->
  0 <= config.MaxRetries (config.messaging cfg) < max_int ->
  (forall k,
      webhook.fails
        (webhook.reply (service.http we) k (config.WebhookURL cfg)
                       (webhook.mkPayload (db.To message) (db.Content message)))
      = true) ->
  (forall a, webhook.ctx_done (service.http we) a = None) ->
  (Z.to_nat (config.MaxRetries (config.messaging cfg)) + 1 < service.fuel we)%nat ->
  service.update_fault we = None ->
  service.processMessage json_Marshal cfg we st message =
    Some (Returns
            (db.mkStore
               (map (fun r =>
                       if db.ID r =? db.ID message then
                         db.mkMessage
                           (db.ID r) (db.To r) (db.Content r)
                           db.MessageStatusFailed
                           (db.SentAt r) (db.MessageID r) (db.WebhookResponse r)
                           (db.CreatedAt r)
                           (service.now_update we)
                       else r)
                    (db.rows st))
               (db.next_id st))).
Proof.
  intros Hurl Hrange Hfail Hctx Hfuel Hfault.
  unfold service.processMessage, webhook.SendMessageWithRetry.
  rewrite (retryLoop_all_fail (service.http we) cfg _ Hurl Hfail Hctx (proj2 Hrange)
             (Z.to_nat (config.MaxRetries (config.messaging cfg) + 1)) 0
             (service.fuel we) None None 0); [| lia | lia | lia].
  replace (Z.to_nat (config.MaxRetries (config.messaging cfg) + 1))
    with (S (Z.to_nat (config.MaxRetries (config.messaging cfg)))) by lia.
  cbn [last_of].
  destruct (SendMessage_fails (service.http we) cfg
              (webhook.mkPayload (db.To message) (db.Content message))
              (0 + Z.to_nat (config.MaxRetries (config.messaging cfg))) Hurl (Hfail _))
    as (response & e & Hsend).
  rewrite Hsend. cbn [fst snd].
  unfold db.UpdateMessageStatus. rewrite Hfault. reflexivity.
Qed.

Lemma processMessage_gives_up_witness :
  service.processMessage plain_json (cfg_with 2 3) (worker_env (always_status 500))
                         (db.mkStore [a_sending_row] 2) a_sending_row =
    Some (Returns
            (db.mkStore
               (map (fun r =>
                       if db.ID r =? db.ID a_sending_row then
                         db.mkMessage
                           (db.ID r) (db.To r) (db.Content r)
                           db.MessageStatusFailed
                           (db.SentAt r) (db.MessageID r) (db.WebhookResponse r)
                           (db.CreatedAt r)
                           (service.now_update (worker_env (always_status 500)))
                       else r)
                    (db.rows (db.mkStore [a_sending_row] 2)))
               (db.next_id (db.mkStore [a_sending_row] 2)))).
Proof.
  apply (processMessage_gives_up plain_json (cfg_with 2 3) (worker_env (always_status 500))
           (db.mkStore [a_sending_row] 2) a_sending_row).
  - reflexivity.
  - vm_compute. split; [discriminate | reflexivity].
  - intros k. reflexivity.
  - intros a. reflexivity.
  - cbn. lia.
  - reflexivity.
Defined.

(** ** What the queue hands out is what the table holds *)




(** X22. Claim, then lookup.  In a table with unique non-zero keys, the
    message ClaimNextMessage returns is the row GetMessageByID finds
    under its id in the table the claim leaves. *)
Theorem ClaimNextMessage_then_lookup
        (now : Time) (fault : option error) (st st' : db.Store)
        (row : db.Message) (err : option error) :
  wf_store st ->
  db.ClaimNextMessage now fault st = (st', Some row, err) ->
  queries.GetMessageByID None st' (db.ID row) = (row, None).
Proof.
  intros Hwf Hclaim.
  destruct (claim_takes_oldest _ _ _ _ _ _ Hwf Hclaim)
    as (r & Hin & _ & _ & -> & ->).
  unfold queries.GetMessageByID. cbn [db.rows claimed db.ID].
  destruct Hwf as [Hnd _].
  rewrite (find_update (claimed now)) by reflexivity.
  rewrite Z.eqb_refl, (find_by_id _ _ Hnd Hin). reflexivity.
Qed.

Lemma ClaimNextMessage_then_lookup_witness :
  wf_store three_rows /\
  queries.GetMessageByID None (fst (fst (db.ClaimNextMessage 50 None three_rows))) 3
  = (db.mkMessage 3 "+905553333333" "third" db.MessageStatusSending
                  None None None 20 50, None).
Proof.
  assert (Hwf : wf_store three_rows).
  { split; cbn.
    - repeat constructor; cbn; intuition lia.
    - intuition lia. }
  split; [exact Hwf |].
  apply (ClaimNextMessage_then_lookup 50 None three_rows _
           (db.mkMessage 3 "+905553333333" "third" db.MessageStatusSending
                         None None None 20 50) None Hwf).
  reflexivity.
Defined.
